(** * streamlit-analytics2: the Counter Store and its lifecycle

    A shallow embedding of [src/streamlit_analytics2/main.py]
    ([reset_counts], [_track_user], [start_tracking], [stop_tracking] and
    [track]) with the properties its specification states about them.

    The Python objects the module touches are modelled as follows.
    - [counts] (the process-wide dict of [tracker.py]) and
      [st.session_state] are finite maps from strings to Python values;
    - Python values are the fragment [pyval]: what [json.loads] can produce,
      dictionaries keyed by strings or integers, and [datetime] objects, with
      the exceptions Python raises on them;
    - a statement that can raise is a computation in the monad [M], which
      threads the [world] and keeps the state reached when the exception
      was raised;
    - the clock ([datetime.date.today()], [datetime.datetime.now()]) is an
      argument of the function that reads it;
    - a file holds a JSON document or a text that is none: [json.dump] and
      [json.loads] are modelled on JSON values, not on characters; the file
      system is a table from paths to files and directories (access rights
      and free space are not in it);
    - [firestore.load], [firestore.save] and [display.show_results], which
      are not part of [main.py], are variables of the sections that use
      them; the wrappers of [wrappers.py] appear as the constructor
      [Wrapped] of function objects. *)

From Stdlib Require Import ZArith String Ascii List.
From Stdlib Require Import PrimFloat SpecFloat FloatOps.
From stdpp Require Import gmap strings list fin_maps pretty.

Set Warnings "-register-all".
Local Open Scope string_scope.
Local Open Scope Z_scope.
Local Open Scope list_scope.

(** ** Python values *)

(** Keys of a nested dictionary: strings (everything that comes out of
    JSON) and integers (an option of a select box, a slider position). *)
Inductive pykey :=
| KStr (s : string)
| KInt (z : Z).

(** [PDict] keeps the entries in insertion order, as a Python dict does.
    [PDatetime t] is a naive [datetime.datetime], in microseconds. *)
Inductive pyval :=
| PNone
| PBool (b : bool)
| PInt (z : Z)
| PFloat (f : float)
| PStr (s : string)
| PList (l : list pyval)
| PDict (d : list (pykey * pyval))
| PDatetime (t : Z).

Inductive exn :=
| KeyError
| IndexError
| TypeError
| AttributeError
| OverflowError
| FileNotFoundError
| FileExistsError
| NotADirectoryError
| IsADirectoryError
| OSError
| JSONDecodeError
| ValueError
| RecursionError
| RemoteError.

Inductive outcome (A : Type) :=
| Ret (a : A)
| Raise (e : exn).
Arguments Ret {A} a.
Arguments Raise {A} e.

#[global] Instance pykey_eq_dec : EqDecision pykey.
Proof. solve_decision. Defined.

#[global] Instance exn_eq_dec : EqDecision exn.
Proof. solve_decision. Defined.

(** *** Dictionaries in insertion order *)

Fixpoint dict_get (d : list (pykey * pyval)) (k : pykey) : option pyval :=
  match d with
  | [] => None
  | (k', v) :: d' => if decide (k' = k) then Some v else dict_get d' k
  end.

(** [d[k] = v]: an existing key keeps its place, a new one goes last. *)
Fixpoint dict_set (d : list (pykey * pyval)) (k : pykey) (v : pyval)
  : list (pykey * pyval) :=
  match d with
  | [] => [(k, v)]
  | (k', v') :: d' =>
      if decide (k' = k) then (k, v) :: d' else (k', v') :: dict_set d' k v
  end.

Definition dict_keys (d : list (pykey * pyval)) : list pykey := d.*1.

(** *** Numbers *)

(** [float(z)]: round to nearest even; Python raises [OverflowError] where
    the result would not be finite. *)
Definition float_of_Z (z : Z) : outcome float :=
  let f := SF2Prim (binary_normalize prec emax z 0 false) in
  if PrimFloat.is_infinity f then Raise OverflowError else Ret f.

(** [v + n] for a number [n]; [bool] is a subclass of [int]. *)
Definition as_int (v : pyval) : option Z :=
  match v with
  | PInt z => Some z
  | PBool b => Some (Z.b2z b)
  | _ => None
  end.

Definition py_add (v n : pyval) : outcome pyval :=
  match as_int v, as_int n with
  | Some a, Some b => Ret (PInt (a + b))
  | _, _ =>
      match v, n with
      | PFloat a, PFloat b => Ret (PFloat (a + b)%float)
      | PFloat a, _ =>
          match as_int n with
          | Some b =>
              match float_of_Z b with
              | Ret fb => Ret (PFloat (a + fb)%float)
              | Raise e => Raise e
              end
          | None => Raise TypeError
          end
      | _, PFloat b =>
          match as_int v with
          | Some a =>
              match float_of_Z a with
              | Ret fa => Ret (PFloat (fa + b)%float)
              | Raise e => Raise e
              end
          | None => Raise TypeError
          end
      | _, _ => Raise TypeError
      end
  end.

(** Truth value of an object ([not x], [if x]). *)
Definition truthy (v : pyval) : bool :=
  match v with
  | PNone => false
  | PBool b => b
  | PInt z => negb (Z.eqb z 0)
  | PFloat f => negb (PrimFloat.eqb f 0%float)
  | PStr s => negb (String.eqb s "")
  | PList l => match l with [] => false | _ => true end
  | PDict d => match d with [] => false | _ => true end
  | PDatetime _ => true
  end.

(** [v == s] for a string [s]. *)
Definition py_eq_str (v : pyval) (s : string) : bool :=
  match v with
  | PStr s' => String.eqb s' s
  | _ => false
  end.

(** *** Subscripts

    The module subscripts with string literals ([v["days"]]) and with [-1]
    ([v[-1]]) only. *)

(** [v[s]] for a string [s] *)
Definition py_getkey (v : pyval) (s : string) : outcome pyval :=
  match v with
  | PDict d =>
      match dict_get d (KStr s) with Some x => Ret x | None => Raise KeyError end
  | _ => Raise TypeError
  end.

Definition string_of_ascii (a : ascii) : string := String a EmptyString.

(** [v[-1]]: the last element of a list, the last character of a string,
    the entry of key [-1] of a dict. *)
Definition py_last (v : pyval) : outcome pyval :=
  match v with
  | PList l =>
      match last l with Some x => Ret x | None => Raise IndexError end
  | PStr s =>
      match String.get (String.length s - 1)%nat s with
      | Some a => Ret (PStr (string_of_ascii a))
      | None => Raise IndexError
      end
  | PDict d =>
      match dict_get d (KInt (-1)) with Some x => Ret x | None => Raise KeyError end
  | _ => Raise TypeError
  end.

(** [v[-1] = x], giving the updated container. *)
Definition py_set_last (v x : pyval) : outcome pyval :=
  match v with
  | PList l =>
      match l with
      | [] => Raise IndexError
      | _ => Ret (PList (<[pred (length l) := x]> l))
      end
  | PDict d => Ret (PDict (dict_set d (KInt (-1)) x))
  | _ => Raise TypeError
  end.

(** [v.append(x)] *)
Definition py_append (v x : pyval) : outcome pyval :=
  match v with
  | PList l => Ret (PList (l ++ [x]))
  | _ => Raise AttributeError
  end.

(** ** Dates

    [datetime.date] is a triple (year, month, day) of the proleptic
    Gregorian calendar, [date.min] being 0001-01-01. *)

Record date := Date { year : Z; month : Z; day : Z }.

Definition is_leap (y : Z) : bool :=
  (y mod 4 =? 0) && (negb (y mod 100 =? 0) || (y mod 400 =? 0)).

Definition days_in_month (y m : Z) : Z :=
  if m =? 2 then (if is_leap y then 29 else 28)
  else if (m =? 4) || (m =? 6) || (m =? 9) || (m =? 11) then 30
  else 31.

Definition valid_date (d : date) : bool :=
  (1 <=? year d) && (year d <=? 9999) &&
  (1 <=? month d) && (month d <=? 12) &&
  (1 <=? day d) && (day d <=? days_in_month (year d) (month d)).

(** [d - datetime.timedelta(days=1)]; below [date.min] it raises. *)
Definition day_before (d : date) : outcome date :=
  if 1 <? day d then Ret (Date (year d) (month d) (day d - 1))
  else if 1 <? month d then
    Ret (Date (year d) (month d - 1) (days_in_month (year d) (month d - 1)))
  else if 1 <? year d then Ret (Date (year d - 1) 12 31)
  else Raise OverflowError.

(** [d < d'], the order of the calendar. *)
Definition date_ltb (d d' : date) : bool :=
  (year d <? year d') ||
  ((year d =? year d') &&
   ((month d <? month d') || ((month d =? month d') && (day d <? day d')))).

(** [d.toordinal()]: the number of the day, 0001-01-01 being day 1. *)
Definition days_before_year (y : Z) : Z :=
  (y - 1) * 365 + (y - 1) / 4 - (y - 1) / 100 + (y - 1) / 400.

Definition days_before_month (y m : Z) : Z :=
  nth (Z.to_nat m) [-1; 0; 31; 59; 90; 120; 151; 181; 212; 243; 273; 304; 334] 0
  + (if (2 <? m) && is_leap y then 1 else 0).

Definition toordinal (d : date) : Z :=
  days_before_year (year d) + days_before_month (year d) (month d) + day d.

Definition digit (z : Z) : ascii := ascii_of_nat (48 + Z.to_nat (z mod 10)).

Definition pad2 (z : Z) : string :=
  String (digit (z / 10)) (String (digit z) EmptyString).

Definition pad4 (z : Z) : string :=
  String (digit (z / 1000)) (String (digit (z / 100)) (pad2 z)).

(** [str(d)], the ISO form YYYY-MM-DD. *)
Definition date_str (d : date) : string :=
  pad4 (year d) +:+ "-" +:+ pad2 (month d) +:+ "-" +:+ pad2 (day d).

(** One reading of the clock: [datetime.date.today()],
    [datetime.datetime.now()] in microseconds, and the text
    [now.strftime("%d %b %Y, %H:%M:%S")] (it depends on the locale). *)
Record clock := Clock { today : date; now : Z; now_text : string }.

(** [delta.total_seconds()] for a difference of [us] microseconds; exact
    below 2^53 microseconds. *)
Definition total_seconds (us : Z) : float :=
  (SF2Prim (binary_normalize prec emax us 0 false) / 1000000)%float.

(** ** JSON documents and the file system *)

Inductive json :=
| JNull
| JBool (b : bool)
| JInt (z : Z)
| JFloat (f : float)
| JStr (s : string)
| JArr (l : list json)
| JObj (l : list (string * json)).

(** What a file holds, as far as [json.loads] can tell: the text of a JSON
    document, or a text that is none. *)
Inductive text :=
| Document (j : json)
| Garbled.

Inductive node :=
| File (t : text)
| Directory.

(** [int.__repr__(z)], which [json.dump] calls for an integer, raises
    [ValueError] when [z] has more than [sys.int_max_str_digits] decimal
    digits, 4300 unless the interpreter is told otherwise. *)
Definition int_max_str_digits : Z := 4300.

Definition int_str_bound : Z := Eval vm_compute in 10 ^ 4300.

Definition int_too_long (z : Z) : bool := int_str_bound <=? Z.abs z.

Arguments int_too_long : simpl never.

(** The key a dict key is written under: [json.dump] turns an integer key
    into its decimal numeral. *)
Definition json_key (k : pykey) : outcome string :=
  match k with
  | KStr s => Ret s
  | KInt z => if int_too_long z then Raise ValueError else Ret (pretty z)
  end.

(** The JSON value [json.dump] writes for [v]. Every list and every dict
    inside [v] takes one more level of calls, and [depth] is how many the
    interpreter's recursion limit leaves; a [datetime] is not
    serializable. *)
Fixpoint json_encode (depth : nat) (v : pyval) {struct v} : outcome json :=
  match v with
  | PNone => Ret JNull
  | PBool b => Ret (JBool b)
  | PInt z => if int_too_long z then Raise ValueError else Ret (JInt z)
  | PFloat f => Ret (JFloat f)
  | PStr s => Ret (JStr s)
  | PList l =>
      match depth with
      | O => Raise RecursionError
      | S depth' =>
          let fix items (l : list pyval) : outcome (list json) :=
            match l with
            | [] => Ret []
            | x :: l' =>
                match json_encode depth' x with
                | Ret j =>
                    match items l' with
                    | Ret js => Ret (j :: js)
                    | Raise e => Raise e
                    end
                | Raise e => Raise e
                end
            end in
          match items l with
          | Ret js => Ret (JArr js)
          | Raise e => Raise e
          end
      end
  | PDict d =>
      match depth with
      | O => Raise RecursionError
      | S depth' =>
          let fix members (d : list (pykey * pyval)) : outcome (list (string * json)) :=
            match d with
            | [] => Ret []
            | (k, x) :: d' =>
                match json_key k with
                | Ret s =>
                    match json_encode depth' x with
                    | Ret j =>
                        match members d' with
                        | Ret js => Ret ((s, j) :: js)
                        | Raise e => Raise e
                        end
                    | Raise e => Raise e
                    end
                | Raise e => Raise e
                end
            end in
          match members d with
          | Ret js => Ret (JObj js)
          | Raise e => Raise e
          end
      end
  | PDatetime _ => Raise TypeError
  end.

(** The object [json.loads] builds from a JSON value; of a repeated member
    name the last value stays. *)
Fixpoint json_decode (j : json) : pyval :=
  match j with
  | JNull => PNone
  | JBool b => PBool b
  | JInt z => PInt z
  | JFloat f => PFloat f
  | JStr s => PStr s
  | JArr l => PList (json_decode <$> l)
  | JObj l =>
      PDict (fold_left (fun d '(k, x) => dict_set d (KStr k) (json_decode x)) l [])
  end.

(** ** Widget entry points *)

Inductive widget :=
| button | checkbox | radio | selectbox | multiselect | slider
| select_slider | text_input | number_input | text_area | date_input
| time_input | file_uploader | color_picker | chat_input.

(** [st.<widget>] and [st.sidebar.<widget>] *)
Inductive place := Main | Sidebar.

Inductive wrapper :=
| _wrap_button | _wrap_checkbox | _wrap_select | _wrap_multiselect
| _wrap_value | _wrap_file_uploader | _wrap_chat_input.

(** Function objects: Streamlit's own implementation of an entry point, the
    closure a wrapper of [wrappers.py] returns for a function, or any other
    callable. *)
Inductive fn :=
| Native (p : place) (w : widget)
| Wrapped (k : wrapper) (f : fn)
| Foreign (n : nat).

#[global] Instance widget_eq_dec : EqDecision widget.
Proof. solve_decision. Defined.

#[global] Instance place_eq_dec : EqDecision place.
Proof. solve_decision. Defined.

(** The attribute table of [st] and [st.sidebar]. *)
Definition attrs : Type := place -> widget -> fn.

(** [st.w = f] or [st.sidebar.w = f] *)
Definition set_attr (p : place) (w : widget) (f : fn) (t : attrs) : attrs :=
  fun p' w' => if decide (p' = p /\ w' = w) then f else t p' w'.

(** ** The world *)

Inductive page_item :=
| Markdown (s : string)
| Dashboard.

Inductive log_record :=
| LogInfo (s : string)
| LogInfoCounts (c : gmap string pyval)
| LogWarning (s : string)
| LogError (s : string) (e : exn)
| Printed (s : string)
| PrintedCounts (c : gmap string pyval).

Record world := World {
  counts : gmap string pyval;          (* tracker.counts *)
  session_state : gmap string pyval;   (* st.session_state *)
  st : attrs;                          (* st.* and st.sidebar.* *)
  files : gmap string node;            (* the file system *)
  query_params : gmap string string;   (* st.query_params *)
  page : list page_item;               (* what the script has written *)
  log : list log_record;               (* logging and print output *)
  stack : nat                          (* how deep [json.dump] can follow the
                                          values of [counts] at line 314
                                          before the recursion limit *)
}.

Definition with_counts (c : gmap string pyval) (w : world) : world :=
  World c (session_state w) (st w) (files w) (query_params w) (page w) (log w) (stack w).

Definition with_session (s : gmap string pyval) (w : world) : world :=
  World (counts w) s (st w) (files w) (query_params w) (page w) (log w) (stack w).

Definition with_st (t : attrs) (w : world) : world :=
  World (counts w) (session_state w) t (files w) (query_params w) (page w) (log w) (stack w).

Definition with_files (f : gmap string node) (w : world) : world :=
  World (counts w) (session_state w) (st w) f (query_params w) (page w) (log w) (stack w).

Definition with_page (p : list page_item) (w : world) : world :=
  World (counts w) (session_state w) (st w) (files w) (query_params w) p (log w) (stack w).

Definition with_log (l : list log_record) (w : world) : world :=
  World (counts w) (session_state w) (st w) (files w) (query_params w) (page w) l (stack w).

(** ** Statements that can raise *)

Definition M (A : Type) : Type := world -> outcome A * world.

Definition ret {A} (a : A) : M A := fun w => (Ret a, w).

Definition raise {A} (e : exn) : M A := fun w => (Raise e, w).

Definition bind {A B} (m : M A) (k : A -> M B) : M B :=
  fun w =>
    match m w with
    | (Ret a, w') => k a w'
    | (Raise e, w') => (Raise e, w')
    end.

Notation "'let*' x ':=' m 'in' k" := (bind m (fun x => k))
  (at level 10, x name, m at level 100, k at level 200).
Notation "m ';;' k" := (bind m (fun _ => k))
  (at level 100, k at level 200, right associativity).

(** The value of an expression that can raise. *)
Definition lift {A} (o : outcome A) : M A := fun w => (o, w).

(** [try: m except: h] *)
Definition try_except {A} (m : M A) (h : exn -> M A) : M A :=
  fun w =>
    match m w with
    | (Ret a, w') => (Ret a, w')
    | (Raise e, w') => h e w'
    end.

Definition when (b : bool) (m : M unit) : M unit :=
  if b then m else ret tt.

(** [counts[k]] *)
Definition counts_get (k : string) : M pyval :=
  fun w =>
    match counts w !! k with
    | Some v => (Ret v, w)
    | None => (Raise KeyError, w)
    end.

(** [counts[k] = v] *)
Definition counts_set (k : string) (v : pyval) : M unit :=
  fun w => (Ret tt, with_counts (<[k := v]> (counts w)) w).

(** [st.session_state.k]; a missing attribute raises. *)
Definition session_get (k : string) : M pyval :=
  fun w =>
    match session_state w !! k with
    | Some v => (Ret v, w)
    | None => (Raise AttributeError, w)
    end.

(** [st.session_state.k = v] *)
Definition session_set (k : string) (v : pyval) : M unit :=
  fun w => (Ret tt, with_session (<[k := v]> (session_state w)) w).

(** [k in st.session_state] *)
Definition session_has (k : string) : M bool :=
  fun w => (Ret (bool_decide (is_Some (session_state w !! k))), w).

Definition emit (r : log_record) : M unit :=
  fun w => (Ret tt, with_log (log w ++ [r]) w).

Definition write (i : page_item) : M unit :=
  fun w => (Ret tt, with_page (page w ++ [i]) w).

Definition assign (p : place) (x : widget) (f : fn) : M unit :=
  fun w => (Ret tt, with_st (set_attr p x f (st w)) w).

Definition obind {A B} (o : outcome A) (k : A -> outcome B) : outcome B :=
  match o with
  | Ret a => k a
  | Raise e => Raise e
  end.

(** [counts[k] += n] *)
Definition counts_add (k : string) (n : pyval) : M unit :=
  let* v := counts_get k in
  let* v' := lift (py_add v n) in
  counts_set k v'.

(** A statement on [counts["per_day"][field]]: the sequence is fetched, [f]
    gives what the statement leaves in its place. *)
Definition per_day_update (field : string) (f : pyval -> outcome pyval) : M unit :=
  let* per_day := counts_get "per_day" in
  let* seq := lift (py_getkey per_day field) in
  let* seq' := lift (f seq) in
  match per_day with
  | PDict d => counts_set "per_day" (PDict (dict_set d (KStr field) seq'))
  | _ => raise TypeError
  end.

(** [seq[-1] += 1] *)
Definition incr_last (seq : pyval) : outcome pyval :=
  obind (py_last seq) (fun x =>
  obind (py_add x (PInt 1)) (fun y =>
  py_set_last seq y)).

(** ** [reset_counts] (main.py, lines 30-38) *)

Definition reset_counts (clk : clock) : M unit :=
  let* y := lift (day_before (today clk)) in
  let yesterday := date_str y in
  counts_set "total_pageviews" (PInt 0) ;;
  counts_set "total_script_runs" (PInt 0) ;;
  counts_set "total_time_seconds" (PInt 0) ;;
  counts_set "per_day"
    (PDict [(KStr "days", PList [PStr yesterday]);
            (KStr "pageviews", PList [PInt 0]);
            (KStr "script_runs", PList [PInt 0])]) ;;
  counts_set "widgets" (PDict []) ;;
  counts_set "start_time" (PStr (now_text clk)).

(** ** [_track_user] (main.py, lines 88-104) *)

(** Lines 91-95: a new day is opened when the last recorded day is not
    today. *)
Definition open_day (today : string) : M unit :=
  let* per_day := counts_get "per_day" in
  let* days := lift (py_getkey per_day "days") in
  let* last := lift (py_last days) in
  when (negb (py_eq_str last today))
    (per_day_update "days" (fun seq => py_append seq (PStr today)) ;;
     per_day_update "pageviews" (fun seq => py_append seq (PInt 0)) ;;
     per_day_update "script_runs" (fun seq => py_append seq (PInt 0))).

(** [(now - last_time).total_seconds()] *)
Definition elapsed (now : Z) (last_time : pyval) : outcome pyval :=
  match last_time with
  | PDatetime t => Ret (PFloat (total_seconds (now - t)))
  | _ => Raise TypeError
  end.

(** Lines 96-104: the increments of one rerun. *)
Definition count_run (clk : clock) : M unit :=
  counts_add "total_script_runs" (PInt 1) ;;
  per_day_update "script_runs" incr_last ;;
  let* total := counts_get "total_time_seconds" in
  let* last_time := session_get "last_time" in
  let* dt := lift (elapsed (now clk) last_time) in
  let* total' := lift (py_add total dt) in
  counts_set "total_time_seconds" total' ;;
  session_set "last_time" (PDatetime (now clk)) ;;
  let* tracked := session_get "user_tracked" in
  when (negb (truthy tracked))
    (session_set "user_tracked" (PBool true) ;;
     counts_add "total_pageviews" (PInt 1) ;;
     per_day_update "pageviews" incr_last).

Definition _track_user (clk : clock) : M unit :=
  open_day (date_str (today clk)) ;;
  count_run clk.

(** ** Reading and writing the snapshot *)

(** [Path(p).read_text()] *)
Definition read_text (p : string) : M text :=
  fun w =>
    match files w !! p with
    | None => (Raise FileNotFoundError, w)
    | Some Directory => (Raise OSError, w)
    | Some (File t) => (Ret t, w)
    end.

(** [json.loads(t)] *)
Definition json_loads (t : text) : outcome pyval :=
  match t with
  | Document j => Ret (json_decode j)
  | Garbled => Raise JSONDecodeError
  end.

Definition key_val (k : pykey) : pyval :=
  match k with
  | KStr s => PStr s
  | KInt z => PInt z
  end.

(** [for k in v]: the keys of a dict, the elements of a list, the
    characters of a string. *)
Definition py_iter (v : pyval) : outcome (list pyval) :=
  match v with
  | PDict d => Ret (key_val <$> dict_keys d)
  | PList l => Ret l
  | PStr s => Ret ((fun a => PStr (string_of_ascii a)) <$> list_ascii_of_string s)
  | _ => Raise TypeError
  end.

(** [{k: json_counts[k] for k in json_counts if k in counts}] as the list of
    its entries, [ks] being what is left of the iteration. The keys of
    [counts] are strings: no other hashable object is in it, and a list or
    a dict is not hashable. *)
Fixpoint snapshot_items (c : gmap string pyval) (json_counts : pyval)
  (ks : list pyval) : outcome (list (string * pyval)) :=
  match ks with
  | [] => Ret []
  | k :: ks' =>
      match k with
      | PStr s =>
          if bool_decide (is_Some (c !! s)) then
            obind (py_getkey json_counts s) (fun v =>
            obind (snapshot_items c json_counts ks') (fun r =>
            Ret ((s, v) :: r)))
          else snapshot_items c json_counts ks'
      | PList _ | PDict _ => Raise TypeError
      | _ => snapshot_items c json_counts ks'
      end
  end.

(** [counts.update(items)] *)
Definition counts_update (items : list (string * pyval)) : M unit :=
  fun w =>
    (Ret tt,
     with_counts (fold_left (fun c '(k, v) => <[k := v]> c) items (counts w)) w).

(** Lines 131-136: read, parse and merge. *)
Definition merge_snapshot (p : string) : M unit :=
  let* json_contents := read_text p in
  let* json_counts := lift (json_loads json_contents) in
  let* ks := lift (py_iter json_counts) in
  let* items := (fun w => (snapshot_items (counts w) json_counts ks, w)) in
  counts_update items.

Definition emit_counts : M unit :=
  fun w => (Ret tt, with_log (log w ++ [LogInfoCounts (counts w)]) w).

(** Lines 127-150 of [start_tracking]. *)
Definition load_json (verbose : bool) (load_from_json : option string) : M unit :=
  match load_from_json with
  | None => ret tt
  | Some p =>
      try_except
        (merge_snapshot p ;;
         when verbose
           (emit (LogInfo ("Loading counts from json: " +:+ p)) ;;
            emit (LogInfo "Success! Loaded counts:") ;;
            emit_counts))
        (fun e =>
           match e with
           | FileNotFoundError =>
               when verbose
                 (emit (LogWarning
                    ("File " +:+ p +:+ " not found, proceeding with empty counts.")))
           | _ => emit (LogError ("Error loading counts from " +:+ p) e)
           end)
  end.

(** ** Paths and directories *)

(** A [pathlib.Path]: the root (["/"], ["//"] or none) and the parts after
    it, the last part first. *)
Record path := MkPath { root : string; rparts : list string }.

Definition path_root (s : string) : string :=
  if String.prefix "//" s && negb (String.prefix "///" s) then "//"
  else if String.prefix "/" s then "/"
  else "".

(** A part is kept unless it is empty or a dot. *)
Definition push_part (cur : string) (acc : list string) : list string :=
  if String.eqb cur "" || String.eqb cur "." then acc else cur :: acc.

Fixpoint scan_parts (s cur : string) (acc : list string) : list string :=
  match s with
  | EmptyString => push_part cur acc
  | String c s' =>
      if Ascii.eqb c "/" then scan_parts s' "" (push_part cur acc)
      else scan_parts s' (cur +:+ String c "") acc
  end.

(** [Path(s)] *)
Definition Path (s : string) : path := MkPath (path_root s) (scan_parts s "" []).

(** [str(d)] *)
Definition path_str (d : path) : string :=
  match rparts d with
  | [] => if String.eqb (root d) "" then "." else root d
  | _ => root d +:+ String.concat "/" (rev (rparts d))
  end.

(** [d.parent]; the root and the current directory are their own parent. *)
Definition parent (d : path) : path := MkPath (root d) (tail (rparts d)).

(** What [d] leads to in the table of files; the root and the current
    directory are directories. *)
Definition node_at (f : gmap string node) (d : path) : option node :=
  match rparts d with
  | [] => Some Directory
  | _ => f !! path_str d
  end.

(** [os.mkdir(d)] *)
Definition os_mkdir (d : path) : M unit :=
  fun w =>
    match node_at (files w) d with
    | Some _ => (Raise FileExistsError, w)
    | None =>
        match node_at (files w) (parent d) with
        | Some Directory =>
            (Ret tt, with_files (<[path_str d := Directory]> (files w)) w)
        | Some (File _) => (Raise NotADirectoryError, w)
        | None => (Raise FileNotFoundError, w)
        end
    end.

(** [d.is_dir()] *)
Definition is_dir (d : path) : M bool :=
  fun w =>
    (Ret match node_at (files w) d with Some Directory => true | _ => false end, w).

(** The [except OSError] clause of [Path.mkdir] with [exist_ok=True]. *)
Definition unless_is_dir (d : path) (e : exn) : M unit :=
  let* dir := is_dir d in
  if dir then ret tt else raise e.

(** [d.mkdir(parents=False, exist_ok=True)] *)
Definition mkdir_one (d : path) : M unit :=
  try_except (os_mkdir d)
    (fun e =>
       match e with
       | FileNotFoundError => raise e
       | _ => unless_is_dir d e
       end).

(** [MkPath r ps .mkdir(parents=True, exist_ok=True)]: when the parent is
    missing it is made first, in the same way. *)
Fixpoint mkdir_parents (r : string) (ps : list string) : M unit :=
  try_except (os_mkdir (MkPath r ps))
    (fun e =>
       match e with
       | FileNotFoundError =>
           match ps with
           | [] => raise e
           | _ :: up => mkdir_parents r up ;; mkdir_one (MkPath r ps)
           end
       | _ => unless_is_dir (MkPath r ps) e
       end).

Definition mkdir (d : path) : M unit := mkdir_parents (root d) (rparts d).

(** [file_path.open("w")]: the file is made, or emptied; an empty file is
    no JSON document. The file is looked up under the path as it is
    spelled, as [read_text] does. *)
Definition open_w (p : string) : M unit :=
  fun w =>
    match node_at (files w) (Path p), files w !! p with
    | Some Directory, _ | _, Some Directory => (Raise IsADirectoryError, w)
    | _, _ => (Ret tt, with_files (<[p := File Garbled]> (files w)) w)
    end.

(** Lines 307-313 of [stop_tracking]: the directory of the snapshot is
    made where it is missing, and the file is opened. *)
Definition open_snapshot (p : string) : M unit :=
  mkdir (parent (Path p)) ;;
  open_w p.

(** The members [json.dump(counts, f)] writes, one per key of [counts]. *)
Fixpoint encode_items (depth : nat) (l : list (string * pyval))
  : outcome (list (string * json)) :=
  match l with
  | [] => Ret []
  | (k, v) :: l' =>
      obind (json_encode depth v) (fun j =>
      obind (encode_items depth l') (fun js =>
      Ret ((k, j) :: js)))
  end.

(** Line 314, [json.dump(counts, f)]: the document is written into the
    open file; when a value cannot be written the file keeps what was
    written until then, which is no JSON document. *)
Definition json_dump (p : string) : M unit :=
  fun w =>
    match encode_items (stack w) (map_to_list (counts w)) with
    | Ret js =>
        (Ret tt, with_files (<[p := File (Document (JObj js))]> (files w)) w)
    | Raise e =>
        (Raise e, with_files (<[p := File Garbled]> (files w)) w)
    end.

(** Lines 305-314 of [stop_tracking]. *)
Definition save_json (p : string) : M unit :=
  open_snapshot p ;;
  json_dump p.

(** ** The query condition of the dashboard (main.py, lines 320-321) *)

(** [needle in hay], for strings. *)
Fixpoint contains (needle hay : string) : bool :=
  String.prefix needle hay ||
  match hay with
  | EmptyString => false
  | String _ rest => contains needle rest
  end.

(** ["analytics" in query_params and "on" in query_params["analytics"]];
    [st.query_params[k]] is a string. *)
Definition analytics_requested (q : gmap string string) : bool :=
  match q !! "analytics" with
  | Some v => contains "on" v
  | None => false
  end.

(** The truth value of an optional string argument (a key file). *)
Definition given (a : option string) : option string :=
  match a with
  | Some s => if String.eqb s "" then None else Some s
  | None => None
  end.

(** ** The session record (main.py, lines 152-158) *)

Definition reset_session_state (now : Z) : M unit :=
  (let* has := session_has "user_tracked" in
   when (negb has) (session_set "user_tracked" (PBool false))) ;;
  (let* has := session_has "state_dic" in
   when (negb has) (session_set "state_dict" (PDict []))) ;;
  (let* has := session_has "last_time" in
   when (negb has) (session_set "last_time" (PDatetime now))).

(** One rerun of the script as the Session Tracker sees it: the session
    record is initialised where it is missing, then [_track_user] runs.
    [now0] is the clock at line 158. *)
Definition rerun (r : Z * clock) : M unit :=
  reset_session_state (fst r) ;;
  _track_user (snd r).

Fixpoint reruns (rs : list (Z * clock)) : M unit :=
  match rs with
  | [] => ret tt
  | r :: rs' => rerun r ;; reruns rs'
  end.

(** ** The lifecycle: [start_tracking], [stop_tracking], [track] *)

(** The wrapper [start_tracking] puts around each entry point (lines
    162-197). *)
Definition wrapper_of (x : widget) : wrapper :=
  match x with
  | button => _wrap_button
  | checkbox => _wrap_checkbox
  | radio | selectbox | select_slider => _wrap_select
  | multiselect => _wrap_multiselect
  | file_uploader => _wrap_file_uploader
  | chat_input => _wrap_chat_input
  | slider | text_input | number_input | text_area | date_input
  | time_input | color_picker => _wrap_value
  end.

Section Lifecycle.

(** The constants [_orig_<widget>] and [_orig_sidebar_<widget>] (lines
    45-80), bound when the module is imported. There is no
    [_orig_sidebar_chat_input]. *)
Variable orig : place -> widget -> fn.

(** [firestore.load(counts, key_file, collection)] and
    [firestore.save(counts, key_file, collection)] of [firestore.py], and
    [display.show_results(counts, reset, password)] of [display.py]: they
    work on [counts], and may raise. *)
Variable firestore_load :
  gmap string pyval -> string -> string -> outcome unit * gmap string pyval.
Variable firestore_save :
  gmap string pyval -> string -> string -> outcome unit.
Variable show_results :
  gmap string pyval ->
  (gmap string pyval -> outcome unit * gmap string pyval) ->
  option string -> outcome unit * gmap string pyval.

(** Line 123: [firestore_key_file and not counts["loaded_from_firestore"]] *)
Definition wants_firestore_load (firestore_key_file : option string) : M bool :=
  match given firestore_key_file with
  | Some _ =>
      let* loaded := counts_get "loaded_from_firestore" in
      ret (negb (truthy loaded))
  | None => ret false
  end.

(** Lines 123-125. *)
Definition load_firestore (firestore_key_file : option string)
  (firestore_collection_name : string) : M unit :=
  let* wanted := wants_firestore_load firestore_key_file in
  match wanted, firestore_key_file with
  | true, Some key_file =>
      (fun w =>
         let '(o, c) := firestore_load (counts w) key_file firestore_collection_name in
         (o, with_counts c w)) ;;
      counts_set "loaded_from_firestore" (PBool true)
  | _, _ => ret tt
  end.

(** Lines 161-197. *)
Definition patch_widgets : M unit :=
  assign Main button (Wrapped _wrap_button (orig Main button)) ;;
  assign Main checkbox (Wrapped _wrap_checkbox (orig Main checkbox)) ;;
  assign Main radio (Wrapped _wrap_select (orig Main radio)) ;;
  assign Main selectbox (Wrapped _wrap_select (orig Main selectbox)) ;;
  assign Main multiselect (Wrapped _wrap_multiselect (orig Main multiselect)) ;;
  assign Main slider (Wrapped _wrap_value (orig Main slider)) ;;
  assign Main select_slider (Wrapped _wrap_select (orig Main select_slider)) ;;
  assign Main text_input (Wrapped _wrap_value (orig Main text_input)) ;;
  assign Main number_input (Wrapped _wrap_value (orig Main number_input)) ;;
  assign Main text_area (Wrapped _wrap_value (orig Main text_area)) ;;
  assign Main date_input (Wrapped _wrap_value (orig Main date_input)) ;;
  assign Main time_input (Wrapped _wrap_value (orig Main time_input)) ;;
  assign Main file_uploader (Wrapped _wrap_file_uploader (orig Main file_uploader)) ;;
  assign Main color_picker (Wrapped _wrap_value (orig Main color_picker)) ;;
  assign Main chat_input (Wrapped _wrap_chat_input (orig Main chat_input)) ;;
  assign Sidebar button (Wrapped _wrap_button (orig Sidebar button)) ;;
  assign Sidebar checkbox (Wrapped _wrap_checkbox (orig Sidebar checkbox)) ;;
  assign Sidebar radio (Wrapped _wrap_select (orig Sidebar radio)) ;;
  assign Sidebar selectbox (Wrapped _wrap_select (orig Sidebar selectbox)) ;;
  assign Sidebar multiselect (Wrapped _wrap_multiselect (orig Sidebar multiselect)) ;;
  assign Sidebar slider (Wrapped _wrap_value (orig Sidebar slider)) ;;
  assign Sidebar select_slider (Wrapped _wrap_select (orig Sidebar select_slider)) ;;
  assign Sidebar text_input (Wrapped _wrap_value (orig Sidebar text_input)) ;;
  assign Sidebar number_input (Wrapped _wrap_value (orig Sidebar number_input)) ;;
  assign Sidebar text_area (Wrapped _wrap_value (orig Sidebar text_area)) ;;
  assign Sidebar date_input (Wrapped _wrap_value (orig Sidebar date_input)) ;;
  assign Sidebar time_input (Wrapped _wrap_value (orig Sidebar time_input)) ;;
  assign Sidebar file_uploader (Wrapped _wrap_file_uploader (orig Sidebar file_uploader)) ;;
  assign Sidebar color_picker (Wrapped _wrap_value (orig Sidebar color_picker)).

(** [start_tracking] (lines 108-223). [now0] is the clock at line 158,
    [clk] the one [_track_user] reads. *)
Definition start_tracking (now0 : Z) (clk : clock) (verbose : bool)
  (firestore_key_file : option string) (firestore_collection_name : string)
  (load_from_json : option string) : M unit :=
  load_firestore firestore_key_file firestore_collection_name ;;
  load_json verbose load_from_json ;;
  rerun (now0, clk) ;;
  patch_widgets ;;
  when verbose
    (emit (LogInfo (String (ascii_of_nat 10)
                      "Tracking script execution with streamlit-analytics..."))).

(** Lines 247-283. *)
Definition restore_widgets : M unit :=
  assign Main button (orig Main button) ;;
  assign Main checkbox (orig Main checkbox) ;;
  assign Main radio (orig Main radio) ;;
  assign Main selectbox (orig Main selectbox) ;;
  assign Main multiselect (orig Main multiselect) ;;
  assign Main slider (orig Main slider) ;;
  assign Main select_slider (orig Main select_slider) ;;
  assign Main text_input (orig Main text_input) ;;
  assign Main number_input (orig Main number_input) ;;
  assign Main text_area (orig Main text_area) ;;
  assign Main date_input (orig Main date_input) ;;
  assign Main time_input (orig Main time_input) ;;
  assign Main file_uploader (orig Main file_uploader) ;;
  assign Main color_picker (orig Main color_picker) ;;
  assign Main chat_input (orig Main chat_input) ;;
  assign Sidebar button (orig Sidebar button) ;;
  assign Sidebar checkbox (orig Sidebar checkbox) ;;
  assign Sidebar radio (orig Sidebar radio) ;;
  assign Sidebar selectbox (orig Sidebar selectbox) ;;
  assign Sidebar multiselect (orig Sidebar multiselect) ;;
  assign Sidebar slider (orig Sidebar slider) ;;
  assign Sidebar select_slider (orig Sidebar select_slider) ;;
  assign Sidebar text_input (orig Sidebar text_input) ;;
  assign Sidebar number_input (orig Sidebar number_input) ;;
  assign Sidebar text_area (orig Sidebar text_area) ;;
  assign Sidebar date_input (orig Sidebar date_input) ;;
  assign Sidebar time_input (orig Sidebar time_input) ;;
  assign Sidebar file_uploader (orig Sidebar file_uploader) ;;
  assign Sidebar color_picker (orig Sidebar color_picker).

(** Lines 294-299. *)
Definition save_firestore (verbose : bool) (firestore_key_file : option string)
  (firestore_collection_name : string) : M unit :=
  match given firestore_key_file with
  | Some key_file =>
      when verbose
        (emit (Printed "Saving count data to firestore:") ;;
         (fun w => (Ret tt, with_log (log w ++ [PrintedCounts (counts w)]) w)) ;;
         emit (Printed "")) ;;
      (fun w => (firestore_save (counts w) key_file firestore_collection_name, w))
  | None => ret tt
  end.

(** Lines 320-323; [clk] is the clock the reset control of the dashboard
    would read. *)
Definition show_dashboard (clk : clock) (unsafe_password : option string) : M unit :=
  let* q := (fun w => (Ret (query_params w), w)) in
  when (analytics_requested q)
    (write (Markdown "---") ;;
     write Dashboard ;;
     (fun w =>
        let reset c :=
          let '(o, w') := reset_counts clk (with_counts c w) in (o, counts w') in
        let '(o, c) := show_results (counts w) reset unsafe_password in
        (o, with_counts c w))).

(** [stop_tracking] (lines 226-323). *)
Definition stop_tracking (clk : clock) (unsafe_password save_to_json : option string)
  (firestore_key_file : option string) (firestore_collection_name : string)
  (verbose : bool) : M unit :=
  when verbose
    (emit (LogInfo "Finished script execution. New counts:") ;;
     emit_counts ;;
     emit (LogInfo "--------------------------------------------------------------------------------")) ;;
  restore_widgets ;;
  save_firestore verbose firestore_key_file firestore_collection_name ;;
  match save_to_json with
  | Some p =>
      save_json p ;;
      when verbose (emit (Printed ("Storing results to file: " +:+ p)))
  | None => ret tt
  end ;;
  show_dashboard clk unsafe_password.

(** [track] (lines 326-359): the generator runs [start_tracking], yields to
    the body of the [with] statement, and resumes with [stop_tracking]; an
    exception of the body is raised at the [yield]. *)
Definition track (now0 : Z) (clk clk' : clock)
  (unsafe_password save_to_json firestore_key_file : option string)
  (firestore_collection_name : string) (verbose : bool)
  (load_from_json : option string) (body : M unit) : M unit :=
  start_tracking now0 clk verbose firestore_key_file firestore_collection_name
    load_from_json ;;
  body ;;
  stop_tracking clk' unsafe_password save_to_json firestore_key_file
    firestore_collection_name verbose.

End Lifecycle.

(** ** The Counter Store as the specification types it

    [total_pageviews] and [total_script_runs] are integers,
    [total_time_seconds] is a number, and [per_day] holds three sequences:
    date strings, and two of integers. *)

Definition str_item (v : pyval) : option string :=
  match v with PStr s => Some s | _ => None end.

Definition int_item (v : pyval) : option Z :=
  match v with PInt z => Some z | _ => None end.

Fixpoint all_items {A} (f : pyval -> option A) (l : list pyval) : option (list A) :=
  match l with
  | [] => Some []
  | v :: l' =>
      match f v, all_items f l' with
      | Some x, Some xs => Some (x :: xs)
      | _, _ => None
      end
  end.

Definition items_of {A} (f : pyval -> option A) (v : option pyval) : option (list A) :=
  match v with
  | Some (PList l) => all_items f l
  | _ => None
  end.

(** Strictly increasing, in the order of Python's string comparison. *)
Fixpoint increasing (l : list string) : bool :=
  match l with
  | a :: (b :: _) as l' => String.ltb a b && increasing l'
  | _ => true
  end.

(** The invariant of [per_day]: three sequences of one length, the days
    strictly increasing. *)
Definition per_day_ok (v : pyval) : bool :=
  match v with
  | PDict d =>
      match items_of str_item (dict_get d (KStr "days")),
            items_of int_item (dict_get d (KStr "pageviews")),
            items_of int_item (dict_get d (KStr "script_runs")) with
      | Some ds, Some pv, Some sr =>
          (length pv =? length ds)%nat && (length sr =? length ds)%nat && increasing ds
      | _, _, _ => false
      end
  | _ => false
  end.

Definition per_day_inv (c : gmap string pyval) : Prop :=
  match c !! "per_day" with
  | Some v => per_day_ok v = true
  | None => False
  end.

(** [v] is a [per_day] record with days [ds], page views [pv] and script
    runs [sr]. *)
Definition per_day_shows (v : pyval) (ds : list string) (pv sr : list Z) : Prop :=
  exists d,
    v = PDict d /\
    dict_get d (KStr "days") = Some (PList (PStr <$> ds)) /\
    dict_get d (KStr "pageviews") = Some (PList (PInt <$> pv)) /\
    dict_get d (KStr "script_runs") = Some (PList (PInt <$> sr)).

(** A number [float] accepts. *)
Definition is_number (v : pyval) : bool :=
  match v with
  | PFloat _ => true
  | PInt z => match float_of_Z z with Ret _ => true | Raise _ => false end
  | _ => false
  end.

Record tally := Tally {
  views : Z;
  runs : Z;
  days : list string;
  day_views : list Z;
  day_runs : list Z
}.

(** The store [c] holds the counters [t], and its time total is a number. *)
Definition shows (c : gmap string pyval) (t : tally) : Prop :=
  c !! "total_pageviews" = Some (PInt (views t)) /\
  c !! "total_script_runs" = Some (PInt (runs t)) /\
  (exists s, c !! "total_time_seconds" = Some s /\ is_number s = true) /\
  (exists v, c !! "per_day" = Some v /\
             per_day_shows v (days t) (day_views t) (day_runs t)).

(** Every day has its two counters, and there is a day. *)
Definition tally_ok (t : tally) : Prop :=
  days t <> [] /\
  length (day_views t) = length (days t) /\
  length (day_runs t) = length (days t).

(** Add [n] to the last entry. *)
Definition bump_last (l : list Z) (n : Z) : list Z :=
  match l with
  | [] => []
  | _ => removelast l ++ [List.last l 0 + n]
  end.

(** The counters after lines 91-95 on day [today]. *)
Definition tally_open (today : string) (t : tally) : tally :=
  if bool_decide (last (days t) = Some today) then t
  else Tally (views t) (runs t) (days t ++ [today]) (day_views t ++ [0])
         (day_runs t ++ [0]).

(** The counters after lines 96-104; [fresh] when the session's page view
    has not been counted. *)
Definition tally_count (fresh : bool) (t : tally) : tally :=
  Tally (views t + Z.b2z fresh) (runs t + 1) (days t)
    (bump_last (day_views t) (Z.b2z fresh)) (bump_last (day_runs t) 1).

(** A session whose page view has not been counted: [user_tracked] is
    missing or false, and [last_time], where set, is a [datetime]. *)
Definition new_session (s : gmap string pyval) : Prop :=
  (s !! "user_tracked" = None \/ s !! "user_tracked" = Some (PBool false)) /\
  (s !! "last_time" = None \/ exists t0, s !! "last_time" = Some (PDatetime t0)).

(** [st.session_state] after lines 152-158, for the record [s] before
    them. *)
Definition session_reset (now : Z) (s : gmap string pyval) : gmap string pyval :=
  let s1 :=
    match s !! "user_tracked" with
    | Some _ => s
    | None => <["user_tracked" := PBool false]> s
    end in
  let s2 :=
    match s1 !! "state_dic" with
    | Some _ => s1
    | None => <["state_dict" := PDict []]> s1
    end in
  match s2 !! "last_time" with
  | Some _ => s2
  | None => <["last_time" := PDatetime now]> s2
  end.

(** The last recorded day, where [per_day.days] is a sequence of strings. *)
Definition last_day (c : gmap string pyval) : option string :=
  match c !! "per_day" with
  | Some (PDict d) =>
      match items_of str_item (dict_get d (KStr "days")) with
      | Some ds => last ds
      | None => None
      end
  | _ => None
  end.

(** [m] keeps [I], whether it returns or raises. *)
Definition preserves {A} (I : world -> Prop) (m : M A) : Prop :=
  forall w, I w -> I (snd (m w)).

(** ** Relations between states, for the properties below *)

(** [m] changes nothing but the files. *)
Definition files_only {A} (m : M A) : Prop :=
  forall w, exists f, snd (m w) = with_files f w.

(** The exception of [now - st.session_state.last_time]. *)
Definition last_time_error (v : option pyval) : option exn :=
  match v with
  | None => Some AttributeError
  | Some (PDatetime _) => None
  | Some _ => Some TypeError
  end.

(** The sum of a daily series. *)
Definition total (l : list Z) : Z := foldr Z.add 0 l.




(** The same world but for the log. *)
Definition same_but_log (w1 w2 : world) : Prop :=
  counts w1 = counts w2 /\ session_state w1 = session_state w2 /\
  st w1 = st w2 /\ files w1 = files w2 /\
  query_params w1 = query_params w2 /\ page w1 = page w2 /\
  stack w1 = stack w2.

(** [m1] and [m2] do the same but for what they log. *)
Definition alike {A} (m1 m2 : M A) : Prop :=
  forall w1 w2, same_but_log w1 w2 ->
    fst (m1 w1) = fst (m2 w2) /\ same_but_log (snd (m1 w1)) (snd (m2 w2)).

(** [m] only logs. *)
Definition only_logs (m : M unit) : Prop :=
  forall w, fst (m w) = Ret tt /\ same_but_log (snd (m w)) w.

(** ** Values JSON gives back as they are

    [json_native v]: [v] is built from [None], booleans, integers that
    [json.dump] can write, floats, strings, lists and dicts whose keys are
    strings. A dict has each key once. *)
Fixpoint json_native (v : pyval) : bool :=
  match v with
  | PInt z => negb (int_too_long z)
  | PList l => forallb json_native l
  | PDict d =>
      forallb (fun kv => match fst kv with KStr _ => json_native (snd kv) | KInt _ => false end) d
      && bool_decide (NoDup d.*1)
  | PDatetime _ => false
  | _ => true
  end.

(** How deep the lists and dicts of [v] are nested. *)
Fixpoint nesting (v : pyval) : nat :=
  match v with
  | PList l => S (foldr Nat.max O (nesting <$> l))
  | PDict d => S (foldr Nat.max O ((fun kv => nesting (snd kv)) <$> d))
  | _ => O
  end.

(** A store [json.dump] can write at depth [n], and [json.loads] gives
    back as it is. *)
Definition storable (n : nat) (c : gmap string pyval) : Prop :=
  map_Forall (fun _ v => json_native v = true /\ (nesting v <= n)%nat) c.

(** ** Example states

    A store on 2 January 2024, after two reruns of one session. *)
Definition example_counts : gmap string pyval :=
  <["loaded_from_firestore" := PBool false]>
  (<["total_pageviews" := PInt 1]>
  (<["total_script_runs" := PInt 2]>
  (<["total_time_seconds" := PInt 0]>
  (<["per_day" :=
       PDict [(KStr "days", PList [PStr "2024-01-01"; PStr "2024-01-02"]);
              (KStr "pageviews", PList [PInt 0; PInt 1]);
              (KStr "script_runs", PList [PInt 0; PInt 2])]]>
  (<["widgets" := PDict []]>
  (<["start_time" := PStr "02 Jan 2024, 09:00:00"]> ∅)))))).

Definition example_tally : tally :=
  Tally 1 2 ["2024-01-01"; "2024-01-02"] [0; 1] [0; 2].

(** The entry points as Streamlit defines them. *)
Definition example_world : world :=
  World example_counts ∅ Native ∅ ∅ [] [] 900.

(** The same store, seen by a session whose page view is counted. *)
Definition tracked_world : world :=
  World example_counts
    (<["user_tracked" := PBool true]>
     (<["last_time" := PDatetime 1704186000000000]> ∅))
    Native ∅ ∅ [] [] 900.

Definition clock_jan1 : clock :=
  Clock (Date 2024 1 1) 1704099600000000 "01 Jan 2024, 09:00:00".

Definition clock_jan2 : clock :=
  Clock (Date 2024 1 2) 1704186060000000 "02 Jan 2024, 09:01:00".

Definition clock_jan3 : clock :=
  Clock (Date 2024 1 3) 1704272400000000 "03 Jan 2024, 09:00:00".

(** A session that keeps the last value of a text input in [state_dict]. *)
Definition remembering_world : world :=
  World example_counts
    (<["state_dict" := PDict [(KStr "Write your name", PStr "Ada")]]>
     (<["user_tracked" := PBool true]>
      (<["last_time" := PDatetime 1704186000000000]> ∅)))
    Native ∅ ∅ [] [] 900.




(** A snapshot whose days run backwards. *)
Definition backwards_snapshot : json :=
  JObj [("per_day",
         JObj [("days", JArr [JStr "2024-01-02"; JStr "2024-01-01"]);
               ("pageviews", JArr [JInt 1; JInt 0]);
               ("script_runs", JArr [JInt 2; JInt 0])]);
        ("visitors", JInt 7)].

Definition snapshot_world (j : json) : world :=
  World example_counts ∅ Native {["counts.json" := File (Document j)]} ∅ [] [] 900.

(** A snapshot with one key of the store and one it does not have. *)
Definition partial_snapshot : json :=
  JObj [("total_pageviews", JInt 40); ("visitors", JInt 7)].

(** External collaborators that do nothing, for the examples. *)
Definition no_load (c : gmap string pyval) (key_file collection : string)
  : outcome unit * gmap string pyval := (Ret tt, c).

Definition no_save (c : gmap string pyval) (key_file collection : string)
  : outcome unit := Ret tt.

Definition plain_dashboard (c : gmap string pyval)
  (reset : gmap string pyval -> outcome unit * gmap string pyval)
  (password : option string) : outcome unit * gmap string pyval := (Ret tt, c).

(** A [with track():] block whose body raises, on the example store, and the
    state it leaves. *)
Definition failing_block : M unit :=
  track Native no_load no_save plain_dashboard 1704186000000000 clock_jan2
    clock_jan2 None None None "counts" false None (raise KeyError).

Definition left_wrapped : world := snd (failing_block example_world).

(** A block whose body does nothing. *)
Definition empty_block : M unit :=
  track Native no_load no_save plain_dashboard 1704186060000000 clock_jan2
    clock_jan2 None None None "counts" false None (ret tt).

(** The state inside a [with track():] block. *)
Definition inside_block : world :=
  snd (start_tracking Native no_load 1704186000000000 clock_jan2 false None
         "counts" None example_world).


Definition clock_mar1 : clock :=
  Clock (Date 2024 3 1) 1709283600000000 "01 Mar 2024, 09:00:00".

(** A store in which no day is recorded. *)
Definition no_days_world : world :=
  World
    (<["per_day" :=
         PDict [(KStr "days", PList []);
                (KStr "pageviews", PList []);
                (KStr "script_runs", PList [])]]> example_counts)
    ∅ Native ∅ ∅ [] [] 900.

(** A session whose [last_time] was overwritten by the script. *)
Definition odd_session_world : world :=
  World example_counts
    (<["user_tracked" := PBool false]> (<["last_time" := PStr "09:00"]> ∅))
    Native ∅ ∅ [] [] 900.

(** A store that holds a [datetime]. *)
Definition dated_world : world :=
  World (<["start_time" := PDatetime 1704186000000000]> example_counts)
    ∅ Native ∅ ∅ [] [] 900.

(** File systems in which [data] is a regular file, and a directory. *)
Definition blocked_world : world :=
  World example_counts ∅ Native {["data" := File Garbled]} ∅ [] [] 900.




(** Components that print as four and two digits. *)
Definition in_range (d : date) : Prop :=
  0 <= year d < 10000 /\ 0 <= month d < 100 /\ 0 <= day d < 100.


(** * Properties *)

(** ** Dictionaries and sequences *)

Lemma dict_get_set_eq d k v : dict_get (dict_set d k v) k = Some v.
Proof.
  induction d as [|[k' v'] d IH]; simpl.
  - by rewrite decide_True.
  - destruct (decide (k' = k)) as [->|Hne]; simpl.
    + by rewrite decide_True.
    + by rewrite decide_False.
Qed.

Lemma dict_get_set_ne d k k' v :
  k <> k' -> dict_get (dict_set d k v) k' = dict_get d k'.
Proof.
  intros Hne. induction d as [|[k0 v0] d IH]; simpl.
  - by rewrite decide_False.
  - destruct (decide (k0 = k)) as [->|Hk]; simpl.
    + by rewrite !decide_False.
    + by rewrite IH.
Qed.

Lemma py_last_snoc l x : py_last (PList (l ++ [x])) = Ret x.
Proof. simpl. by rewrite last_snoc. Qed.

Lemma py_set_last_snoc l x y :
  py_set_last (PList (l ++ [x])) y = Ret (PList (l ++ [y])).
Proof.
  simpl. destruct (l ++ [x]) eqn:E.
  - by destruct l.
  - rewrite <- E. f_equal. f_equal.
    rewrite length_app. simpl.
    replace (pred (length l + 1))%nat with (length l + 0)%nat by lia.
    by rewrite insert_app_r.
Qed.

Lemma incr_last_snoc l z :
  incr_last (PList (l ++ [PInt z])) = Ret (PList (l ++ [PInt (z + 1)])).
Proof.
  unfold incr_last. rewrite py_last_snoc. simpl obind.
  apply py_set_last_snoc.
Qed.

Lemma snoc_cases {A} (l : list A) : l = [] \/ exists l' x, l = l' ++ [x].
Proof.
  induction l as [|a l IH] using rev_ind; [by left|right; eauto].
Qed.

Lemma bump_last_snoc l z n : bump_last (l ++ [z]) n = l ++ [z + n].
Proof.
  unfold bump_last. destruct (l ++ [z]) eqn:E.
  - by destruct l.
  - rewrite <- E. by rewrite removelast_last, last_last.
Qed.

Lemma all_items_fmap {A} (f : pyval -> option A) (g : A -> pyval) xs :
  (forall x, f (g x) = Some x) -> all_items f (g <$> xs) = Some xs.
Proof.
  intros Hfg. induction xs as [|x xs IH]; csimpl; [done|].
  by rewrite Hfg, IH.
Qed.

Lemma all_items_inv {A} (f : pyval -> option A) (g : A -> pyval) l xs :
  (forall v x, f v = Some x -> v = g x) ->
  all_items f l = Some xs -> l = g <$> xs.
Proof.
  intros Hfg. revert xs. induction l as [|v l IH]; intros xs; simpl.
  - by intros [= <-].
  - destruct (f v) as [x|] eqn:Hv; [|done].
    destruct (all_items f l) as [xs'|]; [|done].
    intros [= <-]. simpl. f_equal; [by apply Hfg|by apply IH].
Qed.

Lemma str_item_inv v s : str_item v = Some s -> v = PStr s.
Proof. destruct v; simpl; congruence. Qed.

Lemma int_item_inv v z : int_item v = Some z -> v = PInt z.
Proof. destruct v; simpl; congruence. Qed.

Lemma items_of_inv {A} (f : pyval -> option A) (g : A -> pyval) o xs :
  (forall v x, f v = Some x -> v = g x) ->
  items_of f o = Some xs -> o = Some (PList (g <$> xs)).
Proof.
  intros Hfg. destruct o as [[]|]; simpl; try done.
  intros H. by rewrite (all_items_inv f g _ _ Hfg H).
Qed.

(** The invariant, through the sequences it speaks of. *)
Lemma per_day_ok_shows v :
  per_day_ok v = true <->
  exists ds pv sr,
    per_day_shows v ds pv sr /\
    length pv = length ds /\ length sr = length ds /\ increasing ds = true.
Proof.
  split.
  - destruct v; simpl; try done.
    destruct (items_of str_item _) as [ds|] eqn:Hd; [|done].
    destruct (items_of int_item (dict_get d (KStr "pageviews"))) as [pv|] eqn:Hp; [|done].
    destruct (items_of int_item (dict_get d (KStr "script_runs"))) as [sr|] eqn:Hs; [|done].
    intros H. apply andb_prop in H as [H Hinc]. apply andb_prop in H as [H1 H2].
    apply Nat.eqb_eq in H1, H2.
    exists ds, pv, sr. repeat split; try done.
    exists d. repeat split.
    + exact (items_of_inv _ PStr _ _ str_item_inv Hd).
    + exact (items_of_inv _ PInt _ _ int_item_inv Hp).
    + exact (items_of_inv _ PInt _ _ int_item_inv Hs).
  - intros (ds & pv & sr & (d & -> & Hd & Hp & Hs) & H1 & H2 & Hinc).
    simpl. rewrite Hd, Hp, Hs. simpl.
    rewrite !all_items_fmap by done.
    rewrite H1, H2, !Nat.eqb_refl. done.
Qed.

(** ** Running statements *)

Ltac wsimpl :=
  cbn [counts session_state st files query_params page log stack
       with_counts with_session with_st with_files with_page with_log
       fst snd].

Lemma bind_eq {A B} (m : M A) (k : A -> M B) w :
  bind m k w =
  match m w with
  | (Ret a, w') => k a w'
  | (Raise e, w') => (Raise e, w')
  end.
Proof. reflexivity. Qed.

Lemma bind_run {A B} (m : M A) (k : A -> M B) w a w' :
  m w = (Ret a, w') -> bind m k w = k a w'.
Proof. intros H. by rewrite bind_eq, H. Qed.

Lemma bind_raise {A B} (m : M A) (k : A -> M B) w e w' :
  m w = (Raise e, w') -> bind m k w = (Raise e, w').
Proof. intros H. by rewrite bind_eq, H. Qed.

Lemma counts_get_run k v w :
  counts w !! k = Some v -> counts_get k w = (Ret v, w).
Proof. intros H. unfold counts_get. by rewrite H. Qed.

Lemma session_get_run k v w :
  session_state w !! k = Some v -> session_get k w = (Ret v, w).
Proof. intros H. unfold session_get. by rewrite H. Qed.

Lemma counts_add_run k z w :
  counts w !! k = Some (PInt z) ->
  counts_add k (PInt 1) w =
  (Ret tt, with_counts (<[k := PInt (z + 1)]> (counts w)) w).
Proof.
  intros H. unfold counts_add.
  rewrite (bind_run _ _ _ _ _ (counts_get_run _ _ _ H)).
  reflexivity.
Qed.

Lemma per_day_update_run field f d seq seq' w :
  counts w !! "per_day" = Some (PDict d) ->
  dict_get d (KStr field) = Some seq ->
  f seq = Ret seq' ->
  per_day_update field f w =
  (Ret tt,
   with_counts (<["per_day" := PDict (dict_set d (KStr field) seq')]> (counts w)) w).
Proof.
  intros Hp Hd Hf. unfold per_day_update.
  rewrite (bind_run _ _ _ _ _ (counts_get_run _ _ _ Hp)).
  unfold lift at 1. rewrite bind_eq. simpl py_getkey. rewrite Hd. cbv beta iota.
  unfold lift. rewrite bind_eq, Hf. reflexivity.
Qed.

Lemma per_day_shows_set_days d ds pv sr ds' :
  per_day_shows (PDict d) ds pv sr ->
  per_day_shows (PDict (dict_set d (KStr "days") (PList (PStr <$> ds')))) ds' pv sr.
Proof.
  intros (d0 & [= <-] & Hd & Hp & Hs). eexists. split; [done|].
  rewrite dict_get_set_eq, !dict_get_set_ne by done. done.
Qed.

Lemma per_day_shows_set_views d ds pv sr pv' :
  per_day_shows (PDict d) ds pv sr ->
  per_day_shows (PDict (dict_set d (KStr "pageviews") (PList (PInt <$> pv')))) ds pv' sr.
Proof.
  intros (d0 & [= <-] & Hd & Hp & Hs). eexists. split; [done|].
  rewrite dict_get_set_eq, !dict_get_set_ne by done. done.
Qed.

Lemma per_day_shows_set_runs d ds pv sr sr' :
  per_day_shows (PDict d) ds pv sr ->
  per_day_shows (PDict (dict_set d (KStr "script_runs") (PList (PInt <$> sr')))) ds pv sr'.
Proof.
  intros (d0 & [= <-] & Hd & Hp & Hs). eexists. split; [done|].
  rewrite dict_get_set_eq, !dict_get_set_ne by done. done.
Qed.

Ltac mnorm := cbv beta iota delta [bind lift ret raise when obind].

Lemma open_day_same today w v ds pv sr :
  counts w !! "per_day" = Some v ->
  per_day_shows v ds pv sr ->
  last ds = Some today ->
  open_day today w = (Ret tt, w).
Proof.
  intros Hc (d & -> & Hd & _) Hl. unfold open_day. mnorm.
  rewrite (counts_get_run _ _ _ Hc). mnorm.
  simpl py_getkey. rewrite Hd. mnorm.
  simpl py_last. rewrite fmap_last, Hl. simpl.
  by rewrite String.eqb_refl.
Qed.

Lemma open_day_new today w v ds pv sr :
  counts w !! "per_day" = Some v ->
  per_day_shows v ds pv sr ->
  ds <> [] ->
  last ds <> Some today ->
  exists v',
    open_day today w =
      (Ret tt, with_counts (<["per_day" := v']> (counts w)) w) /\
    per_day_shows v' (ds ++ [today]) (pv ++ [0]) (sr ++ [0]).
Proof.
  intros Hc Hv Hne Hl.
  destruct (snoc_cases ds) as [->|(ds0 & dl & ->)]; [done|].
  rewrite last_snoc in Hl.
  assert (dl <> today) as Hdl by congruence.
  pose proof Hv as (d & -> & Hd & Hp & Hs).
  set (d1 := dict_set d (KStr "days") (PList (PStr <$> (ds0 ++ [dl]) ++ [today]))).
  set (d2 := dict_set d1 (KStr "pageviews") (PList (PInt <$> pv ++ [0]))).
  set (d3 := dict_set d2 (KStr "script_runs") (PList (PInt <$> sr ++ [0]))).
  exists (PDict d3).
  assert (per_day_shows (PDict d3) ((ds0 ++ [dl]) ++ [today]) (pv ++ [0]) (sr ++ [0])) as H3.
  { apply per_day_shows_set_runs with (sr := sr).
    apply per_day_shows_set_views with (pv := pv).
    by apply per_day_shows_set_days with (ds := ds0 ++ [dl]). }
  split; [|done].
  unfold open_day. mnorm.
  rewrite (counts_get_run _ _ _ Hc). mnorm.
  simpl py_getkey. rewrite Hd. mnorm.
  rewrite fmap_app. simpl fmap. rewrite py_last_snoc. mnorm.
  unfold py_eq_str. apply String.eqb_neq in Hdl. rewrite Hdl. cbn [negb]. mnorm.
  erewrite per_day_update_run; cycle 1.
  { exact Hc. }
  { exact Hd. }
  { simpl. rewrite fmap_app. reflexivity. }
  mnorm.
  erewrite per_day_update_run; cycle 1.
  { wsimpl. apply lookup_insert_eq. }
  { rewrite dict_get_set_ne by done. exact Hp. }
  { simpl. reflexivity. }
  mnorm.
  erewrite per_day_update_run; cycle 1.
  { wsimpl. apply lookup_insert_eq. }
  { rewrite !dict_get_set_ne by done. exact Hs. }
  { simpl. reflexivity. }
  wsimpl. rewrite !insert_insert_eq.
  subst d3 d2 d1. rewrite !fmap_app. reflexivity.
Qed.

Lemma py_add_seconds s f :
  is_number s = true -> exists f', py_add s (PFloat f) = Ret (PFloat f').
Proof.
  destruct s; simpl; try done.
  - unfold py_add. simpl. destruct (float_of_Z z); [eauto|done].
  - eauto.
Qed.

Lemma incr_last_ints l :
  l <> [] ->
  incr_last (PList (PInt <$> l)) = Ret (PList (PInt <$> bump_last l 1)).
Proof.
  intros Hl. destruct (snoc_cases l) as [->|(l0 & x & ->)]; [done|].
  rewrite bump_last_snoc, !fmap_app. apply incr_last_snoc.
Qed.

Lemma bump_last_0 l : bump_last l 0 = l.
Proof.
  destruct (snoc_cases l) as [->|(l0 & x & ->)]; [done|].
  rewrite bump_last_snoc. by rewrite Z.add_0_r.
Qed.

Lemma nonempty_length {A B} (l : list A) (l' : list B) :
  l' <> [] -> length l = length l' -> l <> [].
Proof. destruct l, l'; simpl; congruence. Qed.

Lemma count_run_shows clk w t t0 b :
  shows (counts w) t ->
  tally_ok t ->
  session_state w !! "last_time" = Some (PDatetime t0) ->
  session_state w !! "user_tracked" = Some (PBool b) ->
  exists w',
    count_run clk w = (Ret tt, w') /\
    shows (counts w') (tally_count (negb b) t) /\
    session_state w' !! "user_tracked" = Some (PBool true) /\
    session_state w' !! "last_time" = Some (PDatetime (now clk)).
Proof.
  intros (Hv & Hr & (s & Hs & Hnum) & (v & Hp & Hsh)) (Hne & Hlv & Hlr) Hlt Hut.
  pose proof Hsh as (d & -> & Hdd & Hdv & Hdr).
  destruct (py_add_seconds s (total_seconds (now clk - t0)) Hnum) as (f' & Hadd).
  assert (day_runs t <> []) as Hner by exact (nonempty_length _ _ Hne Hlr).
  assert (day_views t <> []) as Hnev by exact (nonempty_length _ _ Hne Hlv).
  unfold count_run. mnorm.
  rewrite (counts_add_run _ _ _ Hr). mnorm.
  erewrite per_day_update_run; cycle 1.
  { wsimpl. rewrite lookup_insert_ne by done. exact Hp. }
  { exact Hdr. }
  { by apply incr_last_ints. }
  mnorm.
  erewrite counts_get_run; cycle 1.
  { wsimpl. rewrite !lookup_insert_ne by done. exact Hs. }
  mnorm.
  erewrite session_get_run; cycle 1.
  { wsimpl. exact Hlt. }
  mnorm.
  unfold elapsed. rewrite Hadd. mnorm.
  unfold counts_set, session_set. wsimpl.
  erewrite session_get_run; cycle 1.
  { wsimpl. rewrite lookup_insert_ne by done. exact Hut. }
  mnorm. unfold truthy.
  set (d' := dict_set d (KStr "script_runs") (PList (PInt <$> bump_last (day_runs t) 1))).
  assert (per_day_shows (PDict d') (days t) (day_views t) (bump_last (day_runs t) 1)) as Hsh'.
  { by apply per_day_shows_set_runs with (sr := day_runs t). }
  destruct b; cbn [negb]; mnorm.
  - eexists. split; [reflexivity|]. wsimpl.
    split; [|split].
    + repeat split.
      * rewrite !lookup_insert_ne by done. simpl. by rewrite Z.add_0_r.
      * rewrite !lookup_insert_ne by done. simpl. by rewrite lookup_insert_eq.
      * exists (PFloat f'). by rewrite lookup_insert_eq.
      * exists (PDict d'). rewrite lookup_insert_ne, lookup_insert_eq by done.
        split; [done|]. simpl. by rewrite bump_last_0.
    + rewrite lookup_insert_ne by done. exact Hut.
    + by rewrite lookup_insert_eq.
  - erewrite counts_add_run; cycle 1.
    { wsimpl. rewrite !lookup_insert_ne by done. exact Hv. }
    mnorm.
    erewrite per_day_update_run; cycle 1.
    { wsimpl. rewrite !lookup_insert_ne by done. by rewrite lookup_insert_eq. }
    { destruct Hsh' as (? & [= <-] & _ & H & _). exact H. }
    { by apply incr_last_ints. }
    eexists. split; [reflexivity|]. wsimpl.
    split; [|split].
    + repeat split.
      * rewrite !lookup_insert_ne by done. simpl. by rewrite lookup_insert_eq.
      * rewrite !lookup_insert_ne by done. simpl. by rewrite lookup_insert_eq.
      * exists (PFloat f'). by rewrite !lookup_insert_ne, lookup_insert_eq by done.
      * eexists. rewrite lookup_insert_eq. split; [done|]. simpl.
        by apply per_day_shows_set_views with (pv := day_views t).
    + by rewrite lookup_insert_eq.
    + rewrite lookup_insert_ne by done. by rewrite lookup_insert_eq.
Qed.

Lemma open_day_shows today w t :
  shows (counts w) t ->
  days t <> [] ->
  exists w',
    open_day today w = (Ret tt, w') /\
    shows (counts w') (tally_open today t) /\
    session_state w' = session_state w.
Proof.
  intros (Hv & Hr & Hs & (v & Hp & Hsh)) Hne.
  unfold tally_open. case_bool_decide as Hl.
  - exists w. split; [|split; [|done]].
    + by eapply open_day_same.
    + repeat split; eauto.
  - destruct (open_day_new today w v _ _ _ Hp Hsh Hne Hl) as (v' & Hrun & Hsh').
    eexists. split; [exact Hrun|]. wsimpl. split; [|done].
    destruct Hs as (s & Hs & Hnum).
    repeat split; simpl.
    + by rewrite lookup_insert_ne.
    + by rewrite lookup_insert_ne.
    + exists s. by rewrite lookup_insert_ne.
    + exists v'. by rewrite lookup_insert_eq.
Qed.

Lemma length_bump_last l n : length (bump_last l n) = length l.
Proof.
  destruct (snoc_cases l) as [->|(l0 & x & ->)]; [done|].
  rewrite bump_last_snoc. by rewrite !length_app.
Qed.

Lemma tally_open_ok today t : tally_ok t -> tally_ok (tally_open today t).
Proof.
  intros (Hne & Hv & Hr). unfold tally_open. case_bool_decide; [done|].
  repeat split; simpl.
  - by destruct (days t).
  - rewrite !length_app. simpl. lia.
  - rewrite !length_app. simpl. lia.
Qed.

Lemma tally_count_ok fresh t : tally_ok t -> tally_ok (tally_count fresh t).
Proof.
  intros (Hne & Hv & Hr). repeat split; simpl; try done.
  - by rewrite length_bump_last.
  - by rewrite length_bump_last.
Qed.

(** One call of [_track_user] on a typed store. *)
Lemma track_user_shows clk w t t0 b :
  shows (counts w) t ->
  tally_ok t ->
  session_state w !! "last_time" = Some (PDatetime t0) ->
  session_state w !! "user_tracked" = Some (PBool b) ->
  exists w',
    _track_user clk w = (Ret tt, w') /\
    shows (counts w') (tally_count (negb b) (tally_open (date_str (today clk)) t)) /\
    session_state w' !! "user_tracked" = Some (PBool true) /\
    session_state w' !! "last_time" = Some (PDatetime (now clk)).
Proof.
  intros Hsh Hok Hlt Hut.
  destruct (open_day_shows (date_str (today clk)) w t Hsh (proj1 Hok))
    as (w1 & Hrun1 & Hsh1 & Hs1).
  destruct (count_run_shows clk w1 _ t0 b Hsh1 (tally_open_ok _ _ Hok))
    as (w2 & Hrun2 & Hsh2 & Hut2 & Hlt2); [by rewrite Hs1..|].
  exists w2. split; [|done].
  unfold _track_user. by rewrite (bind_run _ _ _ _ _ Hrun1).
Qed.

Lemma with_session_same w : with_session (session_state w) w = w.
Proof. by destruct w. Qed.

Lemma guard_set_run k k' v w :
  (let* has := session_has k in when (negb has) (session_set k' v)) w =
  (Ret tt,
   with_session
     match session_state w !! k with
     | Some _ => session_state w
     | None => <[k' := v]> (session_state w)
     end w).
Proof.
  unfold session_has, session_set. mnorm.
  destruct (session_state w !! k) eqn:Hk.
  - rewrite bool_decide_true by eauto. cbn [negb]. by rewrite with_session_same.
  - rewrite bool_decide_false by (by intros [? ?]). reflexivity.
Qed.

Lemma reset_session_state_run now0 w :
  reset_session_state now0 w =
  (Ret tt, with_session (session_reset now0 (session_state w)) w).
Proof.
  unfold reset_session_state.
  rewrite (bind_run _ _ _ _ _ (guard_set_run _ _ _ _)).
  rewrite (bind_run _ _ _ _ _ (guard_set_run _ _ _ _)).
  rewrite guard_set_run. reflexivity.
Qed.

Lemma session_reset_tracked now0 s :
  session_reset now0 s !! "user_tracked" =
  Some (default (PBool false) (s !! "user_tracked")).
Proof.
  unfold session_reset.
  destruct (s !! "user_tracked") eqn:H1;
  match goal with
  | |- context [match ?m !! "state_dic" with _ => _ end] => destruct (m !! "state_dic") eqn:H2
  end;
  match goal with
  | |- context [match ?m !! "last_time" with _ => _ end] => destruct (m !! "last_time") eqn:H3
  end; rewrite ?lookup_insert_ne by done; rewrite ?lookup_insert_eq; try done.
  all: by rewrite H1.
Qed.

Lemma session_reset_last_time now0 s :
  session_reset now0 s !! "last_time" =
  Some (default (PDatetime now0) (s !! "last_time")).
Proof.
  unfold session_reset.
  destruct (s !! "user_tracked") eqn:H1;
  match goal with
  | |- context [match ?m !! "state_dic" with _ => _ end] => destruct (m !! "state_dic") eqn:H2
  end;
  match goal with
  | |- context [match ?m !! "last_time" with _ => _ end] => destruct (m !! "last_time") eqn:H3
  end; rewrite ?lookup_insert_eq; try done.
  all: rewrite ?lookup_insert_ne in H3 by done; rewrite ?lookup_insert_ne by done;
    rewrite H3; simpl; try done.
Qed.

Lemma session_reset_state_dic now0 s :
  session_reset now0 s !! "state_dic" = s !! "state_dic".
Proof.
  unfold session_reset.
  repeat match goal with
  | |- context [match ?m !! ?k with _ => _ end] => destruct (m !! k) eqn:?
  end; by rewrite ?lookup_insert_ne by done.
Qed.

Lemma session_reset_state_dict now0 s :
  s !! "state_dic" = None ->
  session_reset now0 s !! "state_dict" = Some (PDict []).
Proof.
  intros Hs. unfold session_reset.
  destruct (s !! "user_tracked") eqn:H1;
  rewrite ?lookup_insert_ne by done; rewrite Hs;
  match goal with
  | |- context [match ?m !! "last_time" with _ => _ end] => destruct (m !! "last_time") eqn:H3
  end; rewrite ?lookup_insert_ne by done; by rewrite lookup_insert_eq.
Qed.

Lemma rerun_shows r w t b :
  shows (counts w) t ->
  tally_ok t ->
  default (PBool false) (session_state w !! "user_tracked") = PBool b ->
  (session_state w !! "last_time" = None \/
   exists t0, session_state w !! "last_time" = Some (PDatetime t0)) ->
  exists w',
    rerun r w = (Ret tt, w') /\
    shows (counts w') (tally_count (negb b) (tally_open (date_str (today (snd r))) t)) /\
    session_state w' !! "user_tracked" = Some (PBool true) /\
    session_state w' !! "last_time" = Some (PDatetime (now (snd r))).
Proof.
  intros Hsh Hok Hut Hlt.
  assert (exists t0, session_reset (fst r) (session_state w) !! "last_time"
                     = Some (PDatetime t0)) as (t0 & Ht0).
  { rewrite session_reset_last_time.
    destruct Hlt as [->|(t0 & ->)]; simpl; eauto. }
  destruct (track_user_shows (snd r)
              (with_session (session_reset (fst r) (session_state w)) w) t t0 b)
    as (w' & Hrun & H'); try done.
  { wsimpl. by rewrite session_reset_tracked, Hut. }
  exists w'. split; [|done].
  unfold rerun. by rewrite (bind_run _ _ _ _ _ (reset_session_state_run _ _)).
Qed.

(** Reruns of a session whose page view is counted leave the page views
    alone and count themselves. *)
Lemma reruns_tracked rs : forall w t,
  shows (counts w) t ->
  tally_ok t ->
  session_state w !! "user_tracked" = Some (PBool true) ->
  (exists t0, session_state w !! "last_time" = Some (PDatetime t0)) ->
  exists w' t',
    reruns rs w = (Ret tt, w') /\
    shows (counts w') t' /\ tally_ok t' /\
    views t' = views t /\
    runs t' = runs t + Z.of_nat (length rs).
Proof.
  induction rs as [|r rs IH]; intros w t Hsh Hok Hut Hlt.
  - exists w, t. repeat split; try done; try apply Hok; try apply Hsh.
    simpl. lia.
  - destruct (rerun_shows r w t true Hsh Hok) as (w1 & Hrun & Hsh1 & Hut1 & Hlt1).
    { by rewrite Hut. }
    { by right. }
    destruct (IH w1 _ Hsh1 (tally_count_ok _ _ (tally_open_ok _ _ Hok)) Hut1)
      as (w' & t' & Hrun' & Hsh' & Hok' & Hv' & Hr'); [by eauto|].
    exists w', t'. split; [|split; [done|split; [done|split]]].
    + cbn [reruns]. by rewrite (bind_run _ _ _ _ _ Hrun).
    + rewrite Hv'. unfold tally_open. case_bool_decide; simpl; lia.
    + rewrite Hr'. unfold tally_open. case_bool_decide; simpl length; simpl; lia.
Qed.

(** C1. In a session whose page view has not been counted, with a
    store typed as the specification types it, every rerun returns; the
    first one adds 1 to [total_pageviews], no later one changes it, and
    [total_script_runs] grows by the number of reruns. *)
Theorem one_pageview_per_session r rs w t :
  shows (counts w) t ->
  tally_ok t ->
  new_session (session_state w) ->
  exists w1 w',
    rerun r w = (Ret tt, w1) /\
    counts w1 !! "total_pageviews" = Some (PInt (views t + 1)) /\
    reruns rs w1 = (Ret tt, w') /\
    reruns (r :: rs) w = (Ret tt, w') /\
    counts w' !! "total_pageviews" = Some (PInt (views t + 1)) /\
    counts w' !! "total_script_runs" =
      Some (PInt (runs t + Z.of_nat (length (r :: rs)))).
Proof.
  intros Hsh Hok (Hut & Hlt).
  destruct (rerun_shows r w t false Hsh Hok) as (w1 & Hrun & Hsh1 & Hut1 & Hlt1).
  { by destruct Hut as [->| ->]. }
  { done. }
  destruct (reruns_tracked rs w1 _ Hsh1 (tally_count_ok _ _ (tally_open_ok _ _ Hok)) Hut1)
    as (w' & t' & Hrun' & Hsh' & Hok' & Hv' & Hr'); [by eauto|].
  exists w1, w'.
  assert (views (tally_count (negb false) (tally_open (date_str (today (snd r))) t))
          = views t + 1) as Hv1.
  { unfold tally_open. case_bool_decide; simpl; lia. }
  assert (runs (tally_count (negb false) (tally_open (date_str (today (snd r))) t))
          = runs t + 1) as Hr1.
  { unfold tally_open. case_bool_decide; simpl; lia. }
  split; [done|]. split.
  { destruct Hsh1 as (H & _). by rewrite H, Hv1. }
  split; [done|]. split.
  { cbn [reruns]. by rewrite (bind_run _ _ _ _ _ Hrun). }
  destruct Hsh' as (Hv & Hr & _). split.
  - rewrite Hv, Hv', Hv1. done.
  - rewrite Hr, Hr', Hr1. do 2 f_equal. simpl length. lia.
Qed.

(** ** The order of date strings *)

Lemma ltb_leb a b :
  String.ltb a b = true <-> String.leb a b = true /\ a <> b.
Proof.
  unfold String.ltb, String.leb.
  destruct (a ?= b)%string eqn:E.
  - apply String.compare_eq_iff in E. split; [done|]. by intros [_ ?].
  - split; [|done]. intros _. split; [done|].
    intros ->. pose proof (String.compare_antisym b b) as H. by rewrite E in H.
  - split; [done|]. by intros [? _].
Qed.

Lemma ltb_trans a b c :
  String.ltb a b = true -> String.ltb b c = true -> String.ltb a c = true.
Proof.
  rewrite !ltb_leb. intros [Hab Hne] [Hbc Hne']. split.
  - apply Is_true_true. apply Is_true_true in Hab, Hbc.
    by apply (transitivity (R := String.le) Hab Hbc).
  - intros ->. apply Hne. by apply String.leb_antisym.
Qed.

Lemma increasing_snoc l t :
  increasing (l ++ [t]) =
  increasing l && match last l with Some d => String.ltb d t | None => true end.
Proof.
  induction l as [|a [|b l] IH]; [done|by simpl; rewrite andb_true_r|].
  change (increasing ((a :: b :: l) ++ [t]))
    with (String.ltb a b && increasing ((b :: l) ++ [t])).
  rewrite IH. change (increasing (a :: b :: l))
    with (String.ltb a b && increasing (b :: l)).
  by rewrite andb_assoc.
Qed.

Lemma increasing_below_last l x d :
  increasing l = true -> last l = Some d -> x ∈ l ->
  x = d \/ String.ltb x d = true.
Proof.
  revert x. induction l as [|a [|b l] IH]; intros x Hinc Hl Hx.
  - by apply elem_of_nil in Hx.
  - apply list_elem_of_singleton in Hx. simpl in Hl. left. congruence.
  - change (increasing (a :: b :: l)) with (String.ltb a b && increasing (b :: l)) in Hinc.
    apply andb_prop in Hinc as [Hab Hinc].
    change (last (a :: b :: l)) with (last (b :: l)) in Hl.
    apply elem_of_cons in Hx as [->|Hx]; [|by apply IH].
    right. destruct (IH b Hinc Hl) as [->|Hbd]; [by left|done|].
    by apply ltb_trans with b.
Qed.

(** In a strictly increasing sequence whose last day is not after today,
    today is recorded exactly when it is the last day. *)
Lemma recorded_iff_last ds today :
  increasing ds = true ->
  (forall d, last ds = Some d -> String.leb d today = true) ->
  today ∈ ds <-> last ds = Some today.
Proof.
  intros Hinc Hle. split.
  - intros Hin. destruct (last ds) as [d|] eqn:Hl.
    + destruct (increasing_below_last ds today d Hinc Hl Hin) as [->|Hlt]; [done|].
      apply ltb_leb in Hlt as [Hlt Hne]. destruct Hne.
      apply String.leb_antisym; [done|by apply Hle].
    + apply last_None in Hl. subst ds. by apply elem_of_nil in Hin.
  - intros Hl. destruct (snoc_cases ds) as [->|(l & x & ->)]; [done|].
    rewrite last_snoc in Hl. injection Hl as ->. apply elem_of_app. right.
    by apply list_elem_of_singleton.
Qed.

(** ** Invariants of statements *)

Lemma preserves_bind {A B} I (m : M A) (k : A -> M B) :
  preserves I m -> (forall a, preserves I (k a)) -> preserves I (bind m k).
Proof.
  intros Hm Hk w Hw. rewrite bind_eq.
  specialize (Hm w Hw). destruct (m w) as [[a|e] w']; simpl in *; [|done].
  by apply Hk.
Qed.

Lemma preserves_when I b m : preserves I m -> preserves I (when b m).
Proof. intros Hm. destruct b; [done|]. by intros w. Qed.

Lemma preserves_try_except {A} I (m : M A) h :
  preserves I m -> (forall e, preserves I (h e)) -> preserves I (try_except m h).
Proof.
  intros Hm Hh w Hw. unfold try_except.
  specialize (Hm w Hw). destruct (m w) as [[a|e] w']; simpl in *; [done|].
  by apply Hh.
Qed.

(** A statement that leaves [counts] alone keeps what is said of it. *)
Lemma preserves_counts {A} (P : gmap string pyval -> Prop) (m : M A) :
  (forall w, counts (snd (m w)) = counts w) ->
  preserves (fun w => P (counts w)) m.
Proof. intros Hm w Hw. by rewrite Hm. Qed.

Lemma counts_get_counts k w : counts (snd (counts_get k w)) = counts w.
Proof. unfold counts_get. by destruct (counts w !! k). Qed.

Lemma session_get_counts k w : counts (snd (session_get k w)) = counts w.
Proof. unfold session_get. by destruct (session_state w !! k). Qed.

(** [counts[k] = v] and [counts[k] += n] keep what the other keys hold. *)
Lemma preserves_counts_set (P : gmap string pyval -> Prop) k v :
  (forall c, P c -> P (<[k := v]> c)) ->
  preserves (fun w => P (counts w)) (counts_set k v).
Proof. intros HP w Hw. by apply HP. Qed.

Lemma preserves_counts_add (P : gmap string pyval -> Prop) k n :
  (forall c v, P c -> P (<[k := v]> c)) ->
  preserves (fun w => P (counts w)) (counts_add k n).
Proof.
  intros HP. unfold counts_add.
  apply preserves_bind; [apply preserves_counts, counts_get_counts|intros v].
  apply preserves_bind; [by apply preserves_counts|intros v'].
  apply preserves_counts_set. intros c. apply HP.
Qed.

Lemma per_day_inv_insert_ne c k v :
  k <> "per_day" -> per_day_inv c -> per_day_inv (<[k := v]> c).
Proof. intros Hk. unfold per_day_inv. by rewrite lookup_insert_ne. Qed.

Lemma per_day_incr_preserves field :
  field = "pageviews" \/ field = "script_runs" ->
  preserves (fun w => per_day_inv (counts w)) (per_day_update field incr_last).
Proof.
  intros Hf w Hw. unfold per_day_inv in Hw.
  destruct (counts w !! "per_day") as [v|] eqn:Hp; [|done].
  pose proof Hw as Hok.
  apply per_day_ok_shows in Hw as (ds & pv & sr & Hsh & Hlv & Hlr & Hinc).
  pose proof Hsh as (d & -> & Hdd & Hdv & Hdr).
  assert (exists l, dict_get d (KStr field) = Some (PList (PInt <$> l)) /\
                    forall l', length l' = length l ->
                      per_day_ok (PDict (dict_set d (KStr field) (PList (PInt <$> l')))) = true)
    as (l & Hl & Hset).
  { destruct Hf as [-> | ->]; eexists; (split; [eassumption|]); intros l' Hl';
      apply per_day_ok_shows.
    - exists ds, l', sr. repeat split; try done; try congruence.
      by apply per_day_shows_set_views with (pv := pv).
    - exists ds, pv, l'. repeat split; try done; try congruence.
      by apply per_day_shows_set_runs with (sr := sr). }
  destruct (snoc_cases l) as [->|(l0 & x & El)].
  - (* nothing to increment: [seq[-1]] raises *)
    unfold per_day_update. mnorm. rewrite (counts_get_run _ _ _ Hp). mnorm.
    simpl py_getkey. rewrite Hl. mnorm. simpl.
    unfold per_day_inv. by rewrite Hp.
  - erewrite per_day_update_run; [|exact Hp|exact Hl|apply incr_last_ints].
    + wsimpl. unfold per_day_inv. rewrite lookup_insert_eq.
      apply Hset. apply length_bump_last.
    + subst l. by destruct l0.
Qed.

Lemma count_run_preserves clk :
  preserves (fun w => per_day_inv (counts w)) (count_run clk).
Proof.
  unfold count_run.
  apply preserves_bind; [|intros _].
  { apply preserves_counts_add. intros c v. by apply per_day_inv_insert_ne. }
  apply preserves_bind; [|intros _].
  { apply per_day_incr_preserves. by right. }
  apply preserves_bind; [apply preserves_counts, counts_get_counts|intros total].
  apply preserves_bind; [apply preserves_counts, session_get_counts|intros last_time].
  apply preserves_bind; [by apply preserves_counts|intros dt].
  apply preserves_bind; [by apply preserves_counts|intros total'].
  apply preserves_bind; [|intros _].
  { apply preserves_counts_set. intros c. by apply per_day_inv_insert_ne. }
  apply preserves_bind; [by apply preserves_counts|intros _].
  apply preserves_bind; [apply preserves_counts, session_get_counts|intros tracked].
  apply preserves_when.
  apply preserves_bind; [by apply preserves_counts|intros _].
  apply preserves_bind; [|intros _].
  { apply preserves_counts_add. intros c v. by apply per_day_inv_insert_ne. }
  apply per_day_incr_preserves. by left.
Qed.

Lemma last_day_shows c v ds pv sr :
  c !! "per_day" = Some v -> per_day_shows v ds pv sr -> last_day c = last ds.
Proof.
  intros Hc (d & -> & Hd & _). unfold last_day. rewrite Hc, Hd. simpl.
  by rewrite all_items_fmap.
Qed.

Lemma open_day_keeps_inv today w :
  per_day_inv (counts w) ->
  (forall d, last_day (counts w) = Some d -> String.leb d today = true) ->
  per_day_inv (counts (snd (open_day today w))).
Proof.
  intros Hw Hle. pose proof Hw as Hinv. unfold per_day_inv in Hw.
  destruct (counts w !! "per_day") as [v|] eqn:Hp; [|done].
  apply per_day_ok_shows in Hw as (ds & pv & sr & Hsh & Hlv & Hlr & Hinc).
  rewrite (last_day_shows _ _ _ _ _ Hp Hsh) in Hle.
  destruct (snoc_cases ds) as [->|(ds0 & dl & Eds)].
  - (* no day yet: [days[-1]] raises *)
    destruct Hsh as (d & -> & Hdd & _).
    unfold open_day. mnorm. rewrite (counts_get_run _ _ _ Hp). mnorm.
    simpl py_getkey. rewrite Hdd. mnorm. simpl. done.
  - destruct (decide (last ds = Some today)) as [Hl|Hl].
    + by rewrite (open_day_same _ _ _ _ _ _ Hp Hsh Hl).
    + destruct (open_day_new today w v ds pv sr Hp Hsh) as (v' & -> & Hsh');
        [by subst ds; destruct ds0|done|].
      wsimpl. unfold per_day_inv. rewrite lookup_insert_eq.
      apply per_day_ok_shows. exists (ds ++ [today]), (pv ++ [0]), (sr ++ [0]).
      split; [done|]. rewrite !length_app. simpl.
      split; [lia|split; [lia|]].
      rewrite increasing_snoc, Hinc. simpl.
      subst ds. rewrite last_snoc in Hl |- *.
      apply ltb_leb. split; [by apply Hle, last_snoc|congruence].
Qed.

Lemma track_user_keeps_inv clk w :
  per_day_inv (counts w) ->
  (forall d, last_day (counts w) = Some d ->
             String.leb d (date_str (today clk)) = true) ->
  per_day_inv (counts (snd (_track_user clk w))).
Proof.
  intros Hw Hle. unfold _track_user. rewrite bind_eq.
  pose proof (open_day_keeps_inv _ w Hw Hle) as H1.
  destruct (open_day _ w) as [[[]|e] w1]; simpl in *; [|done].
  by apply count_run_preserves.
Qed.

Lemma reset_counts_run clk w y :
  day_before (today clk) = Ret y ->
  reset_counts clk w =
  (Ret tt,
   with_counts
     (<["start_time" := PStr (now_text clk)]>
      (<["widgets" := PDict []]>
       (<["per_day" :=
            PDict [(KStr "days", PList [PStr (date_str y)]);
                   (KStr "pageviews", PList [PInt 0]);
                   (KStr "script_runs", PList [PInt 0])]]>
        (<["total_time_seconds" := PInt 0]>
         (<["total_script_runs" := PInt 0]>
          (<["total_pageviews" := PInt 0]> (counts w))))))) w).
Proof. intros Hy. unfold reset_counts. mnorm. rewrite Hy. reflexivity. Qed.

Lemma reset_counts_raise clk w e :
  day_before (today clk) = Raise e -> reset_counts clk w = (Raise e, w).
Proof. intros Hy. unfold reset_counts. mnorm. by rewrite Hy. Qed.

Lemma reset_counts_inv clk w y :
  day_before (today clk) = Ret y ->
  per_day_inv (counts (snd (reset_counts clk w))).
Proof.
  intros Hy. rewrite (reset_counts_run _ _ _ Hy). wsimpl.
  unfold per_day_inv. rewrite !lookup_insert_ne by done.
  by rewrite lookup_insert_eq.
Qed.

(** ** Merging a snapshot *)

Lemma elem_of_keys {A} (items : list (string * A)) k :
  k ∈ items.*1 <-> exists v, (k, v) ∈ items.
Proof.
  rewrite list_elem_of_fmap. split.
  - intros ([k' v] & -> & H). by exists v.
  - intros (v & H). by exists (k, v).
Qed.

Lemma update_lookup_cases items : forall (c : gmap string pyval) k,
  fold_left (fun c '(k, v) => <[k := v]> c) items c !! k = c !! k \/
  exists v, (k, v) ∈ items /\
    fold_left (fun c '(k, v) => <[k := v]> c) items c !! k = Some v.
Proof.
  induction items as [|[k0 v0] items IH]; intros c k; [by left|].
  simpl. destruct (IH (<[k0 := v0]> c) k) as [H|(v & Hin & H)].
  - rewrite H. destruct (decide (k0 = k)) as [->|Hne].
    + right. exists v0. split; [by left|by rewrite lookup_insert_eq].
    + left. by rewrite lookup_insert_ne.
  - right. exists v. split; [by right|done].
Qed.

Lemma update_lookup_None items (c : gmap string pyval) k :
  (forall v, (k, v) ∉ items) ->
  fold_left (fun c '(k, v) => <[k := v]> c) items c !! k = c !! k.
Proof.
  intros Hk. destruct (update_lookup_cases items c k) as [H|(v & Hin & _)]; [done|].
  by destruct (Hk v).
Qed.

Lemma update_lookup_Some items (c : gmap string pyval) k v :
  (k, v) ∈ items ->
  (forall v', (k, v') ∈ items -> v' = v) ->
  fold_left (fun c '(k, v) => <[k := v]> c) items c !! k = Some v.
Proof.
  revert c. induction items as [|[k0 v0] items IH]; intros c Hin Huniq.
  - by apply elem_of_nil in Hin.
  - simpl. destruct (decide (k ∈ items.*1)) as [(v' & Hv')%elem_of_keys|Hno];
      [|rewrite elem_of_keys in Hno].
    + apply IH.
      * assert (v' = v) as <- by (apply Huniq; by right). done.
      * intros v'' ?. apply Huniq. by right.
    + rewrite update_lookup_None by (intros v' ?; apply Hno; eauto).
      apply elem_of_cons in Hin as [[= <- <-]|Hin]; [|destruct Hno; eauto].
      by rewrite lookup_insert_eq.
Qed.

Lemma snapshot_items_sound c jc ks : forall items,
  snapshot_items c jc ks = Ret items ->
  forall s v, (s, v) ∈ items ->
    py_getkey jc s = Ret v /\ is_Some (c !! s) /\ PStr s ∈ ks.
Proof.
  induction ks as [|k ks IH]; intros items Hrun s v Hin.
  - injection Hrun as <-. by apply elem_of_nil in Hin.
  - assert (forall its, snapshot_items c jc ks = Ret its -> (s, v) ∈ its ->
              py_getkey jc s = Ret v /\ is_Some (c !! s) /\ PStr s ∈ k :: ks) as IH'.
    { intros its Hits Hi. destruct (IH its Hits s v Hi) as (? & ? & ?).
      repeat split; try done. by right. }
    destruct k; simpl in Hrun; try done; try by eapply IH'.
    case_bool_decide as Hs0; [|by eapply IH'].
    destruct (py_getkey jc s0) as [v0|] eqn:Hg; simpl in Hrun; [|done].
    destruct (snapshot_items c jc ks) as [its|] eqn:Hits; simpl in Hrun; [|done].
    injection Hrun as <-. apply elem_of_cons in Hin as [[= -> ->]|Hin].
    + repeat split; try done. by left.
    + by eapply IH'.
Qed.

Lemma dict_get_keys d k : k ∈ dict_keys d -> is_Some (dict_get d k).
Proof.
  unfold dict_keys. induction d as [|[k' v'] d IH]; simpl.
  - intros H. by apply elem_of_nil in H.
  - intros H. destruct (decide (k' = k)); [by eauto|].
    apply elem_of_cons in H as [?|?]; [congruence|by apply IH].
Qed.

(** Over a dict nothing raises, and every key of the snapshot that the
    store has is taken. *)
Lemma snapshot_items_dict c d ks :
  (forall k, k ∈ ks -> is_Some (dict_get d k)) ->
  exists items,
    snapshot_items c (PDict d) (key_val <$> ks) = Ret items /\
    forall s, KStr s ∈ ks -> is_Some (c !! s) -> exists v, (s, v) ∈ items.
Proof.
  induction ks as [|k ks IH]; intros Hks.
  - exists []. split; [done|]. intros s Hs. by apply elem_of_nil in Hs.
  - destruct IH as (items & Hrun & Hall).
    { intros k' ?. apply Hks. by right. }
    destruct k as [s0|z]; csimpl.
    + case_bool_decide as Hs0.
      * destruct (Hks (KStr s0)) as [v0 Hv0]; [by left|].
        rewrite Hv0, Hrun. simpl. eexists. split; [done|].
        intros s Hs Hc. apply elem_of_cons in Hs as [[= ->]|Hs].
        -- exists v0. by left.
        -- destruct (Hall s Hs Hc) as (v & ?). exists v. by right.
      * exists items. split; [done|].
        intros s Hs Hc. apply elem_of_cons in Hs as [[= ->]|Hs]; [done|].
        by apply Hall.
    + exists items. split; [done|].
      intros s Hs Hc. apply elem_of_cons in Hs as [?|Hs]; [done|].
      by apply Hall.
Qed.

Lemma merge_object p w l d :
  files w !! p = Some (File (Document (JObj l))) ->
  json_decode (JObj l) = PDict d ->
  exists c',
    merge_snapshot p w = (Ret tt, with_counts c' w) /\
    forall k,
      c' !! k =
      match counts w !! k with
      | Some v => Some (default v (dict_get d (KStr k)))
      | None => None
      end.
Proof.
  intros Hf Hd.
  destruct (snapshot_items_dict (counts w) d (dict_keys d)) as (items & Hrun & Hall).
  { apply dict_get_keys. }
  eexists. split.
  { unfold merge_snapshot, read_text. mnorm. rewrite Hf. mnorm.
    unfold json_loads. rewrite Hd. mnorm. unfold py_iter. mnorm.
    rewrite Hrun. reflexivity. }
  intros k.
  pose proof (snapshot_items_sound _ _ _ _ Hrun) as Hsound.
  destruct (decide (k ∈ items.*1)) as [(v & Hv)%elem_of_keys|Hno];
    [|rewrite elem_of_keys in Hno].
  - destruct (Hsound k v Hv) as (Hg & [v0 Hc] & _).
    rewrite Hc. simpl in Hg.
    destruct (dict_get d (KStr k)) as [x|] eqn:Hx; [|done].
    injection Hg as ->. simpl.
    apply update_lookup_Some; [done|].
    intros v' Hv'. destruct (Hsound k v' Hv') as (Hg' & _).
    simpl in Hg'. rewrite Hx in Hg'. congruence.
  - rewrite update_lookup_None by (intros v ?; apply Hno; eauto).
    destruct (counts w !! k) as [v0|] eqn:Hc; [|done].
    destruct (dict_get d (KStr k)) as [x|] eqn:Hx; [|done].
    destruct Hno. apply Hall; [|by rewrite Hc].
    clear -Hx. unfold dict_keys. induction d as [|[k' v'] d IH]; [done|].
    simpl in *. destruct (decide (k' = KStr k)) as [->|?]; [by left|].
    right. by apply IH.
Qed.

(** The merge either raises before it touches anything, or updates
    [counts] with entries of the parsed snapshot. *)
Lemma merge_snapshot_cases p w :
  (exists e, merge_snapshot p w = (Raise e, w)) \/
  (exists j items,
     files w !! p = Some (File (Document j)) /\
     merge_snapshot p w =
       (Ret tt,
        with_counts (fold_left (fun c '(k, v) => <[k := v]> c) items (counts w)) w) /\
     forall s v, (s, v) ∈ items ->
       py_getkey (json_decode j) s = Ret v /\ is_Some (counts w !! s)).
Proof.
  unfold merge_snapshot, read_text. mnorm.
  destruct (files w !! p) as [[[j|]|]|] eqn:Hf; mnorm; try (left; by eexists).
  simpl json_loads. mnorm.
  destruct (py_iter (json_decode j)) as [ks|e] eqn:Hks; mnorm; [|left; by eexists].
  destruct (snapshot_items (counts w) (json_decode j) ks) as [items|e] eqn:Hit;
    [|left; by eexists].
  right. exists j, items. split; [done|]. split; [done|].
  intros s v Hin. by destruct (snapshot_items_sound _ _ _ _ Hit s v Hin) as (? & ? & _).
Qed.

Lemma load_json_returns verbose l w : fst (load_json verbose l w) = Ret tt.
Proof.
  destruct l as [p|]; [|done]. unfold load_json, try_except. rewrite bind_eq.
  destruct (merge_snapshot p w) as [[[]|e] w1]; simpl.
  - by destruct verbose.
  - destruct e, verbose; done.
Qed.

Lemma load_json_counts verbose p w :
  counts (snd (load_json verbose (Some p) w)) = counts (snd (merge_snapshot p w)).
Proof.
  unfold load_json, try_except. rewrite bind_eq.
  destruct (merge_snapshot p w) as [[[]|e] w1]; simpl.
  - by destruct verbose.
  - destruct e, verbose; done.
Qed.

Lemma load_json_keeps_inv verbose p w :
  per_day_inv (counts w) ->
  (forall j v, files w !! p = Some (File (Document j)) ->
               py_getkey (json_decode j) "per_day" = Ret v ->
               per_day_ok v = true) ->
  per_day_inv (counts (snd (load_json verbose (Some p) w))).
Proof.
  intros Hw Hsnap. rewrite load_json_counts.
  destruct (merge_snapshot_cases p w) as [(e & ->)|(j & items & Hf & -> & Hit)]; [done|].
  wsimpl. unfold per_day_inv in *.
  destruct (update_lookup_cases items (counts w) "per_day") as [->|(v & Hin & ->)]; [done|].
  apply (Hsnap j v Hf). by apply Hit.
Qed.

(** ** The round trip through JSON *)

Lemma int_str_bound_eq : int_str_bound = 10 ^ int_max_str_digits.
Proof. vm_compute. reflexivity. Qed.

(** An integer is too long to be written when it has more than
    [int_max_str_digits] digits. *)
Lemma int_too_long_iff z :
  int_too_long z = true <-> 10 ^ int_max_str_digits <= Z.abs z.
Proof. unfold int_too_long. rewrite int_str_bound_eq. apply Z.leb_le. Qed.

(** What [json.dump] refuses: an integer of 5001 digits, a list inside a
    list inside a list where two levels are left, a [datetime]. *)
Lemma json_encode_limits :
  json_encode 900 (PInt (10 ^ 5000)) = Raise ValueError /\
  json_encode 900 (PInt (- 10 ^ 4300)) = Raise ValueError /\
  json_encode 900 (PInt (10 ^ 4300 - 1)) = Ret (JInt (10 ^ 4300 - 1)) /\
  json_encode 2 (PList [PList [PList []]]) = Raise RecursionError /\
  json_encode 3 (PList [PList [PList []]]) = Ret (JArr [JArr [JArr []]]) /\
  json_encode 900 (PDatetime 0) = Raise TypeError.
Proof. vm_compute. repeat split; reflexivity. Qed.

Lemma pyval_nested_ind (P : pyval -> Prop) :
  P PNone -> (forall b, P (PBool b)) -> (forall z, P (PInt z)) ->
  (forall f, P (PFloat f)) -> (forall s, P (PStr s)) ->
  (forall l, Forall P l -> P (PList l)) ->
  (forall d, Forall (fun kv => P (snd kv)) d -> P (PDict d)) ->
  (forall t, P (PDatetime t)) ->
  forall v, P v.
Proof.
  intros HN HB HI HF HS HL HD HT.
  fix IH 1. intros [|b|z|f|s|l|d|t].
  - exact HN.
  - exact (HB b).
  - exact (HI z).
  - exact (HF f).
  - exact (HS s).
  - apply HL. induction l as [|x l IHl]; constructor; [apply IH|apply IHl].
  - apply HD. induction d as [|[k x] d IHd]; constructor; [apply IH|apply IHd].
  - exact (HT t).
Qed.

Lemma dict_set_fresh d k v : k ∉ d.*1 -> dict_set d k v = d ++ [(k, v)].
Proof.
  induction d as [|[k' v'] d IH]; [done|]. csimpl. intros Hk.
  apply not_elem_of_cons in Hk as [Hne Hk].
  rewrite decide_False by done. by rewrite IH.
Qed.

Lemma fold_dict_set_fresh (l : list (string * json)) (f : json -> pyval) : forall acc,
  NoDup (acc.*1 ++ (KStr <$> l.*1)) ->
  fold_left (fun d '(k, x) => dict_set d (KStr k) (f x)) l acc =
  acc ++ ((fun kx => (KStr (fst kx), f (snd kx))) <$> l).
Proof.
  induction l as [|[k x] l IH]; intros acc Hnd; csimpl.
  - by rewrite app_nil_r.
  - csimpl in Hnd. rewrite dict_set_fresh.
    + rewrite IH.
      * by rewrite <- app_assoc.
      * rewrite fmap_app. csimpl. rewrite <- app_assoc. done.
    + apply NoDup_app in Hnd as (_ & Hnd & _). intros Hin. apply (Hnd _ Hin). by left.
Qed.

Lemma json_round_trip v : forall n,
  json_native v = true -> (nesting v <= n)%nat ->
  exists j, json_encode n v = Ret j /\ json_decode j = v.
Proof.
  induction v as [| |z| | |l IH|d IH|] using pyval_nested_ind; intros n Hn Hd;
    try done; try (by eexists).
  - (* integers *)
    cbn [json_native] in Hn. apply negb_true_iff in Hn.
    exists (JInt z). cbn [json_encode]. by rewrite Hn.
  - (* lists *)
    cbn [nesting] in Hd. destruct n as [|n]; [lia|]. apply le_S_n in Hd.
    assert (exists js,
      (fix items (l : list pyval) : outcome (list json) :=
         match l with
         | [] => Ret []
         | x :: l' =>
             match json_encode n x with
             | Ret j => match items l' with Ret js => Ret (j :: js) | Raise e => Raise e end
             | Raise e => Raise e
             end
         end) l = Ret js /\ json_decode <$> js = l) as (js & Hjs & Hdec).
    { cbn [json_native] in Hn. induction l as [|x l IHl]; [by exists []|].
      cbn [forallb] in Hn. apply andb_prop in Hn as [Hx Hl].
      rewrite fmap_cons in Hd. cbn [foldr] in Hd.
      apply Forall_cons in IH as [IHx IH].
      destruct (IHx n Hx) as (j & -> & Hj); [lia|].
      destruct (IHl IH Hl) as (js & -> & Hjs); [lia|].
      exists (j :: js). split; [done|]. csimpl. by rewrite Hj, Hjs. }
    exists (JArr js). cbn [json_encode]. rewrite Hjs. split; [done|].
    cbn [json_decode]. by rewrite Hdec.
  - (* dicts *)
    cbn [nesting] in Hd. destruct n as [|n]; [lia|]. apply le_S_n in Hd.
    cbn [json_native] in Hn. apply andb_prop in Hn as [Hall Hnd].
    apply bool_decide_eq_true in Hnd.
    assert (exists js,
      (fix members (d : list (pykey * pyval)) : outcome (list (string * json)) :=
         match d with
         | [] => Ret []
         | (k, x) :: d' =>
             match json_key k with
             | Ret s =>
                 match json_encode n x with
                 | Ret j =>
                     match members d' with
                     | Ret js => Ret ((s, j) :: js)
                     | Raise e => Raise e
                     end
                 | Raise e => Raise e
                 end
             | Raise e => Raise e
             end
         end) d = Ret js /\
      (fun kx => (KStr (fst kx), json_decode (snd kx))) <$> js = d) as (js & Hjs & Hdec).
    { clear Hnd. induction d as [|[k x] d IHd]; [by exists []|].
      cbn [forallb fst snd] in Hall. apply andb_prop in Hall as [Hx Hd'].
      rewrite fmap_cons in Hd. cbn [foldr snd] in Hd.
      apply Forall_cons in IH as [IHx IH]. cbn [snd] in IHx.
      destruct k as [s|z]; [|done]. cbn [json_key].
      destruct (IHx n Hx) as (j & -> & Hj); [lia|].
      destruct (IHd IH Hd') as (js & -> & Hjs); [lia|].
      exists ((s, j) :: js). split; [done|]. csimpl. by rewrite Hj, Hjs. }
    exists (JObj js). cbn [json_encode]. rewrite Hjs. split; [done|].
    cbn [json_decode].
    rewrite fold_dict_set_fresh; [by rewrite Hdec|].
    simpl. rewrite <- Hdec in Hnd. rewrite <- list_fmap_compose in Hnd.
    by rewrite <- list_fmap_compose.
Qed.




(** ** Statements that touch the files only *)

Lemma with_files_same w : with_files (files w) w = w.
Proof. by destruct w. Qed.

Lemma files_only_pure {A} (m : M A) :
  (forall w, snd (m w) = w) -> files_only m.
Proof. intros H w. exists (files w). by rewrite H, with_files_same. Qed.

Lemma files_only_bind {A B} (m : M A) (k : A -> M B) :
  files_only m -> (forall a, files_only (k a)) -> files_only (bind m k).
Proof.
  intros Hm Hk w. rewrite bind_eq. destruct (Hm w) as (f & Hf).
  destruct (m w) as [[a|e] w']; cbn [snd] in *; subst w'; [|by exists f].
  destruct (Hk a (with_files f w)) as (f' & ->). by exists f'.
Qed.

Lemma files_only_try_except {A} (m : M A) h :
  files_only m -> (forall e, files_only (h e)) -> files_only (try_except m h).
Proof.
  intros Hm Hh w. unfold try_except. destruct (Hm w) as (f & Hf).
  destruct (m w) as [[a|e] w']; cbn [snd] in *; subst w'; [by exists f|].
  destruct (Hh e (with_files f w)) as (f' & ->). by exists f'.
Qed.

Lemma files_only_os_mkdir d : files_only (os_mkdir d).
Proof.
  intros w. unfold os_mkdir. repeat case_match; cbn [snd]; eauto;
    exists (files w); by rewrite with_files_same.
Qed.

Lemma files_only_unless_is_dir d e : files_only (unless_is_dir d e).
Proof.
  apply files_only_pure. intros w. unfold unless_is_dir, is_dir.
  rewrite bind_eq. by repeat case_match.
Qed.

Lemma files_only_mkdir_one d : files_only (mkdir_one d).
Proof.
  apply files_only_try_except; [apply files_only_os_mkdir|].
  intros e. destruct e; first [apply files_only_unless_is_dir | by apply files_only_pure].
Qed.

Lemma files_only_mkdir_parents r ps : files_only (mkdir_parents r ps).
Proof.
  induction ps as [|a ps IH]; cbn [mkdir_parents];
    (apply files_only_try_except; [apply files_only_os_mkdir|]);
    intros e; destruct e;
    try apply files_only_unless_is_dir; try (by apply files_only_pure).
  apply files_only_bind; [done|]. intros _. apply files_only_mkdir_one.
Qed.

Lemma files_only_open_w p : files_only (open_w p).
Proof.
  intros w. unfold open_w. repeat case_match; cbn [snd]; eauto;
    exists (files w); by rewrite with_files_same.
Qed.

Lemma files_only_open_snapshot p : files_only (open_snapshot p).
Proof.
  apply files_only_bind; [apply files_only_mkdir_parents|].
  intros _. apply files_only_open_w.
Qed.

Lemma files_only_json_dump p : files_only (json_dump p).
Proof. intros w. unfold json_dump. case_match; cbn [snd]; eauto. Qed.

Lemma files_only_save_json p : files_only (save_json p).
Proof.
  apply files_only_bind; [apply files_only_open_snapshot|].
  intros _. apply files_only_json_dump.
Qed.

(** What does not depend on the files is kept by such a statement. *)
Lemma files_only_preserves {A} (I : world -> Prop) (m : M A) :
  files_only m -> (forall f w, I w -> I (with_files f w)) -> preserves I m.
Proof. intros Hm HI w Hw. destruct (Hm w) as (f & ->). by apply HI. Qed.

(** When the file could be opened it is empty, and a directory was made
    at most where there was nothing. *)
Lemma open_w_run p w :
  fst (open_w p w) = Ret tt ->
  open_w p w = (Ret tt, with_files (<[p := File Garbled]> (files w)) w).
Proof. unfold open_w. by repeat case_match. Qed.

Lemma open_snapshot_run p w :
  fst (open_snapshot p w) = Ret tt ->
  exists f, open_snapshot p w = (Ret tt, with_files (<[p := File Garbled]> f) w).
Proof.
  unfold open_snapshot. rewrite bind_eq.
  destruct (files_only_mkdir_parents (root (parent (Path p)))
              (rparts (parent (Path p))) w) as (f & Hf).
  unfold mkdir.
  destruct (mkdir_parents _ _ w) as [[[]|e] w1]; cbn [fst snd] in *; [|done].
  subst w1. intros Ho. exists f. by rewrite (open_w_run _ _ Ho).
Qed.


Lemma load_json_object verbose p w l d :
  files w !! p = Some (File (Document (JObj l))) ->
  json_decode (JObj l) = PDict d ->
  exists w',
    load_json verbose (Some p) w = (Ret tt, w') /\
    forall k,
      counts w' !! k =
      match counts w !! k with
      | Some v => Some (default v (dict_get d (KStr k)))
      | None => None
      end.
Proof.
  intros Hf Hd. destruct (merge_object p w l d Hf Hd) as (c' & Hrun & Hc').
  unfold load_json, try_except. rewrite bind_eq, Hrun.
  destruct verbose; eexists; (split; [reflexivity|done]).
Qed.

(** C3. Loading a snapshot that is a JSON object: the load returns, the
    store keeps its key set, a key of both takes the snapshot's value, a
    key of the snapshot alone is ignored, and a key of the store alone
    keeps its value. *)
Theorem merge_takes_known_keys verbose p w l :
  files w !! p = Some (File (Document (JObj l))) ->
  exists w',
    load_json verbose (Some p) w = (Ret tt, w') /\
    dom (counts w') = dom (counts w) /\
    forall k,
      (forall v x, counts w !! k = Some v ->
                   py_getkey (json_decode (JObj l)) k = Ret x ->
                   counts w' !! k = Some x) /\
      (counts w !! k = None -> counts w' !! k = None) /\
      (forall v, counts w !! k = Some v ->
                 py_getkey (json_decode (JObj l)) k = Raise KeyError ->
                 counts w' !! k = Some v).
Proof.
  intros Hf.
  destruct (load_json_object verbose p w l _ Hf eq_refl) as (w' & Hrun & Hk).
  exists w'. split; [done|]. split.
  - apply set_eq. intros k. rewrite !elem_of_dom, Hk.
    destruct (counts w !! k); [by split; eauto|]. split; by intros [? ?].
  - intros k. rewrite Hk. cbn [json_decode py_getkey].
    repeat split.
    + intros v x -> Hx. by destruct (dict_get _ (KStr k)) as [y|]; simplify_eq/=.
    + by intros ->.
    + intros v -> Hx. by destruct (dict_get _ (KStr k)) as [y|]; simplify_eq/=.
Qed.


(** ** The lifecycle *)

Ltac pres_leaf :=
  let w := fresh "w" in
  let Hw := fresh "Hw" in
  intros w Hw;
  cbv beta delta [counts_get counts_set session_get session_set session_has
                  emit emit_counts write assign lift ret raise read_text
                  counts_update];
  repeat case_match; exact Hw.

Ltac pres_split :=
  repeat first
    [ lazymatch goal with
      | |- preserves _ (save_json _) =>
          apply files_only_preserves;
          [apply files_only_save_json | try (intros ? ? Hw; exact Hw)]
      end
    | apply preserves_bind; [|intros ?]
    | apply preserves_when
    | apply preserves_try_except; [|intros ?] ].

Section LifecycleFacts.

Variable orig : place -> widget -> fn.
Variable firestore_load :
  gmap string pyval -> string -> string -> outcome unit * gmap string pyval.
Variable firestore_save :
  gmap string pyval -> string -> string -> outcome unit.
Variable show_results :
  gmap string pyval ->
  (gmap string pyval -> outcome unit * gmap string pyval) ->
  option string -> outcome unit * gmap string pyval.

Lemma restore_widgets_run w :
  exists T,
    restore_widgets orig w = (Ret tt, with_st T w) /\
    (forall p x, (p, x) <> (Sidebar, chat_input) -> T p x = orig p x) /\
    T Sidebar chat_input = st w Sidebar chat_input.
Proof.
  eexists. split; [|split].
  - cbv [restore_widgets bind assign with_st counts session_state st files
         query_params page log]. reflexivity.
  - intros [] []; try done; intros _; reflexivity.
  - reflexivity.
Qed.

(** What follows the restoring of the entry points in [stop_tracking]
    leaves [st] alone. *)
Lemma stop_tail_keeps_st (P : attrs -> Prop) clk unsafe_password save_to_json
  firestore_key_file firestore_collection_name verbose :
  preserves (fun w => P (st w))
    (save_firestore firestore_save verbose firestore_key_file firestore_collection_name ;;
     match save_to_json with
     | Some p =>
         save_json p ;;
         when verbose (emit (Printed ("Storing results to file: " +:+ p)))
     | None => ret tt
     end ;;
     show_dashboard show_results clk unsafe_password).
Proof.
  unfold save_firestore, show_dashboard.
  destruct (given firestore_key_file), save_to_json; pres_split; try pres_leaf.
  all: intros w Hw; by destruct (show_results _ _ _).
Qed.

Lemma stop_tracking_st clk unsafe_password save_to_json firestore_key_file
  firestore_collection_name verbose w p x :
  (p, x) <> (Sidebar, chat_input) ->
  st (snd (stop_tracking orig firestore_save show_results clk unsafe_password
             save_to_json firestore_key_file firestore_collection_name verbose w))
    p x = orig p x.
Proof.
  intros Hpx. unfold stop_tracking. rewrite bind_eq.
  assert (exists w0, forall m : M unit,
            (when verbose
               (emit (LogInfo "Finished script execution. New counts:") ;;
                emit_counts ;;
                emit (LogInfo "--------------------------------------------------------------------------------"))) w
            = (Ret tt, w0)) as (w0 & Hlog).
  { destruct verbose; eexists; intros _; reflexivity. }
  rewrite (Hlog (ret tt)). rewrite bind_eq.
  destruct (restore_widgets_run w0) as (T & -> & HT & _).
  apply (stop_tail_keeps_st (fun t => t p x = orig p x)).
  wsimpl. by apply HT.
Qed.

Lemma stop_tracking_sidebar_chat_input clk unsafe_password save_to_json
  firestore_key_file firestore_collection_name verbose w :
  st (snd (stop_tracking orig firestore_save show_results clk unsafe_password
             save_to_json firestore_key_file firestore_collection_name verbose w))
    Sidebar chat_input = st w Sidebar chat_input.
Proof.
  unfold stop_tracking. rewrite bind_eq.
  assert (exists w0, st w0 = st w /\ forall m : M unit,
            (when verbose
               (emit (LogInfo "Finished script execution. New counts:") ;;
                emit_counts ;;
                emit (LogInfo "--------------------------------------------------------------------------------"))) w
            = (Ret tt, w0)) as (w0 & Hst0 & Hlog).
  { destruct verbose; eexists; (split; [|intros _; reflexivity]); reflexivity. }
  rewrite (Hlog (ret tt)). rewrite bind_eq.
  destruct (restore_widgets_run w0) as (T & -> & _ & HT).
  apply (stop_tail_keeps_st (fun t => t Sidebar chat_input = st w Sidebar chat_input)).
  wsimpl. by rewrite HT, Hst0.
Qed.

Lemma when_emit_run b r w :
  exists l, when b (emit r) w = (Ret tt, with_log l w).
Proof.
  destruct b; eexists; [reflexivity|].
  instantiate (1 := log w). by destruct w.
Qed.

Lemma patch_widgets_run w :
  exists T,
    patch_widgets orig w = (Ret tt, with_st T w) /\
    (forall p x, (p, x) <> (Sidebar, chat_input) ->
                 T p x = Wrapped (wrapper_of x) (orig p x)) /\
    T Sidebar chat_input = st w Sidebar chat_input.
Proof.
  eexists. split; [|split].
  - cbv [patch_widgets bind assign with_st counts session_state st files
         query_params page log stack]. reflexivity.
  - intros [] []; try done; intros _; reflexivity.
  - reflexivity.
Qed.

Lemma load_firestore_keeps_st (P : attrs -> Prop) firestore_key_file
  firestore_collection_name :
  preserves (fun w => P (st w))
    (load_firestore firestore_load firestore_key_file firestore_collection_name).
Proof.
  intros w Hw.
  unfold load_firestore, wants_firestore_load, counts_get. mnorm.
  destruct (given firestore_key_file); mnorm; [|done].
  destruct (counts w !! "loaded_from_firestore") as [flag|]; mnorm; [|done].
  destruct (negb (truthy flag)), firestore_key_file; try done.
  unfold counts_set. by destruct (firestore_load _ _ _) as [[[]|e] c].
Qed.

Lemma load_json_keeps_st (P : attrs -> Prop) verbose l :
  preserves (fun w => P (st w)) (load_json verbose l).
Proof.
  destruct l as [p|]; [|pres_leaf]. unfold load_json, merge_snapshot.
  pres_split; try pres_leaf.
  match goal with e : exn |- _ => destruct e end; pres_split; pres_leaf.
Qed.

Lemma rerun_keeps_st (P : attrs -> Prop) r :
  preserves (fun w => P (st w)) (rerun r).
Proof.
  unfold rerun, reset_session_state, _track_user, open_day, count_run,
    counts_add, per_day_update.
  pres_split; pres_leaf.
Qed.

(** Where [start_tracking] leaves the entry points. *)
Lemma start_tracking_st now0 clk verbose firestore_key_file
  firestore_collection_name load_from_json w :
  (exists e w',
     start_tracking orig firestore_load now0 clk verbose firestore_key_file
       firestore_collection_name load_from_json w = (Raise e, w') /\
     st w' = st w) \/
  (exists w',
     start_tracking orig firestore_load now0 clk verbose firestore_key_file
       firestore_collection_name load_from_json w = (Ret tt, w') /\
     (forall p x, (p, x) <> (Sidebar, chat_input) ->
                  st w' p x = Wrapped (wrapper_of x) (orig p x)) /\
     st w' Sidebar chat_input = st w Sidebar chat_input).
Proof.
  unfold start_tracking. rewrite bind_eq.
  pose proof (load_firestore_keeps_st (fun t => t = st w) firestore_key_file
                firestore_collection_name w eq_refl) as H0.
  destruct (load_firestore _ _ _ w) as [[[]|e0] w0]; simpl in H0;
    [|left; by eexists _, _].
  rewrite bind_eq.
  pose proof (load_json_keeps_st (fun t => t = st w) verbose load_from_json w0 H0) as H1.
  destruct (load_json _ _ w0) as [[[]|e1] w1]; simpl in H1;
    [|left; by eexists _, _].
  rewrite bind_eq.
  pose proof (rerun_keeps_st (fun t => t = st w) (now0, clk) w1 H1) as H2.
  destruct (rerun _ w1) as [[[]|e2] w2]; simpl in H2;
    [|left; by eexists _, _].
  rewrite bind_eq.
  destruct (patch_widgets_run w2) as (T & -> & HT & Hside).
  destruct (when_emit_run verbose
              (LogInfo (String (ascii_of_nat 10)
                 "Tracking script execution with streamlit-analytics..."))
              (with_st T w2)) as (l & ->).
  right. eexists. split; [done|]. cbn [st with_log with_st]. split; [done|].
  by rewrite Hside, H2.
Qed.

(** C8, as amended. When [start_tracking] and the body of the [with]
    statement return, [track] goes on with [stop_tracking] from the state
    the body left. Every entry point but [st.sidebar.chat_input] was
    wrapped by [start_tracking] and is, whatever [stop_tracking] does
    after restoring, the function saved at module load; it is what it was
    before the start exactly when it was the saved function then.
    [st.sidebar.chat_input] is not patched by [start_tracking] and not
    restored by [stop_tracking]. *)
Theorem track_restores_widgets now0 clk clk' unsafe_password save_to_json
  firestore_key_file firestore_collection_name verbose load_from_json body w w1 w2 :
  start_tracking orig firestore_load now0 clk verbose firestore_key_file
    firestore_collection_name load_from_json w = (Ret tt, w1) ->
  body w1 = (Ret tt, w2) ->
  track orig firestore_load firestore_save show_results now0 clk clk'
    unsafe_password save_to_json firestore_key_file firestore_collection_name
    verbose load_from_json body w
  = stop_tracking orig firestore_save show_results clk' unsafe_password
      save_to_json firestore_key_file firestore_collection_name verbose w2 /\
  (forall p x, (p, x) <> (Sidebar, chat_input) ->
     st w1 p x = Wrapped (wrapper_of x) (orig p x) /\
     st (snd (stop_tracking orig firestore_save show_results clk' unsafe_password
                save_to_json firestore_key_file firestore_collection_name verbose w2))
       p x = orig p x /\
     (st (snd (track orig firestore_load firestore_save show_results now0 clk clk'
                 unsafe_password save_to_json firestore_key_file
                 firestore_collection_name verbose load_from_json body w))
        p x = st w p x
      <-> st w p x = orig p x)) /\
  st w1 Sidebar chat_input = st w Sidebar chat_input /\
  st (snd (stop_tracking orig firestore_save show_results clk' unsafe_password
             save_to_json firestore_key_file firestore_collection_name verbose w2))
    Sidebar chat_input = st w2 Sidebar chat_input.
Proof.
  intros Hstart Hbody.
  assert (track orig firestore_load firestore_save show_results now0 clk clk'
            unsafe_password save_to_json firestore_key_file firestore_collection_name
            verbose load_from_json body w
          = stop_tracking orig firestore_save show_results clk' unsafe_password
              save_to_json firestore_key_file firestore_collection_name verbose w2) as Htrack.
  { unfold track. rewrite (bind_run _ _ _ _ _ Hstart).
    by rewrite (bind_run _ _ _ _ _ Hbody). }
  destruct (start_tracking_st now0 clk verbose firestore_key_file
              firestore_collection_name load_from_json w)
    as [(e & w' & Hrun & _)|(w' & Hrun & Hpatched & Hside)];
    rewrite Hstart in Hrun; simplify_eq.
  split; [done|]. split; [|split].
  - intros p x Hpx. split; [by apply Hpatched|]. split; [by apply stop_tracking_st|].
    rewrite Htrack, (stop_tracking_st _ _ _ _ _ _ _ _ _ Hpx). by split.
  - done.
  - apply stop_tracking_sidebar_chat_input.
Qed.

(** If the body raises, [stop_tracking] does not run. *)
Lemma track_body_raises now0 clk clk' unsafe_password save_to_json
  firestore_key_file firestore_collection_name verbose load_from_json body w w1 w2 e :
  start_tracking orig firestore_load now0 clk verbose firestore_key_file
    firestore_collection_name load_from_json w = (Ret tt, w1) ->
  body w1 = (Raise e, w2) ->
  track orig firestore_load firestore_save show_results now0 clk clk'
    unsafe_password save_to_json firestore_key_file firestore_collection_name
    verbose load_from_json body w = (Raise e, w2).
Proof.
  intros Hstart Hbody. unfold track. rewrite (bind_run _ _ _ _ _ Hstart).
  by rewrite (bind_raise _ _ _ _ _ Hbody).
Qed.

(** *** The session record across [start_tracking] *)

Lemma track_user_keeps_session (P : gmap string pyval -> Prop) clk :
  (forall s v, P s -> P (<["last_time" := v]> s)) ->
  (forall s v, P s -> P (<["user_tracked" := v]> s)) ->
  preserves (fun w => P (session_state w)) (_track_user clk).
Proof.
  intros Hlt Hut.
  unfold _track_user, open_day, count_run, counts_add, per_day_update.
  pres_split; try pres_leaf.
  - intros w Hw. by apply Hlt.
  - intros w Hw. by apply Hut.
Qed.

Lemma patch_widgets_keeps_session (P : gmap string pyval -> Prop) :
  preserves (fun w => P (session_state w)) (patch_widgets orig).
Proof. unfold patch_widgets. pres_split; pres_leaf. Qed.

Lemma load_json_keeps_session (P : gmap string pyval -> Prop) verbose l :
  preserves (fun w => P (session_state w)) (load_json verbose l).
Proof.
  destruct l as [p|]; [|pres_leaf]. unfold load_json, merge_snapshot.
  pres_split; try pres_leaf.
  match goal with e : exn |- _ => destruct e end; pres_split; pres_leaf.
Qed.

Lemma load_json_session verbose l w :
  session_state (snd (load_json verbose l w)) = session_state w.
Proof. by apply (load_json_keeps_session (fun s => s = session_state w)). Qed.

Lemma load_firestore_session firestore_key_file firestore_collection_name w :
  session_state (snd (load_firestore firestore_load firestore_key_file
                        firestore_collection_name w)) = session_state w.
Proof.
  unfold load_firestore, wants_firestore_load, counts_get. mnorm.
  destruct (given firestore_key_file); mnorm; [|done].
  destruct (counts w !! "loaded_from_firestore"); mnorm; [|done].
  destruct (negb (truthy p)), firestore_key_file; try done.
  unfold counts_set. by destruct (firestore_load _ _ _) as [[[]|e] c].
Qed.

Lemma load_firestore_files firestore_key_file firestore_collection_name w :
  files (snd (load_firestore firestore_load firestore_key_file
                firestore_collection_name w)) = files w.
Proof.
  unfold load_firestore, wants_firestore_load, counts_get. mnorm.
  destruct (given firestore_key_file); mnorm; [|done].
  destruct (counts w !! "loaded_from_firestore"); mnorm; [|done].
  destruct (negb (truthy p)), firestore_key_file; try done.
  unfold counts_set. by destruct (firestore_load _ _ _) as [[[]|e] c].
Qed.

Lemma load_json_missing p w :
  files w !! p = None -> load_json false (Some p) w = (Ret tt, w).
Proof.
  intros Hf. unfold load_json, try_except, merge_snapshot, read_text. mnorm.
  by rewrite Hf.
Qed.

(** C4. The load step of [start_tracking] never raises. With the
    snapshot file missing it leaves the store alone (and logs a warning
    when verbose), and [start_tracking] goes on as it does without a
    snapshot; with a file that does not parse it logs the error and leaves
    the store alone. *)
Theorem load_survives_bad_snapshot now0 clk verbose firestore_key_file
  firestore_collection_name p w :
  fst (load_json verbose (Some p) w) = Ret tt /\
  (files w !! p = None ->
   counts (snd (load_json verbose (Some p) w)) = counts w /\
   log (snd (load_json verbose (Some p) w)) =
     log w ++
     (if verbose
      then [LogWarning ("File " +:+ p +:+ " not found, proceeding with empty counts.")]
      else []) /\
   start_tracking orig firestore_load now0 clk false firestore_key_file
     firestore_collection_name (Some p) w
   = start_tracking orig firestore_load now0 clk false firestore_key_file
       firestore_collection_name None w) /\
  (files w !! p = Some (File Garbled) ->
   counts (snd (load_json verbose (Some p) w)) = counts w /\
   log (snd (load_json verbose (Some p) w)) =
     log w ++ [LogError ("Error loading counts from " +:+ p) JSONDecodeError]).
Proof.
  split; [apply load_json_returns|]. split; intros Hf.
  - split; [|split].
    + unfold load_json, try_except, merge_snapshot, read_text. mnorm. rewrite Hf.
      by destruct verbose.
    + unfold load_json, try_except, merge_snapshot, read_text. mnorm. rewrite Hf.
      destruct verbose; simpl; [done|]. by rewrite app_nil_r.
    + unfold start_tracking.
      rewrite !(bind_eq (load_firestore firestore_load firestore_key_file
                           firestore_collection_name)).
      pose proof (load_firestore_files firestore_key_file firestore_collection_name w)
        as Hfiles.
      destruct (load_firestore _ _ _ w) as [[[]|e] w0]; [|done]. simpl in Hfiles.
      rewrite (bind_eq (load_json false (Some p))), load_json_missing
        by by rewrite Hfiles.
      reflexivity.
  - unfold load_json, try_except, merge_snapshot, read_text. mnorm. rewrite Hf.
    done.
Qed.

(** C9. Line 155 tests the key ["state_dic"], line 156 writes
    ["state_dict"]. Where ["state_dic"] is not set, lines 152-159 leave
    [state_dict] empty whatever it held, and leave ["state_dic"] unset, so
    the same happens on the next rerun; and so does every call of
    [start_tracking] that gets past the remote load. *)
Theorem state_dict_emptied_on_every_run r now0 clk verbose firestore_key_file
  firestore_collection_name load_from_json w :
  session_state w !! "state_dic" = None ->
  (session_state (snd (rerun r w)) !! "state_dict" = Some (PDict []) /\
   session_state (snd (rerun r w)) !! "state_dic" = None) /\
  (fst (load_firestore firestore_load firestore_key_file firestore_collection_name w)
     = Ret tt ->
   session_state
     (snd (start_tracking orig firestore_load now0 clk verbose firestore_key_file
             firestore_collection_name load_from_json w)) !! "state_dict"
     = Some (PDict []) /\
   session_state
     (snd (start_tracking orig firestore_load now0 clk verbose firestore_key_file
             firestore_collection_name load_from_json w)) !! "state_dic"
     = None).
Proof.
  intros Hdic.
  set (P := fun s : gmap string pyval =>
              s !! "state_dict" = Some (PDict []) /\ s !! "state_dic" = None).
  assert (forall r w, session_state w !! "state_dic" = None ->
            P (session_state (snd (rerun r w)))) as Hrerun.
  { clear. intros r w Hdic. unfold rerun. rewrite bind_eq, reset_session_state_run.
    apply (track_user_keeps_session P).
    - intros s v [? ?]. split; by rewrite lookup_insert_ne.
    - intros s v [? ?]. split; by rewrite lookup_insert_ne.
    - wsimpl. split.
      + by apply session_reset_state_dict.
      + by rewrite session_reset_state_dic. }
  split; [by apply Hrerun|]. intros Hfire.
  change (P (session_state
     (snd (start_tracking orig firestore_load now0 clk verbose firestore_key_file
             firestore_collection_name load_from_json w)))).
  unfold start_tracking. rewrite bind_eq.
  pose proof (load_firestore_session firestore_key_file firestore_collection_name w) as Hs0.
  destruct (load_firestore _ _ _ w) as [[[]|e] w0]; [|done]. simpl in Hs0.
  rewrite bind_eq.
  pose proof (load_json_returns verbose load_from_json w0) as Hret.
  pose proof (load_json_session verbose load_from_json w0) as Hs1.
  destruct (load_json _ _ w0) as [[[]|e] w1]; [|done]. simpl in Hs1.
  rewrite bind_eq.
  pose proof (Hrerun (now0, clk) w1) as H2. rewrite Hs1, Hs0 in H2. specialize (H2 Hdic).
  destruct (rerun _ w1) as [[[]|e] w2]; [|done]. simpl in H2.
  revert H2. generalize w2.
  change (preserves (fun w => P (session_state w))
            (patch_widgets orig ;;
             when verbose (emit (LogInfo (String (ascii_of_nat 10)
                "Tracking script execution with streamlit-analytics..."))))).
  apply preserves_bind; [apply patch_widgets_keeps_session|intros _].
  pres_split; pres_leaf.
Qed.

End LifecycleFacts.

(** ** Dates and their strings *)

Ltac dlia := Z.to_euclidean_division_equations; lia.

Lemma digit_inj a b :
  0 <= a < 10 -> 0 <= b < 10 -> digit a = digit b -> a = b.
Proof.
  intros Ha Hb H. unfold digit in H.
  rewrite !Z.mod_small in H by lia.
  apply (f_equal nat_of_ascii) in H.
  rewrite !nat_ascii_embedding in H by lia. lia.
Qed.

Lemma digit_mod z : digit z = digit (z mod 10).
Proof. unfold digit. by rewrite Z.mod_mod. Qed.

Lemma pad2_inj a b :
  0 <= a < 100 -> 0 <= b < 100 -> pad2 a = pad2 b -> a = b.
Proof.
  intros Ha Hb H. unfold pad2 in H. injection H as H1 H0.
  rewrite (digit_mod a), (digit_mod b) in H0.
  apply digit_inj in H1; [|dlia..]. apply digit_inj in H0; [|dlia..].
  dlia.
Qed.

Lemma pad4_inj a b :
  0 <= a < 10000 -> 0 <= b < 10000 -> pad4 a = pad4 b -> a = b.
Proof.
  intros Ha Hb H. unfold pad4, pad2 in H. injection H as H3 H2 H1 H0.
  rewrite (digit_mod (a / 100)), (digit_mod (b / 100)) in H2.
  rewrite (digit_mod (a / 10)), (digit_mod (b / 10)) in H1.
  rewrite (digit_mod a), (digit_mod b) in H0.
  apply digit_inj in H3; [|dlia..]. apply digit_inj in H2; [|dlia..].
  apply digit_inj in H1; [|dlia..]. apply digit_inj in H0; [|dlia..].
  dlia.
Qed.

Lemma date_str_inj d d' :
  in_range d -> in_range d' -> date_str d = date_str d' -> d = d'.
Proof.
  destruct d as [y m a], d' as [y' m' a'].
  intros (Hy & Hm & Ha) (Hy' & Hm' & Ha') H. simpl in *.
  unfold date_str in H. cbn [year month day] in H.
  unfold pad4, pad2 in H. cbn [String.append] in H.
  injection H as Y3 Y2 Y1 Y0 M1 M0 A1 A0.
  f_equal.
  - apply pad4_inj; [done..|]. unfold pad4, pad2. congruence.
  - apply pad2_inj; [done..|]. unfold pad2. congruence.
  - apply pad2_inj; [done..|]. unfold pad2. congruence.
Qed.

Lemma days_in_month_range y m : 28 <= days_in_month y m <= 31.
Proof. unfold days_in_month. repeat case_match; lia. Qed.

Lemma day_before_valid d :
  valid_date d = true -> d <> Date 1 1 1 ->
  exists y, day_before d = Ret y /\ y <> d /\ in_range y /\ in_range d.
Proof.
  destruct d as [y m a]. unfold valid_date, day_before. cbn [year month day].
  intros Hv Hmin.
  repeat (apply andb_prop in Hv as [Hv ?]).
  pose proof (days_in_month_range y m). pose proof (days_in_month_range y (m - 1)).
  assert (in_range (Date y m a)) by (unfold in_range; simpl; lia).
  destruct (1 <? a) eqn:Ha; [|destruct (1 <? m) eqn:Hm; [|destruct (1 <? y) eqn:Hy]].
  - eexists. split; [done|]. split; [|split; [|done]].
    + intros [=]. lia.
    + unfold in_range; simpl; lia.
  - eexists. split; [done|]. split; [|split; [|done]].
    + intros [=]. lia.
    + unfold in_range; simpl; lia.
  - eexists. split; [done|]. split; [|split; [|done]].
    + intros [=]. lia.
    + unfold in_range; simpl; lia.
  - destruct Hmin. f_equal; lia.
Qed.

(** The day [day_before] gives is yesterday: a day of the calendar, before
    [d], with no day of the calendar between the two, and numbered one
    less than [d]. *)
Lemma day_before_yesterday d y :
  valid_date d = true -> day_before d = Ret y ->
  valid_date y = true /\
  date_ltb y d = true /\
  (forall d', valid_date d' = true -> date_ltb y d' = true ->
              date_ltb d' d = true -> False) /\
  toordinal y = toordinal d - 1.
Proof.
  destruct d as [yr m a]. unfold valid_date, day_before. cbn [year month day].
  intros Hv Hy.
  repeat (apply andb_prop in Hv as [Hv ?]).
  pose proof (days_in_month_range yr (m - 1)) as Hdim.
  assert (forall d', valid_date d' = true ->
            1 <= year d' <= 9999 /\ 1 <= month d' <= 12 /\
            1 <= day d' <= days_in_month (year d') (month d')) as Hvalid.
  { intros d' Hd'. unfold valid_date in Hd'.
    repeat (apply andb_prop in Hd' as [Hd' ?]). lia. }
  assert (forall d1 d2, date_ltb d1 d2 = true ->
            year d1 < year d2 \/
            (year d1 = year d2 /\
             (month d1 < month d2 \/ (month d1 = month d2 /\ day d1 < day d2))))
    as Hlt.
  { intros d1 d2. unfold date_ltb. rewrite !orb_true_iff, !andb_true_iff.
    rewrite !orb_true_iff, !andb_true_iff. lia. }
  destruct (1 <? a) eqn:Ha; [|destruct (1 <? m) eqn:Hm; [|destruct (1 <? yr) eqn:Hyr]];
    simplify_eq.
  - (* the same month *)
    split; [|split; [|split]].
    + unfold valid_date. cbn [year month day].
      repeat (apply andb_true_intro; split); lia.
    + unfold date_ltb. cbn [year month day].
      rewrite !orb_true_iff, !andb_true_iff. lia.
    + intros d' _ Hb1 Hb2. apply Hlt in Hb1, Hb2. cbn [year month day] in *. lia.
    + unfold toordinal. cbn [year month day]. lia.
  - (* the last day of the month before *)
    split; [|split; [|split]].
    + unfold valid_date. cbn [year month day].
      repeat (apply andb_true_intro; split); lia.
    + unfold date_ltb. cbn [year month day].
      rewrite !orb_true_iff, !andb_true_iff. lia.
    + intros d' Hd' Hb1 Hb2. apply Hvalid in Hd'. apply Hlt in Hb1, Hb2.
      cbn [year month day] in *.
      destruct Hb1 as [?|[Hyy [?|[Hmm ?]]]]; [lia| |].
      * destruct Hb2 as [?|[? [?|[? ?]]]]; lia.
      * rewrite <- Hyy, <- Hmm in Hd'. lia.
    + unfold toordinal. cbn [year month day].
      assert (days_before_month yr m =
              days_before_month yr (m - 1) + days_in_month yr (m - 1)) as Hdbm.
      { assert (m = 2 \/ m = 3 \/ m = 4 \/ m = 5 \/ m = 6 \/ m = 7 \/ m = 8 \/
                m = 9 \/ m = 10 \/ m = 11 \/ m = 12) as Hcases by lia.
        unfold days_before_month, days_in_month.
        destruct Hcases as [->|[->|[->|[->|[->|[->|[->|[->|[->|[->| ->]]]]]]]]]];
          destruct (is_leap yr); reflexivity. }
      lia.
  - (* the last day of the year before *)
    assert (m = 1) as -> by lia. assert (a = 1) as -> by lia.
    split; [|split; [|split]].
    + unfold valid_date. cbn [year month day].
      repeat (apply andb_true_intro; split); try lia. reflexivity.
    + unfold date_ltb. cbn [year month day].
      rewrite !orb_true_iff, !andb_true_iff. lia.
    + intros d' Hd' Hb1 Hb2. apply Hvalid in Hd'. apply Hlt in Hb1, Hb2.
      cbn [year month day] in *.
      pose proof (days_in_month_range (year d') (month d')).
      destruct Hb1 as [?|[Hyy [?|[Hmm ?]]]]; destruct Hb2 as [?|[? [?|[? ?]]]]; lia.
    + unfold toordinal. cbn [year month day].
      unfold days_before_month, days_before_year, is_leap.
      change (Z.to_nat 12) with 12%nat. change (Z.to_nat 1) with 1%nat.
      cbn [nth Z.ltb Z.compare Pos.compare Pos.compare_cont andb].
      destruct (Z.eqb_spec ((yr - 1) mod 4) 0), (Z.eqb_spec ((yr - 1) mod 100) 0),
        (Z.eqb_spec ((yr - 1) mod 400) 0); cbn [andb orb negb]; dlia.
Qed.

(** C10. [reset_counts] writes six keys of the store and nothing else:
    every other key, [loaded_from_firestore] among them, keeps its value,
    so the test of line 123 gives what it gave before the reset; and the
    one day of the reset [per_day] is yesterday, the day of the calendar
    right before today and numbered one less, whose string is not
    today's. *)
Theorem reset_counts_frame clk w :
  valid_date (today clk) = true ->
  today clk <> Date 1 1 1 ->
  exists y w',
    day_before (today clk) = Ret y /\
    valid_date y = true /\
    date_ltb y (today clk) = true /\
    (forall d, valid_date d = true -> date_ltb y d = true ->
               date_ltb d (today clk) = true -> False) /\
    toordinal y = toordinal (today clk) - 1 /\
    reset_counts clk w = (Ret tt, w') /\
    counts w' !! "total_pageviews" = Some (PInt 0) /\
    counts w' !! "total_script_runs" = Some (PInt 0) /\
    counts w' !! "total_time_seconds" = Some (PInt 0) /\
    counts w' !! "per_day" =
      Some (PDict [(KStr "days", PList [PStr (date_str y)]);
                   (KStr "pageviews", PList [PInt 0]);
                   (KStr "script_runs", PList [PInt 0])]) /\
    counts w' !! "widgets" = Some (PDict []) /\
    counts w' !! "start_time" = Some (PStr (now_text clk)) /\
    (forall k,
       k ∉ ["total_pageviews"; "total_script_runs"; "total_time_seconds";
            "per_day"; "widgets"; "start_time"] ->
       counts w' !! k = counts w !! k) /\
    counts w' !! "loaded_from_firestore" = counts w !! "loaded_from_firestore" /\
    (forall key_file,
       fst (wants_firestore_load key_file w') = fst (wants_firestore_load key_file w)) /\
    date_str y <> date_str (today clk) /\
    session_state w' = session_state w /\ st w' = st w /\ files w' = files w.
Proof.
  intros Hv Hmin.
  destruct (day_before_valid _ Hv Hmin) as (y & Hy & Hne & Hry & Hrt).
  destruct (day_before_yesterday _ _ Hv Hy) as (Hvy & Hlt & Hnext & Hord).
  exists y. eexists. split; [done|].
  split; [done|]. split; [done|]. split; [done|]. split; [done|].
  split; [by apply reset_counts_run|].
  wsimpl.
  assert (forall k,
    k ∉ ["total_pageviews"; "total_script_runs"; "total_time_seconds";
         "per_day"; "widgets"; "start_time"] ->
    <["start_time" := PStr (now_text clk)]>
      (<["widgets" := PDict []]>
       (<["per_day" :=
            PDict [(KStr "days", PList [PStr (date_str y)]);
                   (KStr "pageviews", PList [PInt 0]);
                   (KStr "script_runs", PList [PInt 0])]]>
        (<["total_time_seconds" := PInt 0]>
         (<["total_script_runs" := PInt 0]>
          (<["total_pageviews" := PInt 0]> (counts w)))))) !! k = counts w !! k) as Hframe.
  { intros k Hk. rewrite !not_elem_of_cons in Hk.
    destruct Hk as (? & ? & ? & ? & ? & ? & _).
    by rewrite !lookup_insert_ne by done. }
  repeat split; try done.
  - by rewrite !lookup_insert_ne, lookup_insert_eq by done.
  - by rewrite !lookup_insert_ne, lookup_insert_eq by done.
  - by rewrite !lookup_insert_ne, lookup_insert_eq by done.
  - by rewrite !lookup_insert_ne, lookup_insert_eq by done.
  - by rewrite !lookup_insert_ne, lookup_insert_eq by done.
  - by rewrite lookup_insert_eq.
  - by rewrite !lookup_insert_ne by done.
  - intros key_file. unfold wants_firestore_load, counts_get. wsimpl.
    destruct (given key_file); [|done]. mnorm. wsimpl.
    rewrite !lookup_insert_ne by done.
    by destruct (counts w !! "loaded_from_firestore").
  - intros Heq. apply Hne. by apply date_str_inj.
Qed.

(** ** The day entry of [_track_user] *)

(** C2, as amended. On a store whose [per_day] holds sequences with at
    least one day: when the last recorded day is not today, and so whenever
    today is not recorded at all, lines 91-95 append today with two zero
    counters to the three sequences, and the increments of the call apply
    to the store so extended; when the last recorded day is today they
    append nothing. With strictly increasing days, none after today, the
    last day is today exactly when today is recorded. *)
Theorem new_day_by_last_entry clk w v ds pv sr :
  counts w !! "per_day" = Some v ->
  per_day_shows v ds pv sr ->
  ds <> [] ->
  (last ds <> Some (date_str (today clk)) ->
   exists v',
     open_day (date_str (today clk)) w =
       (Ret tt, with_counts (<["per_day" := v']> (counts w)) w) /\
     per_day_shows v' (ds ++ [date_str (today clk)]) (pv ++ [0]) (sr ++ [0]) /\
     _track_user clk w =
       count_run clk (with_counts (<["per_day" := v']> (counts w)) w)) /\
  (last ds = Some (date_str (today clk)) ->
   open_day (date_str (today clk)) w = (Ret tt, w) /\
   _track_user clk w = count_run clk w) /\
  (date_str (today clk) ∉ ds -> last ds <> Some (date_str (today clk))) /\
  (increasing ds = true ->
   (forall d, last ds = Some d -> String.leb d (date_str (today clk)) = true) ->
   (date_str (today clk) ∈ ds <-> last ds = Some (date_str (today clk)))).
Proof.
  intros Hp Hsh Hne. split; [|split; [|split]].
  - intros Hl.
    destruct (open_day_new _ w v ds pv sr Hp Hsh Hne Hl) as (v' & Hrun & Hsh').
    exists v'. split; [done|]. split; [done|].
    unfold _track_user. by rewrite (bind_run _ _ _ _ _ Hrun).
  - intros Hl. pose proof (open_day_same _ w v ds pv sr Hp Hsh Hl) as Hrun.
    split; [done|]. unfold _track_user. by rewrite (bind_run _ _ _ _ _ Hrun).
  - intros Hnot Hl. apply Hnot.
    destruct (snoc_cases ds) as [->|(l & x & ->)]; [done|].
    rewrite last_snoc in Hl. injection Hl as ->.
    apply elem_of_app. right. by apply list_elem_of_singleton.
  - apply recorded_iff_last.
Qed.

(** C2 fails as stated: 1 January is recorded, it is not the last day, and
    a rerun on 1 January appends it again. *)
Lemma recorded_day_appended_again :
  date_str (today clock_jan1) = "2024-01-01" /\
  counts tracked_world !! "per_day" =
    Some (PDict [(KStr "days", PList [PStr "2024-01-01"; PStr "2024-01-02"]);
                 (KStr "pageviews", PList [PInt 0; PInt 1]);
                 (KStr "script_runs", PList [PInt 0; PInt 2])]) /\
  fst (_track_user clock_jan1 tracked_world) = Ret tt /\
  counts (snd (_track_user clock_jan1 tracked_world)) !! "per_day" =
    Some (PDict [(KStr "days",
                  PList [PStr "2024-01-01"; PStr "2024-01-02"; PStr "2024-01-01"]);
                 (KStr "pageviews", PList [PInt 0; PInt 1; PInt 0]);
                 (KStr "script_runs", PList [PInt 0; PInt 2; PInt 1])]).
Proof. vm_compute. repeat split; reflexivity. Qed.

(** ** The invariant of [per_day] *)

(** C7, as amended. From a store that satisfies the invariant of
    [per_day]: [reset_counts] leaves one that does; [_track_user] does,
    whether it returns or raises, when the last recorded day is not after
    today; the merge of a snapshot does when the snapshot has no [per_day]
    or one that satisfies the invariant. *)
Theorem per_day_invariant_kept clk verbose p w :
  per_day_inv (counts w) ->
  per_day_inv (counts (snd (reset_counts clk w))) /\
  ((forall d, last_day (counts w) = Some d ->
              String.leb d (date_str (today clk)) = true) ->
   per_day_inv (counts (snd (_track_user clk w)))) /\
  ((forall j v, files w !! p = Some (File (Document j)) ->
                py_getkey (json_decode j) "per_day" = Ret v ->
                per_day_ok v = true) ->
   per_day_inv (counts (snd (load_json verbose (Some p) w)))).
Proof.
  intros Hw. split; [|split].
  - destruct (day_before (today clk)) as [y|e] eqn:Hy.
    + by apply (reset_counts_inv clk w y).
    + by rewrite (reset_counts_raise _ _ _ Hy).
  - by apply track_user_keeps_inv.
  - by apply load_json_keeps_inv.
Qed.

(** C7 fails as stated: the merge takes the [per_day] of the snapshot as
    it is, and [_track_user] appends a day that is before the last one. *)
Lemma per_day_invariant_broken :
  per_day_inv (counts (snapshot_world backwards_snapshot)) /\
  ~ per_day_inv
      (counts (snd (load_json false (Some "counts.json")
                      (snapshot_world backwards_snapshot)))) /\
  per_day_inv (counts tracked_world) /\
  ~ per_day_inv (counts (snd (_track_user clock_jan1 tracked_world))).
Proof. vm_compute. repeat split; congruence. Qed.

(** ** Blocks that find the entry points wrapped *)

(** C8 fails as stated: a block whose body raised leaves the entry points
    wrapped; the next block returns and leaves them the saved functions,
    which is not what they were before its start. The same holds for a
    block inside a block. *)
Lemma pair_changes_entry_points :
  fst (failing_block example_world) = Raise KeyError /\
  st left_wrapped Main button = Wrapped _wrap_button (Native Main button) /\
  fst (empty_block left_wrapped) = Ret tt /\
  st (snd (empty_block left_wrapped)) Main button = Native Main button /\
  st (snd (empty_block left_wrapped)) Main button <> st left_wrapped Main button /\
  st inside_block Main button = Wrapped _wrap_button (Native Main button) /\
  fst (empty_block inside_block) = Ret tt /\
  st (snd (empty_block inside_block)) Main button <> st inside_block Main button.
Proof. vm_compute. repeat split; congruence. Qed.

(** ** The round trip *)


(** ** The query condition of the dashboard *)

Lemma analytics_requested_iff q :
  analytics_requested q = true <->
  exists v, q !! "analytics" = Some v /\ contains "on" v = true.
Proof.
  unfold analytics_requested. destruct (q !! "analytics") as [v|].
  - split; [by eauto|]. by intros (? & [= <-] & ?).
  - split; [done|]. by intros (? & ? & _).
Qed.

Lemma prefix_iff n : forall h,
  String.prefix n h = true <-> exists post, h = n +:+ post.
Proof.
  induction n as [|a n IH]; intros h.
  - split; [|by destruct h]. intros _. by exists h.
  - destruct h as [|b h]; simpl.
    + split; [done|]. by intros (? & ?).
    + destruct (ascii_dec a b) as [->|Hne].
      * rewrite IH. split; intros (post & Hp); exists post.
        -- by rewrite Hp.
        -- by injection Hp.
      * split; [done|]. intros (post & Hp). by injection Hp.
Qed.

(** [contains needle hay] is the substring test. *)
Lemma contains_iff needle : forall hay,
  contains needle hay = true <-> exists pre post, hay = pre +:+ needle +:+ post.
Proof.
  induction hay as [|a hay IH].
  - cbn [contains]. rewrite orb_false_r, prefix_iff. split.
    + intros (post & ->). by exists "", post.
    + intros (pre & post & H). destruct pre; [by exists post|done].
  - cbn [contains]. rewrite orb_true_iff, prefix_iff, IH. split.
    + intros [(post & ->)|(pre & post & ->)].
      * by exists "", post.
      * by exists (String a pre), post.
    + intros (pre & post & H). destruct pre as [|b pre]; simpl in H.
      * left. by exists post.
      * right. injection H as -> ->. by exists pre, post.
Qed.

Section DashboardCondition.

Variable orig : place -> widget -> fn.
Variable firestore_save : gmap string pyval -> string -> string -> outcome unit.
Variable show_results :
  gmap string pyval ->
  (gmap string pyval -> outcome unit * gmap string pyval) ->
  option string -> outcome unit * gmap string pyval.

(** Without a save, [stop_tracking] writes the rule and the dashboard
    exactly when the value of [analytics] contains [on]. *)
Lemma stop_tracking_page clk unsafe_password w :
  page (snd (stop_tracking orig firestore_save show_results clk unsafe_password
               None None "counts" false w))
  = page w ++
    (if analytics_requested (query_params w) then [Markdown "---"; Dashboard] else []).
Proof.
  destruct w as [c s t f q pg lg].
  unfold stop_tracking, show_dashboard, save_firestore. cbn [given when].
  cbv beta iota delta [bind ret when restore_widgets assign write with_st with_page
                       with_counts counts session_state st files query_params page
                       log fst snd].
  destruct (analytics_requested q); cbv beta iota.
  - match goal with
    | |- context [show_results ?c ?r ?pw] => destruct (show_results c r pw)
    end.
    simpl. by rewrite <- app_assoc.
  - simpl. by rewrite app_nil_r.
Qed.

(** C6: the test of line 321 is a substring test. With [?analytics=none]
    in the URL, as with [?analytics=on], [stop_tracking] writes the rule
    and the dashboard. *)
Lemma dashboard_rendered_for_none clk :
  analytics_requested {["analytics" := "on"]} = true /\
  analytics_requested {["analytics" := "none"]} = true /\
  analytics_requested {["analytics" := "off"]} = false /\
  page (snd (stop_tracking orig firestore_save show_results clk None None None
               "counts" false
               (World example_counts ∅ orig ∅ {["analytics" := "none"]} [] [] 900)))
  = [Markdown "---"; Dashboard].
Proof.
  repeat split; try (vm_compute; reflexivity).
  rewrite stop_tracking_page. cbn [page query_params].
  assert (analytics_requested {["analytics" := "none"]} = true) as ->
    by (vm_compute; reflexivity).
  reflexivity.
Qed.

End DashboardCondition.

(** * Further properties *)

Section Patching.

Variable orig : place -> widget -> fn.
Variable firestore_load :
  gmap string pyval -> string -> string -> outcome unit * gmap string pyval.
Variable firestore_save :
  gmap string pyval -> string -> string -> outcome unit.
Variable show_results :
  gmap string pyval ->
  (gmap string pyval -> outcome unit * gmap string pyval) ->
  option string -> outcome unit * gmap string pyval.

(** X1. [start_tracking] patches the entry points last, and all at once:
    when it raises none is changed; when it returns each of the 29 is the
    wrapper of the function saved at module load, whatever it was before,
    so that a second start does not wrap a wrapper; [st.sidebar.chat_input]
    is never touched. *)
Theorem start_tracking_patches now0 clk verbose firestore_key_file
  firestore_collection_name load_from_json w :
  (forall e,
     fst (start_tracking orig firestore_load now0 clk verbose firestore_key_file
            firestore_collection_name load_from_json w) = Raise e ->
     st (snd (start_tracking orig firestore_load now0 clk verbose firestore_key_file
                firestore_collection_name load_from_json w)) = st w) /\
  (fst (start_tracking orig firestore_load now0 clk verbose firestore_key_file
          firestore_collection_name load_from_json w) = Ret tt ->
   forall p x, (p, x) <> (Sidebar, chat_input) ->
     st (snd (start_tracking orig firestore_load now0 clk verbose firestore_key_file
                firestore_collection_name load_from_json w)) p x
     = Wrapped (wrapper_of x) (orig p x)) /\
  st (snd (start_tracking orig firestore_load now0 clk verbose firestore_key_file
             firestore_collection_name load_from_json w)) Sidebar chat_input
  = st w Sidebar chat_input.
Proof.
  destruct (start_tracking_st orig firestore_load now0 clk verbose firestore_key_file
              firestore_collection_name load_from_json w)
    as [(e & w' & -> & Hst)|(w' & -> & HT & Hside)]; cbn [fst snd].
  - split; [done|]. split; [done|]. by rewrite Hst.
  - split; [done|]. split; [|done]. intros _. exact HT.
Qed.



End Patching.


(** ** [_track_user] at its edges *)

(** X3. With no day recorded, line 91 raises [IndexError] on [days[-1]]
    before anything is written: [_track_user] leaves the world as it was,
    and a rerun has only initialised the session record. *)
Theorem track_user_without_days r w v :
  counts w !! "per_day" = Some v ->
  py_getkey v "days" = Ret (PList []) ->
  _track_user (snd r) w = (Raise IndexError, w) /\
  rerun r w
  = (Raise IndexError, with_session (session_reset (fst r) (session_state w)) w).
Proof.
  intros Hp Hd.
  assert (forall w0, counts w0 !! "per_day" = Some v ->
            _track_user (snd r) w0 = (Raise IndexError, w0)) as Hrun.
  { intros w0 Hp0. unfold _track_user, open_day. mnorm.
    rewrite (counts_get_run _ _ _ Hp0). mnorm. by rewrite Hd. }
  split; [by apply Hrun|].
  unfold rerun. rewrite (bind_run _ _ _ _ _ (reset_session_state_run _ _)).
  by apply Hrun.
Qed.

Lemma count_run_bad_time clk w t e :
  shows (counts w) t ->
  tally_ok t ->
  last_time_error (session_state w !! "last_time") = Some e ->
  exists w',
    count_run clk w = (Raise e, w') /\
    shows (counts w')
      (Tally (views t) (runs t + 1) (days t) (day_views t) (bump_last (day_runs t) 1)) /\
    session_state w' = session_state w /\
    counts w' !! "total_time_seconds" = counts w !! "total_time_seconds".
Proof.
  intros (Hv & Hr & (s & Hs & Hnum) & (v & Hp & Hsh)) (Hne & Hlv & Hlr) Hlt.
  pose proof Hsh as (d & -> & Hdd & Hdv & Hdr).
  assert (day_runs t <> []) as Hner by by destruct (day_runs t), (days t).
  unfold count_run. mnorm.
  rewrite (counts_add_run _ _ _ Hr). mnorm.
  erewrite per_day_update_run; cycle 1.
  { wsimpl. rewrite lookup_insert_ne by done. exact Hp. }
  { exact Hdr. }
  { by apply incr_last_ints. }
  mnorm.
  erewrite counts_get_run; cycle 1.
  { wsimpl. rewrite !lookup_insert_ne by done. exact Hs. }
  mnorm. unfold session_get. wsimpl.
  set (w1 := with_counts _ _).
  assert (shows (counts w1)
            (Tally (views t) (runs t + 1) (days t) (day_views t)
               (bump_last (day_runs t) 1))) as Hsh1.
  { subst w1. wsimpl. repeat split; simpl.
    - by rewrite !lookup_insert_ne.
    - by rewrite lookup_insert_ne, lookup_insert_eq.
    - exists s. by rewrite !lookup_insert_ne.
    - eexists. rewrite lookup_insert_eq. split; [done|].
      by apply per_day_shows_set_runs with (sr := day_runs t). }
  assert (counts w1 !! "total_time_seconds" = counts w !! "total_time_seconds") as Ht1.
  { subst w1. wsimpl. by rewrite !lookup_insert_ne. }
  destruct (session_state w !! "last_time") as [[]|]; simplify_eq/=;
    by exists w1.
Qed.

(** Lines 91-95 write [counts["per_day"]] only. *)
Lemma per_day_update_keeps (P : gmap string pyval -> Prop) field f :
  (forall c v, P c -> P (<["per_day" := v]> c)) ->
  preserves (fun w => P (counts w)) (per_day_update field f).
Proof.
  intros HP. unfold per_day_update. pres_split; try pres_leaf.
  intros w Hw. repeat case_match; first [exact Hw | by apply HP].
Qed.

Lemma open_day_keeps (P : gmap string pyval -> Prop) day :
  (forall c v, P c -> P (<["per_day" := v]> c)) ->
  preserves (fun w => P (counts w)) (open_day day).
Proof.
  intros HP. unfold open_day, per_day_update. pres_split; try pres_leaf.
  all: intros w Hw; repeat case_match; first [exact Hw | by apply HP].
Qed.

Lemma open_day_frame day w k :
  k <> "per_day" -> counts (snd (open_day day w)) !! k = counts w !! k.
Proof.
  intros Hk. apply (open_day_keeps (fun c => c !! k = counts w !! k)); [|done].
  intros c v Hc. by rewrite lookup_insert_ne.
Qed.

(** X4. No rollback: when [last_time] is missing from the session, or is
    not a [datetime], [_track_user] raises at line 99 having opened the
    day and counted the script run, in the total and in the day; the page
    views, the time total and the session record are as they were. *)
Theorem track_user_no_rollback clk w t e :
  shows (counts w) t ->
  tally_ok t ->
  last_time_error (session_state w !! "last_time") = Some e ->
  exists w' v',
    _track_user clk w = (Raise e, w') /\
    counts w' !! "total_script_runs" = Some (PInt (runs t + 1)) /\
    counts w' !! "total_pageviews" = Some (PInt (views t)) /\
    counts w' !! "total_time_seconds" = counts w !! "total_time_seconds" /\
    counts w' !! "per_day" = Some v' /\
    per_day_shows v'
      (days (tally_open (date_str (today clk)) t))
      (day_views (tally_open (date_str (today clk)) t))
      (bump_last (day_runs (tally_open (date_str (today clk)) t)) 1) /\
    session_state w' = session_state w.
Proof.
  intros Hsh Hok Hlt.
  destruct (open_day_shows (date_str (today clk)) w t Hsh (proj1 Hok))
    as (w1 & Hrun1 & Hsh1 & Hs1).
  pose proof (open_day_frame (date_str (today clk)) w "total_time_seconds") as Hfr.
  rewrite Hrun1 in Hfr. cbn [snd] in Hfr.
  destruct (count_run_bad_time clk w1 _ e Hsh1 (tally_open_ok _ _ Hok))
    as (w2 & Hrun2 & Hsh2 & Hs2 & Ht2); [by rewrite Hs1|].
  assert (runs (tally_open (date_str (today clk)) t) = runs t) as Hr
    by (unfold tally_open; by case_bool_decide).
  assert (views (tally_open (date_str (today clk)) t) = views t) as Hv
    by (unfold tally_open; by case_bool_decide).
  destruct Hsh2 as (Hv2 & Hr2 & _ & (v' & Hp2 & Hsh2)). cbn [views runs] in Hv2, Hr2.
  exists w2, v'. split; [|repeat split].
  - unfold _track_user. by rewrite (bind_run _ _ _ _ _ Hrun1).
  - by rewrite Hr2, Hr.
  - by rewrite Hv2, Hv.
  - rewrite Ht2. by apply Hfr.
  - done.
  - done.
  - by rewrite Hs2.
Qed.

(** ** Totals and daily series *)

Lemma total_app l l' : total (l ++ l') = total l + total l'.
Proof. unfold total. induction l as [|x l IH]; simpl; lia. Qed.

Lemma total_bump_last l n : l <> [] -> total (bump_last l n) = total l + n.
Proof.
  intros Hl. destruct (snoc_cases l) as [->|(l0 & x & ->)]; [done|].
  rewrite bump_last_snoc, !total_app. unfold total. simpl. lia.
Qed.

(** X5. [_track_user] adds to a total what it adds to the last entry of
    the daily series: on a typed store it returns, and the differences
    between [total_pageviews] and the sum of [per_day.pageviews], and
    between [total_script_runs] and the sum of [per_day.script_runs], are
    what they were. *)
Theorem totals_follow_daily_series clk w t t0 b :
  shows (counts w) t ->
  tally_ok t ->
  session_state w !! "last_time" = Some (PDatetime t0) ->
  session_state w !! "user_tracked" = Some (PBool b) ->
  exists w' t',
    _track_user clk w = (Ret tt, w') /\
    shows (counts w') t' /\ tally_ok t' /\
    views t' - total (day_views t') = views t - total (day_views t) /\
    runs t' - total (day_runs t') = runs t - total (day_runs t).
Proof.
  intros Hsh Hok Hlt Hut.
  destruct (track_user_shows clk w t t0 b Hsh Hok Hlt Hut) as (w' & Hrun & Hsh' & _).
  pose proof (tally_open_ok (date_str (today clk)) t Hok) as Hok1.
  exists w', (tally_count (negb b) (tally_open (date_str (today clk)) t)).
  split; [done|]. split; [done|]. split; [by apply tally_count_ok|].
  destruct Hok1 as (Hne & Hlv & Hlr).
  assert (day_views (tally_open (date_str (today clk)) t) <> []) as Hnv
    by (by destruct (day_views _), (days (tally_open (date_str (today clk)) t))).
  assert (day_runs (tally_open (date_str (today clk)) t) <> []) as Hnr
    by (by destruct (day_runs _), (days (tally_open (date_str (today clk)) t))).
  cbn [views runs day_views day_runs tally_count].
  rewrite !total_bump_last by done.
  unfold tally_open. case_bool_decide; cbn [views runs day_views day_runs];
    rewrite ?total_app; unfold total; simpl; lia.
Qed.

(** ** The time total *)



(** ** The store after a reset *)

(** X7. After [reset_counts] the first rerun of a new session, on the day
    of the reset, returns and leaves one page view and one script run, and
    a [per_day] of two days: yesterday with zeros, today with one page view
    and one script run. *)
Theorem first_rerun_after_reset clk0 r w :
  valid_date (today clk0) = true ->
  today clk0 <> Date 1 1 1 ->
  today (snd r) = today clk0 ->
  new_session (session_state w) ->
  exists y w1 w2 v,
    day_before (today clk0) = Ret y /\
    reset_counts clk0 w = (Ret tt, w1) /\
    rerun r w1 = (Ret tt, w2) /\
    counts w2 !! "total_pageviews" = Some (PInt 1) /\
    counts w2 !! "total_script_runs" = Some (PInt 1) /\
    counts w2 !! "per_day" = Some v /\
    per_day_shows v [date_str y; date_str (today clk0)] [0; 1] [0; 1].
Proof.
  intros Hvalid Hmin Hday (Hut & Hlt).
  destruct (day_before_valid _ Hvalid Hmin) as (y & Hy & Hne & Hry & Hrt).
  pose proof (reset_counts_run clk0 w y Hy) as Hreset.
  set (w1 := with_counts _ w) in Hreset.
  assert (shows (counts w1) (Tally 0 0 [date_str y] [0] [0])) as Hsh.
  { subst w1. wsimpl. repeat split; simpl.
    - by rewrite !lookup_insert_ne, lookup_insert_eq by done.
    - by rewrite !lookup_insert_ne, lookup_insert_eq by done.
    - exists (PInt 0). by rewrite !lookup_insert_ne, lookup_insert_eq by done.
    - eexists. rewrite !lookup_insert_ne, lookup_insert_eq by done.
      split; [done|]. eexists. repeat split; reflexivity. }
  assert (tally_ok (Tally 0 0 [date_str y] [0] [0])) as Hok by (by repeat split).
  destruct (rerun_shows r w1 _ false Hsh Hok) as (w2 & Hrun & Hsh2 & _).
  { subst w1. wsimpl. by destruct Hut as [-> | ->]. }
  { subst w1. by wsimpl. }
  assert (tally_open (date_str (today (snd r))) (Tally 0 0 [date_str y] [0] [0])
          = Tally 0 0 [date_str y; date_str (today clk0)] [0; 0] [0; 0]) as Hopen.
  { unfold tally_open. rewrite Hday. cbn [days last]. rewrite bool_decide_false; [done|].
    intros Heq. apply Hne. apply date_str_inj; [done..|congruence]. }
  rewrite Hopen in Hsh2. destruct Hsh2 as (Hv2 & Hr2 & _ & (v & Hp & Hsh2)).
  exists y, w1, w2, v. repeat split; done.
Qed.


(** ** The keys of the store *)

Lemma dom_update_existing items : forall c : gmap string pyval,
  (forall s v, (s, v) ∈ items -> is_Some (c !! s)) ->
  dom (fold_left (fun c '(k, v) => <[k := v]> c) items c) = dom c.
Proof.
  induction items as [|[k v] items IH]; intros c Hc; [done|].
  simpl. rewrite IH.
  - apply dom_insert_lookup_L. apply (Hc k v). by left.
  - intros s x Hin. destruct (decide (k = s)) as [->|Hne].
    + rewrite lookup_insert_eq. eauto.
    + rewrite lookup_insert_ne by done. apply (Hc s x). by right.
Qed.

Lemma load_json_dom verbose l w :
  dom (counts (snd (load_json verbose l w))) = dom (counts w).
Proof.
  destruct l as [p|]; [|done]. rewrite load_json_counts.
  destruct (merge_snapshot_cases p w) as [(e & ->)|(j & items & Hf & -> & Hit)]; [done|].
  wsimpl. apply dom_update_existing. intros s v Hin. by apply (Hit s v).
Qed.

Lemma counts_add_dom k n w :
  dom (counts (snd (counts_add k n w))) = dom (counts w).
Proof.
  unfold counts_add, counts_get, counts_set. mnorm.
  destruct (counts w !! k) as [v|] eqn:Hk; mnorm; [|done].
  destruct (py_add v n); mnorm; [|done]. wsimpl.
  apply dom_insert_lookup_L. eauto.
Qed.

Lemma per_day_update_dom field f w :
  dom (counts (snd (per_day_update field f w))) = dom (counts w).
Proof.
  unfold per_day_update, counts_get, counts_set. mnorm.
  destruct (counts w !! "per_day") as [v|] eqn:Hk; mnorm; [|done].
  destruct (py_getkey v field); mnorm; [|done].
  destruct (f a); mnorm; [|done].
  destruct v; try done. wsimpl. apply dom_insert_lookup_L. eauto.
Qed.

Lemma preserves_dom {A} (D : gset string) (m : M A) :
  (forall w, dom (counts (snd (m w))) = dom (counts w)) ->
  preserves (fun w => dom (counts w) = D) m.
Proof. intros Hm w Hw. by rewrite Hm. Qed.

Ltac dom_split :=
  repeat first
    [ apply preserves_dom, counts_add_dom
    | apply preserves_dom, per_day_update_dom
    | apply preserves_bind; [|intros ?]
    | apply preserves_when ].

Lemma count_run_dom clk w :
  dom (counts (snd (count_run clk w))) = dom (counts w).
Proof.
  unfold count_run. rewrite bind_eq.
  pose proof (counts_add_dom "total_script_runs" (PInt 1) w) as H1.
  destruct (counts_add _ _ w) as [[[]|e1] w1]; simpl in H1; [|done].
  rewrite bind_eq.
  pose proof (per_day_update_dom "script_runs" incr_last w1) as H2.
  destruct (per_day_update _ _ w1) as [[[]|e2] w2]; simpl in H2;
    [|by cbn [snd]; rewrite H2].
  rewrite bind_eq. unfold counts_get at 1.
  destruct (counts w2 !! "total_time_seconds") as [total|] eqn:Ht;
    [|by cbn [snd]; rewrite H2].
  rewrite <- H1, <- H2.
  match goal with
  | |- dom (counts (snd (?m w2))) = _ =>
      change (preserves (fun w' => dom (counts w') = dom (counts w2)) m)
      || apply (fun H : preserves (fun w' => dom (counts w') = dom (counts w2)) m
                => H w2 eq_refl)
  end.
  dom_split; try pres_leaf.
  intros w' Hw'. unfold counts_set. wsimpl. rewrite <- Hw'.
  apply dom_insert_lookup_L. apply elem_of_dom. rewrite Hw'. apply elem_of_dom. eauto.
Qed.

Lemma open_day_dom day w : dom (counts (snd (open_day day w))) = dom (counts w).
Proof.
  apply (fun H : preserves (fun w' => dom (counts w') = dom (counts w)) (open_day day)
         => H w eq_refl).
  unfold open_day. dom_split; pres_leaf.
Qed.

(** X8. Neither the load of a snapshot, whatever the file holds, nor a
    rerun of the tracker adds a key to the store or removes one. *)
Theorem load_and_rerun_keep_keys verbose l r w :
  dom (counts (snd (load_json verbose l w))) = dom (counts w) /\
  dom (counts (snd (rerun r w))) = dom (counts w).
Proof.
  split; [apply load_json_dom|].
  unfold rerun. rewrite bind_eq, reset_session_state_run.
  unfold _track_user. rewrite bind_eq.
  pose proof (open_day_dom (date_str (today (snd r)))
                (with_session (session_reset (fst r) (session_state w)) w)) as H1.
  destruct (open_day _ _) as [[[]|e] w1]; simpl in H1; [|done].
  by rewrite count_run_dom.
Qed.

(** ** Snapshots *)

Lemma load_json_keeps_files (P : gmap string node -> Prop) verbose l :
  preserves (fun w => P (files w)) (load_json verbose l).
Proof.
  destruct l as [p|]; [|pres_leaf]. unfold load_json, merge_snapshot.
  pres_split; try pres_leaf.
  match goal with e : exn |- _ => destruct e end; pres_split; pres_leaf.
Qed.

(** X9. A snapshot that parses but is not an object (a list, a string, a
    number, [null]) never changes the store. *)
Theorem load_ignores_non_object verbose p w j :
  files w !! p = Some (File (Document j)) ->
  (forall l, j <> JObj l) ->
  counts (snd (load_json verbose (Some p) w)) = counts w.
Proof.
  intros Hf Hj. rewrite load_json_counts.
  destruct (merge_snapshot_cases p w) as [(e & ->)|(j' & items & Hf' & -> & Hit)]; [done|].
  rewrite Hf in Hf'. injection Hf' as <-.
  destruct items as [|[s v] items]; [done|].
  destruct (Hit s v) as [Hget _]; [by left|].
  destruct j; simpl in Hget; try done. by destruct (Hj l).
Qed.

(** X10. Loading the same snapshot object a second time changes nothing:
    the store after two loads is the store after one. *)
Theorem load_twice_is_load_once verbose verbose' p w l :
  files w !! p = Some (File (Document (JObj l))) ->
  counts (snd (load_json verbose' (Some p) (snd (load_json verbose (Some p) w))))
  = counts (snd (load_json verbose (Some p) w)).
Proof.
  intros Hf.
  destruct (load_json_object verbose p w l _ Hf eq_refl) as (w1 & Hrun1 & Hk1).
  rewrite Hrun1. cbn [snd].
  assert (files w1 !! p = Some (File (Document (JObj l)))) as Hf1.
  { pose proof (load_json_keeps_files (fun f => f !! p = Some (File (Document (JObj l))))
                  verbose (Some p) w Hf) as H.
    by rewrite Hrun1 in H. }
  destruct (load_json_object verbose' p w1 l _ Hf1 eq_refl) as (w2 & Hrun2 & Hk2).
  rewrite Hrun2. cbn [snd]. apply map_eq. intros k.
  rewrite Hk2, Hk1. destruct (counts w !! k) as [v|]; [|done]. simpl.
  by destruct (dict_get _ (KStr k)).
Qed.


(** The first value that cannot be written decides how [json.dump]
    ends. *)
Lemma encode_items_raises n l k v e :
  NoDup l.*1 ->
  (k, v) ∈ l -> json_encode n v = Raise e ->
  (forall k' v', (k', v') ∈ l -> k' <> k ->
                 json_native v' = true /\ (nesting v' <= n)%nat) ->
  encode_items n l = Raise e.
Proof.
  induction l as [|[k' v'] l IH]; intros Hnd Hin Hv Hrest;
    [by apply elem_of_nil in Hin|].
  cbn [encode_items]. csimpl in Hnd. apply NoDup_cons in Hnd as [Hk' Hnd].
  destruct (decide (k' = k)) as [->|Hne].
  - apply elem_of_cons in Hin as [[= ->]|Hin]; [by rewrite Hv|].
    destruct Hk'. by apply (list_elem_of_fmap_2 fst l (k, v)).
  - destruct (Hrest k' v') as [Hnat Hdepth]; [by left|done|].
    destruct (json_round_trip v' n Hnat Hdepth) as (j & -> & _). cbn [obind].
    rewrite IH; [done|done| |done|].
    + apply elem_of_cons in Hin as [[= -> ->]|Hin]; [done|done].
    + intros k2 v2 Hin2. apply Hrest. by right.
Qed.

(** X12. A store with one value that [json.dump] cannot write (a
    [datetime], an integer of more than 4300 digits, a value nested too
    deep): the save raises that value's exception after the file was opened
    and emptied, what is left in the file is no JSON document, the store is
    as it was, and the next load of the file returns, logs the error and
    leaves the store alone. *)
Theorem failed_save_leaves_unreadable_file verbose p w k v e :
  counts w !! k = Some v ->
  json_encode (stack w) v = Raise e ->
  (forall k' v', counts w !! k' = Some v' -> k' <> k ->
                 json_native v' = true /\ (nesting v' <= stack w)%nat) ->
  fst (open_snapshot p w) = Ret tt ->
  fst (save_json p w) = Raise e /\
  files (snd (save_json p w)) !! p = Some (File Garbled) /\
  counts (snd (save_json p w)) = counts w /\
  fst (load_json verbose (Some p) (snd (save_json p w))) = Ret tt /\
  counts (snd (load_json verbose (Some p) (snd (save_json p w)))) = counts w /\
  log (snd (load_json verbose (Some p) (snd (save_json p w))))
  = log w ++ [LogError ("Error loading counts from " +:+ p) JSONDecodeError].
Proof.
  intros Hk Hv Hrest Hp.
  destruct (open_snapshot_run p w Hp) as (f & Hopen).
  assert (save_json p w
          = (Raise e, with_files (<[p := File Garbled]> (<[p := File Garbled]> f)) w))
    as Hsave.
  { unfold save_json. rewrite (bind_run _ _ _ _ _ Hopen). unfold json_dump. wsimpl.
    rewrite (encode_items_raises _ (map_to_list (counts w)) k v e); [done| | |done|].
    - apply NoDup_fst_map_to_list.
    - by apply elem_of_map_to_list.
    - intros k' v' Hin Hne. apply elem_of_map_to_list in Hin. by apply (Hrest k' v'). }
  rewrite Hsave. cbn [fst snd]. wsimpl. split; [done|].
  split; [by rewrite lookup_insert_eq|]. split; [done|].
  unfold load_json, try_except, merge_snapshot, read_text. mnorm. wsimpl.
  rewrite lookup_insert_eq. done.
Qed.

(** ** The directory of the snapshot *)
















(** X20. When the parent of the snapshot path is a regular file, the save
    raises [FileExistsError] at line 310 and changes nothing, neither the
    file system nor the store. *)
Theorem save_under_a_file_raises p w t :
  node_at (files w) (parent (Path p)) = Some (File t) ->
  save_json p w = (Raise FileExistsError, w).
Proof.
  intros Hfile. unfold save_json, open_snapshot, mkdir.
  assert (mkdir_parents (root (parent (Path p))) (rparts (parent (Path p))) w
          = (Raise FileExistsError, w)) as Hmk.
  { destruct (parent (Path p)) as [r ps]. cbn [root rparts].
    destruct ps as [|a ps]; [done|].
    cbn [mkdir_parents]. unfold try_except, os_mkdir. rewrite Hfile.
    unfold unless_is_dir, is_dir. rewrite bind_eq. cbv beta iota. by rewrite Hfile. }
  by rewrite !bind_eq, Hmk.
Qed.


(** ** [start_tracking], [stop_tracking] and [track] as wholes *)

Section Wholes.

Variable orig : place -> widget -> fn.
Variable firestore_load :
  gmap string pyval -> string -> string -> outcome unit * gmap string pyval.
Variable firestore_save :
  gmap string pyval -> string -> string -> outcome unit.
Variable show_results :
  gmap string pyval ->
  (gmap string pyval -> outcome unit * gmap string pyval) ->
  option string -> outcome unit * gmap string pyval.




(** X15. [track] has no handler around the body: when the body raises,
    [track] raises the same exception from the state the body left, and
    [stop_tracking] does not run: where the body left the entry points
    alone, they are still the wrappers after the block. *)
Theorem body_exception_skips_stop now0 clk clk' unsafe_password save_to_json
  firestore_key_file firestore_collection_name verbose load_from_json body w w1 w2 e :
  start_tracking orig firestore_load now0 clk verbose firestore_key_file
    firestore_collection_name load_from_json w = (Ret tt, w1) ->
  body w1 = (Raise e, w2) ->
  st w2 = st w1 ->
  track orig firestore_load firestore_save show_results now0 clk clk'
    unsafe_password save_to_json firestore_key_file firestore_collection_name
    verbose load_from_json body w = (Raise e, w2) /\
  (forall p x, (p, x) <> (Sidebar, chat_input) ->
     st w2 p x = Wrapped (wrapper_of x) (orig p x)).
Proof.
  intros Hstart Hbody Hst. split.
  - unfold track. rewrite (bind_run _ _ _ _ _ Hstart).
    by rewrite (bind_raise _ _ _ _ _ Hbody).
  - destruct (start_tracking_st orig firestore_load now0 clk verbose firestore_key_file
                firestore_collection_name load_from_json w)
      as [(e' & w' & H & _)|(w' & H & HT & _)]; rewrite Hstart in H; [done|].
    injection H as <-. by rewrite Hst.
Qed.


End Wholes.


(** ** A counted session *)

(** X17. In a session whose [user_tracked] is true, a rerun never
    touches [total_pageviews] and leaves [user_tracked] as it is, whatever
    the store holds (typed or not) and whether the rerun returns or
    raises. *)
Theorem counted_session_never_recounted r w v :
  session_state w !! "user_tracked" = Some v ->
  truthy v = true ->
  counts (snd (rerun r w)) !! "total_pageviews" = counts w !! "total_pageviews" /\
  session_state (snd (rerun r w)) !! "user_tracked" = Some v.
Proof.
  intros Hut Htrue.
  set (I := fun w' : world =>
              counts w' !! "total_pageviews" = counts w !! "total_pageviews" /\
              session_state w' !! "user_tracked" = Some v).
  change (I (snd (rerun r w))).
  unfold rerun. rewrite bind_eq, reset_session_state_run.
  assert (I (with_session (session_reset (fst r) (session_state w)) w)) as H0.
  { split; [done|]. wsimpl. by rewrite session_reset_tracked, Hut. }
  revert H0. generalize (with_session (session_reset (fst r) (session_state w)) w).
  change (preserves I (_track_user (snd r))).
  assert (forall k x, k <> "total_pageviews" -> preserves I (counts_set k x)) as Hset.
  { intros k x Hk w' [Hc Hs]. split; [|done]. unfold counts_set. wsimpl.
    by rewrite lookup_insert_ne. }
  assert (forall field f, preserves I (per_day_update field f)) as Hpd.
  { intros field f. unfold per_day_update. pres_split; try pres_leaf.
    intros w' Hw'. repeat case_match; first [exact Hw' | by apply Hset]. }
  unfold _track_user. apply preserves_bind; [|intros _].
  { unfold open_day. apply preserves_bind; [pres_leaf|intros ?].
    apply preserves_bind; [pres_leaf|intros ?].
    apply preserves_bind; [pres_leaf|intros ?].
    apply preserves_when.
    apply preserves_bind; [apply Hpd|intros _].
    apply preserves_bind; [apply Hpd|intros _]. apply Hpd. }
  unfold count_run. apply preserves_bind; [|intros _].
  { unfold counts_add. apply preserves_bind; [pres_leaf|intros ?].
    apply preserves_bind; [pres_leaf|intros ?]. by apply Hset. }
  apply preserves_bind; [apply Hpd|intros _].
  apply preserves_bind; [pres_leaf|intros ?].
  apply preserves_bind; [pres_leaf|intros ?].
  apply preserves_bind; [pres_leaf|intros ?].
  apply preserves_bind; [pres_leaf|intros ?].
  apply preserves_bind; [by apply Hset|intros _].
  apply preserves_bind; [|intros _].
  { intros w' [Hc Hs]. split; [done|]. unfold session_set. wsimpl.
    by rewrite lookup_insert_ne. }
  intros w' [Hc Hs]. rewrite bind_eq, (session_get_run _ _ _ Hs). cbv beta iota.
  by rewrite Htrue.
Qed.

(** ** The [verbose] flag *)

Lemma alike_bind {A B} (m1 m2 : M A) (k1 k2 : A -> M B) :
  alike m1 m2 -> (forall a, alike (k1 a) (k2 a)) -> alike (bind m1 k1) (bind m2 k2).
Proof.
  intros Hm Hk w1 w2 Hw. rewrite !bind_eq.
  destruct (Hm w1 w2 Hw) as [Ho Hs].
  destruct (m1 w1) as [[a1|e1] w1'], (m2 w2) as [[a2|e2] w2']; simplify_eq/=;
    [by apply Hk|done].
Qed.

Lemma alike_try_except {A} (m1 m2 : M A) h1 h2 :
  alike m1 m2 -> (forall e, alike (h1 e) (h2 e)) ->
  alike (try_except m1 h1) (try_except m2 h2).
Proof.
  intros Hm Hh w1 w2 Hw. unfold try_except.
  destruct (Hm w1 w2 Hw) as [Ho Hs].
  destruct (m1 w1) as [[a1|e1] w1'], (m2 w2) as [[a2|e2] w2']; simplify_eq/=;
    [done|by apply Hh].
Qed.

Lemma alike_only_logs m1 m2 : only_logs m1 -> only_logs m2 -> alike m1 m2.
Proof.
  intros H1 H2 w1 w2 Hw. destruct (H1 w1) as [-> Hs1], (H2 w2) as [-> Hs2].
  split; [done|]. unfold same_but_log in *. intuition congruence.
Qed.

Lemma only_logs_ret : only_logs (ret tt).
Proof. by intros w. Qed.

Lemma only_logs_bind m1 m2 : only_logs m1 -> only_logs m2 -> only_logs (m1 ;; m2).
Proof.
  intros H1 H2 w. rewrite bind_eq. destruct (H1 w) as [Ho Hs].
  destruct (m1 w) as [[[]|e] w']; simplify_eq/=.
  destruct (H2 w') as [-> Hs']. split; [done|].
  unfold same_but_log in *. intuition congruence.
Qed.

Lemma only_logs_when b m : only_logs m -> only_logs (when b m).
Proof. destruct b; [done|]. intros _. apply only_logs_ret. Qed.

Lemma only_logs_emit r : only_logs (emit r).
Proof. by intros w. Qed.

Lemma only_logs_emit_counts : only_logs emit_counts.
Proof. by intros w. Qed.

(** A statement that does not read the log is [alike] itself. *)
Ltac alike_leaf :=
  let w1 := fresh "w" in
  let w2 := fresh "w" in
  intros w1 w2 (Hc & Hs & Ht & Hf & Hq & Hp & Hk);
  repeat first
    [ progress cbv beta iota delta
        [counts_get counts_set session_get session_set session_has
         assign lift ret raise read_text counts_update]
    | progress rewrite ?Hc, ?Hs, ?Ht, ?Hf, ?Hq, ?Hp, ?Hk
    | case_match ];
  simplify_eq; cbn [fst snd]; wsimpl; by repeat split.

Ltac alike_split :=
  repeat first
    [ apply alike_bind; [|intros ?]
    | match goal with
      | |- alike (when ?b _) (when ?b _) => destruct b; cbn [when]
      end ].

Lemma alike_rerun r : alike (rerun r) (rerun r).
Proof.
  unfold rerun, reset_session_state, _track_user, open_day, count_run,
    counts_add, per_day_update.
  alike_split; alike_leaf.
Qed.

Lemma alike_load_json verbose verbose' l :
  alike (load_json verbose l) (load_json verbose' l).
Proof.
  destruct l as [p|]; [|alike_leaf]. unfold load_json.
  apply alike_try_except.
  - apply alike_bind; [|intros _].
    + unfold merge_snapshot. alike_split; alike_leaf.
    + apply alike_only_logs; apply only_logs_when;
        repeat apply only_logs_bind;
        first [apply only_logs_emit | apply only_logs_emit_counts].
  - intros e. apply alike_only_logs; destruct e;
      first [apply only_logs_when; apply only_logs_emit | apply only_logs_emit].
Qed.

Section Verbose.

Variable orig : place -> widget -> fn.
Variable firestore_load :
  gmap string pyval -> string -> string -> outcome unit * gmap string pyval.

Lemma alike_load_firestore key_file collection :
  alike (load_firestore firestore_load key_file collection)
        (load_firestore firestore_load key_file collection).
Proof.
  unfold load_firestore, wants_firestore_load.
  apply alike_bind.
  - destruct (given key_file); [|alike_leaf]. alike_split; alike_leaf.
  - intros [] ; destruct key_file; try alike_leaf.
    apply alike_bind; [|intros _; alike_leaf].
    intros w1 w2 (Hc & Hs & Ht & Hf & Hq & Hp & Hk). rewrite Hc.
    destruct (firestore_load _ _ _) as [o c]. by repeat split.
Qed.

Lemma alike_patch_widgets : alike (patch_widgets orig) (patch_widgets orig).
Proof. unfold patch_widgets. alike_split; alike_leaf. Qed.

(** X18. [verbose] changes nothing but the log: from the same state,
    [start_tracking] with and without it gives the same outcome (the same
    return or the same exception) and the same store, session record,
    widget entry points and files. *)
Theorem verbose_only_logs now0 clk verbose verbose' key_file collection l w :
  fst (start_tracking orig firestore_load now0 clk verbose key_file collection l w)
  = fst (start_tracking orig firestore_load now0 clk verbose' key_file collection l w) /\
  counts (snd (start_tracking orig firestore_load now0 clk verbose key_file collection l w))
  = counts (snd (start_tracking orig firestore_load now0 clk verbose' key_file collection l w)) /\
  session_state
    (snd (start_tracking orig firestore_load now0 clk verbose key_file collection l w))
  = session_state
      (snd (start_tracking orig firestore_load now0 clk verbose' key_file collection l w)) /\
  st (snd (start_tracking orig firestore_load now0 clk verbose key_file collection l w))
  = st (snd (start_tracking orig firestore_load now0 clk verbose' key_file collection l w)) /\
  files (snd (start_tracking orig firestore_load now0 clk verbose key_file collection l w))
  = files (snd (start_tracking orig firestore_load now0 clk verbose' key_file collection l w)).
Proof.
  assert (alike (start_tracking orig firestore_load now0 clk verbose key_file collection l)
                (start_tracking orig firestore_load now0 clk verbose' key_file collection l))
    as H.
  { unfold start_tracking.
    apply alike_bind; [apply alike_load_firestore|intros _].
    apply alike_bind; [apply alike_load_json|intros _].
    apply alike_bind; [apply alike_rerun|intros _].
    apply alike_bind; [apply alike_patch_widgets|intros _].
    apply alike_only_logs; apply only_logs_when; apply only_logs_emit. }
  destruct (H w w) as (Ho & Hc & Hs & Ht & Hf & _); [by repeat split|].
  by repeat split.
Qed.

End Verbose.

(** ** The theorems at work on the example states *)

Lemma example_shows : shows (counts example_world) example_tally.
Proof.
  split; [reflexivity|]. split; [reflexivity|]. split.
  - exists (PInt 0). split; reflexivity.
  - eexists. split; [reflexivity|]. eexists. repeat split; reflexivity.
Defined.

Lemma example_tally_ok : tally_ok example_tally.
Proof. repeat split. discriminate. Defined.

Lemma one_pageview_per_session_witness :
  exists w1 w',
    rerun (1704186000000000, clock_jan2) example_world = (Ret tt, w1) /\
    counts w1 !! "total_pageviews" = Some (PInt (views example_tally + 1)) /\
    reruns [(1704186070000000, clock_jan2); (1704272400000000, clock_jan3)] w1
      = (Ret tt, w') /\
    reruns [(1704186000000000, clock_jan2); (1704186070000000, clock_jan2);
            (1704272400000000, clock_jan3)] example_world = (Ret tt, w') /\
    counts w' !! "total_pageviews" = Some (PInt (views example_tally + 1)) /\
    counts w' !! "total_script_runs" =
      Some (PInt (runs example_tally + Z.of_nat (length
        [(1704186000000000, clock_jan2); (1704186070000000, clock_jan2);
         (1704272400000000, clock_jan3)]))).
Proof.
  apply (one_pageview_per_session (1704186000000000, clock_jan2)
           [(1704186070000000, clock_jan2); (1704272400000000, clock_jan3)]
           example_world example_tally).
  - exact example_shows.
  - exact example_tally_ok.
  - split; left; reflexivity.
Defined.

Lemma new_day_by_last_entry_witness :
  exists v',
    open_day (date_str (today clock_jan3)) example_world =
      (Ret tt, with_counts (<["per_day" := v']> (counts example_world)) example_world) /\
    per_day_shows v'
      (["2024-01-01"; "2024-01-02"] ++ [date_str (today clock_jan3)])
      ([0; 1] ++ [0]) ([0; 2] ++ [0]) /\
    _track_user clock_jan3 example_world =
      count_run clock_jan3
        (with_counts (<["per_day" := v']> (counts example_world)) example_world).
Proof.
  refine (proj1 (new_day_by_last_entry clock_jan3 example_world
                   (PDict [(KStr "days", PList [PStr "2024-01-01"; PStr "2024-01-02"]);
                           (KStr "pageviews", PList [PInt 0; PInt 1]);
                           (KStr "script_runs", PList [PInt 0; PInt 2])])
                   ["2024-01-01"; "2024-01-02"] [0; 1] [0; 2] _ _ _) _).
  - reflexivity.
  - eexists. repeat split; reflexivity.
  - discriminate.
  - vm_compute. discriminate.
Defined.

Lemma merge_takes_known_keys_witness :
  exists w',
    load_json true (Some "counts.json") (snapshot_world partial_snapshot) = (Ret tt, w') /\
    dom (counts w') = dom (counts (snapshot_world partial_snapshot)) /\
    forall k,
      (forall v x, counts (snapshot_world partial_snapshot) !! k = Some v ->
                   py_getkey (json_decode partial_snapshot) k = Ret x ->
                   counts w' !! k = Some x) /\
      (counts (snapshot_world partial_snapshot) !! k = None -> counts w' !! k = None) /\
      (forall v, counts (snapshot_world partial_snapshot) !! k = Some v ->
                 py_getkey (json_decode partial_snapshot) k = Raise KeyError ->
                 counts w' !! k = Some v).
Proof.
  apply (merge_takes_known_keys true "counts.json" (snapshot_world partial_snapshot)
           [("total_pageviews", JInt 40); ("visitors", JInt 7)]).
  reflexivity.
Defined.


Lemma per_day_invariant_kept_witness :
  per_day_inv (counts (snd (reset_counts clock_jan3 (snapshot_world partial_snapshot)))) /\
  ((forall d, last_day (counts (snapshot_world partial_snapshot)) = Some d ->
              String.leb d (date_str (today clock_jan3)) = true) ->
   per_day_inv (counts (snd (_track_user clock_jan3 (snapshot_world partial_snapshot))))) /\
  ((forall j v,
      files (snapshot_world partial_snapshot) !! "counts.json" = Some (File (Document j)) ->
      py_getkey (json_decode j) "per_day" = Ret v -> per_day_ok v = true) ->
   per_day_inv
     (counts (snd (load_json false (Some "counts.json")
                     (snapshot_world partial_snapshot))))).
Proof.
  apply (per_day_invariant_kept clock_jan3 false "counts.json"
           (snapshot_world partial_snapshot)).
  vm_compute. reflexivity.
Defined.

Lemma track_restores_widgets_witness :
  st inside_block Sidebar slider = Wrapped _wrap_value (Native Sidebar slider) /\
  st (snd (track Native no_load no_save plain_dashboard 1704186000000000
             clock_jan2 clock_jan2 None (Some "counts.json") None "counts" false
             None (ret tt) example_world)) Sidebar slider
  = Native Sidebar slider.
Proof.
  pose proof (track_restores_widgets Native no_load no_save plain_dashboard
                1704186000000000 clock_jan2 clock_jan2 None (Some "counts.json") None
                "counts" false None (ret tt) example_world inside_block inside_block)
    as H.
  destruct H as (Htrack & Hpatched & _).
  - vm_compute. reflexivity.
  - reflexivity.
  - destruct (Hpatched Sidebar slider) as (Hw & Hr & _); [discriminate|].
    split; [exact Hw|]. rewrite Htrack. exact Hr.
Defined.

Lemma state_dict_emptied_on_every_run_witness :
  session_state remembering_world !! "state_dict" =
    Some (PDict [(KStr "Write your name", PStr "Ada")]) /\
  session_state (snd (rerun (1704186060000000, clock_jan2) remembering_world))
    !! "state_dict" = Some (PDict []) /\
  session_state (snd (rerun (1704186060000000, clock_jan2) remembering_world))
    !! "state_dic" = None.
Proof.
  split; [reflexivity|].
  refine (proj1 (state_dict_emptied_on_every_run Native no_load
            (1704186060000000, clock_jan2) 1704186060000000 clock_jan2 false None
            "counts" None remembering_world _)).
  reflexivity.
Defined.

Lemma reset_counts_frame_witness :
  day_before (today clock_mar1) = Ret (Date 2024 2 29) /\
  toordinal (Date 2024 2 29) = 738945 /\
  toordinal (today clock_mar1) = 738946 /\
  exists w',
    reset_counts clock_mar1 example_world = (Ret tt, w') /\
    counts w' !! "per_day" =
      Some (PDict [(KStr "days", PList [PStr "2024-02-29"]);
                   (KStr "pageviews", PList [PInt 0]);
                   (KStr "script_runs", PList [PInt 0])]) /\
    counts w' !! "total_pageviews" = Some (PInt 0) /\
    counts w' !! "loaded_from_firestore" = Some (PBool false) /\
    (forall key_file,
       fst (wants_firestore_load key_file w') =
       fst (wants_firestore_load key_file example_world)).
Proof.
  destruct (reset_counts_frame clock_mar1 example_world)
    as (y & w' & Hy & _ & _ & _ & Hord & Hrun & Hviews & _ & _ & Hdays & _ & _ & _
        & Hflag & Hload & _).
  - reflexivity.
  - discriminate.
  - assert (y = Date 2024 2 29) as -> by (vm_compute in Hy; congruence).
    split; [exact Hy|]. split; [reflexivity|]. split; [reflexivity|].
    exists w'. split; [exact Hrun|]. split; [exact Hdays|]. split; [exact Hviews|].
    split; [exact Hflag|]. exact Hload.
Defined.

(** ** The further properties at work on the example states *)


Lemma track_user_without_days_witness :
  _track_user clock_jan2 no_days_world = (Raise IndexError, no_days_world) /\
  rerun (1704186000000000, clock_jan2) no_days_world
  = (Raise IndexError,
     with_session (session_reset 1704186000000000 (session_state no_days_world))
       no_days_world).
Proof.
  apply (track_user_without_days (1704186000000000, clock_jan2) no_days_world
           (PDict [(KStr "days", PList []);
                   (KStr "pageviews", PList []);
                   (KStr "script_runs", PList [])])); reflexivity.
Defined.

Lemma track_user_no_rollback_witness :
  fst (_track_user clock_jan2 odd_session_world) = Raise TypeError /\
  counts (snd (_track_user clock_jan2 odd_session_world)) !! "total_script_runs"
  = Some (PInt 3) /\
  counts (snd (_track_user clock_jan2 odd_session_world)) !! "total_pageviews"
  = Some (PInt 1) /\
  session_state (snd (_track_user clock_jan2 odd_session_world))
  = session_state odd_session_world.
Proof.
  destruct (track_user_no_rollback clock_jan2 odd_session_world example_tally TypeError)
    as (w' & v' & Hrun & Hruns & Hviews & _ & _ & _ & Hsession).
  - exact example_shows.
  - exact example_tally_ok.
  - reflexivity.
  - rewrite Hrun. cbn [fst snd]. split; [reflexivity|].
    split; [exact Hruns|]. split; [exact Hviews|exact Hsession].
Defined.

Lemma totals_follow_daily_series_witness :
  exists w' t',
    _track_user clock_jan3 tracked_world = (Ret tt, w') /\
    shows (counts w') t' /\ tally_ok t' /\
    views t' - total (day_views t')
    = views example_tally - total (day_views example_tally) /\
    runs t' - total (day_runs t')
    = runs example_tally - total (day_runs example_tally).
Proof.
  apply (totals_follow_daily_series clock_jan3 tracked_world example_tally
           1704186000000000 true).
  - exact example_shows.
  - exact example_tally_ok.
  - reflexivity.
  - reflexivity.
Defined.


Lemma first_rerun_after_reset_witness :
  exists w1 w2 v,
    reset_counts clock_mar1 example_world = (Ret tt, w1) /\
    rerun (1709283600000000, clock_mar1) w1 = (Ret tt, w2) /\
    counts w2 !! "total_pageviews" = Some (PInt 1) /\
    counts w2 !! "total_script_runs" = Some (PInt 1) /\
    counts w2 !! "per_day" = Some v /\
    per_day_shows v ["2024-02-29"; "2024-03-01"] [0; 1] [0; 1].
Proof.
  destruct (first_rerun_after_reset clock_mar1 (1709283600000000, clock_mar1)
              example_world)
    as (y & w1 & w2 & v & Hy & Hreset & Hrun & Hviews & Hruns & Hday & Hshows).
  - reflexivity.
  - discriminate.
  - reflexivity.
  - split; left; reflexivity.
  - assert (y = Date 2024 2 29) as -> by (vm_compute in Hy; congruence).
    exists w1, w2, v. split; [exact Hreset|]. split; [exact Hrun|].
    split; [exact Hviews|]. split; [exact Hruns|]. split; [exact Hday|exact Hshows].
Defined.

Lemma load_ignores_non_object_witness :
  counts (snd (load_json true (Some "counts.json")
                 (snapshot_world (JArr [JStr "total_pageviews"; JInt 40]))))
  = counts (snapshot_world (JArr [JStr "total_pageviews"; JInt 40])).
Proof.
  apply (load_ignores_non_object true "counts.json"
           (snapshot_world (JArr [JStr "total_pageviews"; JInt 40]))
           (JArr [JStr "total_pageviews"; JInt 40])).
  - reflexivity.
  - discriminate.
Defined.

Lemma load_twice_is_load_once_witness :
  counts (snd (load_json false (Some "counts.json")
                 (snd (load_json true (Some "counts.json")
                         (snapshot_world partial_snapshot)))))
  = counts (snd (load_json true (Some "counts.json") (snapshot_world partial_snapshot))).
Proof.
  apply (load_twice_is_load_once true false "counts.json"
           (snapshot_world partial_snapshot)
           [("total_pageviews", JInt 40); ("visitors", JInt 7)]).
  reflexivity.
Defined.


Lemma failed_save_leaves_unreadable_file_witness :
  fst (save_json "counts.json" dated_world) = Raise TypeError /\
  files (snd (save_json "counts.json" dated_world)) !! "counts.json"
  = Some (File Garbled) /\
  counts (snd (save_json "counts.json" dated_world)) = counts dated_world /\
  fst (load_json false (Some "counts.json") (snd (save_json "counts.json" dated_world)))
  = Ret tt /\
  counts (snd (load_json false (Some "counts.json")
                 (snd (save_json "counts.json" dated_world))))
  = counts dated_world /\
  log (snd (load_json false (Some "counts.json")
              (snd (save_json "counts.json" dated_world))))
  = log dated_world
    ++ [LogError ("Error loading counts from " +:+ "counts.json") JSONDecodeError].
Proof.
  apply (failed_save_leaves_unreadable_file false "counts.json" dated_world
           "start_time" (PDatetime 1704186000000000) TypeError).
  - reflexivity.
  - reflexivity.
  - intros k' v' Hk' Hne.
    assert (delete "start_time" (counts dated_world) !! k' = Some v') as Hdel
      by (by rewrite lookup_delete_ne).
    clear Hk' Hne. revert k' v' Hdel.
    change (storable (stack dated_world) (delete "start_time" (counts dated_world))).
    refine (bool_decide_unpack _ _). vm_compute. exact I.
  - vm_compute. reflexivity.
Defined.



Lemma body_exception_skips_stop_witness :
  failing_block example_world = (Raise KeyError, inside_block) /\
  st inside_block Sidebar button = Wrapped _wrap_button (Native Sidebar button).
Proof.
  destruct (body_exception_skips_stop Native no_load no_save plain_dashboard
              1704186000000000 clock_jan2 clock_jan2 None None None "counts" false
              None (raise KeyError) example_world inside_block inside_block KeyError)
    as (Htrack & Hst).
  - vm_compute. reflexivity.
  - reflexivity.
  - reflexivity.
  - split; [exact Htrack|]. apply (Hst Sidebar button). discriminate.
Defined.


Lemma counted_session_never_recounted_witness :
  counts (snd (rerun (1704272400000000, clock_jan3) tracked_world)) !! "total_pageviews"
  = counts tracked_world !! "total_pageviews" /\
  session_state (snd (rerun (1704272400000000, clock_jan3) tracked_world))
    !! "user_tracked" = Some (PBool true).
Proof.
  apply (counted_session_never_recounted (1704272400000000, clock_jan3) tracked_world
           (PBool true)); reflexivity.
Defined.


Lemma save_under_a_file_raises_witness :
  save_json "data/counts.json" blocked_world = (Raise FileExistsError, blocked_world).
Proof.
  apply (save_under_a_file_raises "data/counts.json" blocked_world Garbled).
  reflexivity.
Defined.

